(** * GitHub OAuth service of readthedocs: a shallow embedding

    This development models [readthedocs/oauth/services/github.py]:
    the class [GitHubService] with its methods [sync],
    [sync_repositories], [sync_organizations], [create_repository],
    [create_organization], [paginate], [setup_webhook] and
    [get_token_for_project].

    The Python code is effectful: it talks to the GitHub REST API through
    an HTTP session, reads and writes rows through the Django ORM, writes
    to a logger and raises exceptions.  The embedding threads an explicit
    [World] (database tables, log, HTTP requests issued) through a small
    state-and-exception monad; the answers of the outside world (HTTP
    responses, credential queries, the token API) are an [Env] record. *)

From Stdlib Require Import List String Ascii ZArith Bool Arith Lia.
Import ListNotations.
Local Open Scope string_scope.

Set Warnings "-register-all".

(** ** Python values

    The objects that [resp.json()] yields: JSON null, booleans, numbers,
    strings, arrays and objects.  An object keeps its pairs in order, the
    order in which Python iterates over the keys of the parsed dict.
    JSON reals are left out: for every operation used by the service
    (subscripting, truth value, iteration, [.get]) they behave as the
    integers do. *)

Inductive pyval : Type :=
| VNone
| VBool (b : bool)
| VInt (z : Z)
| VStr (s : string)
| VList (l : list pyval)
| VDict (d : list (string * pyval)).

(** Structural induction that also reaches the values nested in lists
    and dicts. *)
Section pyval_nested_ind.
Variable P : pyval -> Prop.
Hypothesis HNone : P VNone.
Hypothesis HBool : forall b, P (VBool b).
Hypothesis HInt : forall z, P (VInt z).
Hypothesis HStr : forall s, P (VStr s).
Hypothesis HList : forall l, Forall P l -> P (VList l).
Hypothesis HDict : forall d, Forall (fun kv => P (snd kv)) d -> P (VDict d).

Fixpoint pyval_nested_ind (v : pyval) : P v :=
  match v with
  | VNone => HNone
  | VBool b => HBool b
  | VInt z => HInt z
  | VStr s => HStr s
  | VList l =>
      HList l ((fix go (l : list pyval) : Forall P l :=
                match l with
                | [] => Forall_nil _
                | x :: r => Forall_cons x (pyval_nested_ind x) (go r)
                end) l)
  | VDict d =>
      HDict d ((fix go (d : list (string * pyval))
                : Forall (fun kv => P (snd kv)) d :=
                match d with
                | [] => Forall_nil _
                | kv :: r =>
                    @Forall_cons _ (fun kv => P (snd kv)) kv r
                      (pyval_nested_ind (snd kv)) (go r)
                end) d)
  end.
End pyval_nested_ind.

(** Equality test on values, used where the ORM compares a column with a
    lookup argument. *)
Fixpoint pyval_eqb (a b : pyval) {struct a} : bool :=
  match a, b with
  | VNone, VNone => true
  | VBool x, VBool y => Bool.eqb x y
  | VInt x, VInt y => Z.eqb x y
  | VStr x, VStr y => String.eqb x y
  | VList l1, VList l2 =>
      (fix go (l1 l2 : list pyval) {struct l1} : bool :=
         match l1, l2 with
         | [], [] => true
         | x :: r1, y :: r2 => pyval_eqb x y && go r1 r2
         | _, _ => false
         end) l1 l2
  | VDict d1, VDict d2 =>
      (fix go (d1 d2 : list (string * pyval)) {struct d1} : bool :=
         match d1, d2 with
         | [], [] => true
         | (k1, x) :: r1, (k2, y) :: r2 =>
             String.eqb k1 k2 && pyval_eqb x y && go r1 r2
         | _, _ => false
         end) d1 d2
  | _, _ => false
  end.

(** ** Exceptions

    The exception classes that can travel through the service.  A class
    stands for itself and its subclasses ([ValueError] for the JSON
    decoding error of [resp.json()], [RequestException] for every
    transport error of the HTTP library).  All of them derive from
    [Exception]. *)
Inductive exn : Type :=
| KeyError (key : string)
| TypeError
| ValueError
| AttributeError
| RecursionError
| DoesNotExist
| MultipleObjectsReturned
| RequestException
| OtherError (cls : string)
| Exception_ (msg : string).

Inductive result (A : Type) : Type :=
| Ok (a : A)
| Raise (e : exn).
Arguments Ok {A} a.
Arguments Raise {A} e.

(** ** The operations of Python that the service applies to values *)
Module Py.

(** [bool(v)] *)
Definition truthy (v : pyval) : bool :=
  match v with
  | VNone => false
  | VBool b => b
  | VInt z => negb (Z.eqb z 0)
  | VStr s => negb (String.eqb s "")
  | VList l => match l with [] => false | _ => true end
  | VDict d => match d with [] => false | _ => true end
  end.

(** [v is False] *)
Definition is_False (v : pyval) : bool :=
  match v with
  | VBool false => true
  | _ => false
  end.

(** Lookup of a key in a dict. *)
Fixpoint lookup (k : string) (d : list (string * pyval)) : option pyval :=
  match d with
  | [] => None
  | (k', v) :: r => if String.eqb k k' then Some v else lookup k r
  end.

(** [v[k]] for a string [k]: [KeyError] on a dict without the key,
    [TypeError] on every other value (a string or a list wants integer
    indices, the others are not subscriptable). *)
Definition subscript (v : pyval) (k : string) : result pyval :=
  match v with
  | VDict d =>
      match lookup k d with
      | Some x => Ok x
      | None => Raise (KeyError k)
      end
  | _ => Raise TypeError
  end.

(** [v.get(k, default)]: only a dict has the method. *)
Definition get (v : pyval) (k : string) (default : pyval) : result pyval :=
  match v with
  | VDict d =>
      match lookup k d with
      | Some x => Ok x
      | None => Ok default
      end
  | _ => Raise AttributeError
  end.

(** The one-character strings of a string, as [for c in s] yields them. *)
Fixpoint chars (s : string) : list pyval :=
  match s with
  | EmptyString => []
  | String c r => VStr (String c EmptyString) :: chars r
  end.

(** [iter(v)], run to the end: the items of a list, the keys of a dict,
    the characters of a string; the other values are not iterable. *)
Definition iter (v : pyval) : result (list pyval) :=
  match v with
  | VList l => Ok l
  | VDict d => Ok (map (fun kv => VStr (fst kv)) d)
  | VStr s => Ok (chars s)
  | _ => Raise TypeError
  end.

End Py.

(** ** Data model *)

(** The ORM classes [RemoteOrganization] and [RemoteRepository] are
    declared in [readthedocs/oauth/models.py], which is not among the
    sources.  The records below carry the attributes that the service
    reads and writes; a row is identified by its primary key [pk], a user
    by the key of the [User] row, an account by the key of the
    [SocialAccount] row.  The many-to-many relation [users] is the list of
    user keys attached to the row.  Attributes assigned from the API
    payload hold the Python value that was assigned. *)
Module RemoteOrganization.
(** Modelled from the spec: the class [RemoteOrganization] of the absent
    [readthedocs/oauth/models.py]: slug, display name, URL, email, avatar
    URL, raw JSON snapshot, owning account, set of local users. *)
Record t : Type := mk {
  pk : nat;
  slug : pyval;
  users : list nat;
  account : nat;
  url : pyval;
  name : pyval;
  email : pyval;
  avatar_url : pyval;
  json : pyval
}.

Definition set_slug (x : pyval) (r : t) : t :=
  mk (pk r) x (users r) (account r) (url r) (name r) (email r) (avatar_url r) (json r).
Definition set_users (x : list nat) (r : t) : t :=
  mk (pk r) (slug r) x (account r) (url r) (name r) (email r) (avatar_url r) (json r).
Definition set_account (x : nat) (r : t) : t :=
  mk (pk r) (slug r) (users r) x (url r) (name r) (email r) (avatar_url r) (json r).
Definition set_url (x : pyval) (r : t) : t :=
  mk (pk r) (slug r) (users r) (account r) x (name r) (email r) (avatar_url r) (json r).
Definition set_name (x : pyval) (r : t) : t :=
  mk (pk r) (slug r) (users r) (account r) (url r) x (email r) (avatar_url r) (json r).
Definition set_email (x : pyval) (r : t) : t :=
  mk (pk r) (slug r) (users r) (account r) (url r) (name r) x (avatar_url r) (json r).
Definition set_avatar_url (x : pyval) (r : t) : t :=
  mk (pk r) (slug r) (users r) (account r) (url r) (name r) (email r) x (json r).
Definition set_json (x : pyval) (r : t) : t :=
  mk (pk r) (slug r) (users r) (account r) (url r) (name r) (email r) (avatar_url r) x.

(** The row that [objects.create(slug=..., account=...)] inserts: the
    attributes not given are unset. *)
Definition blank (k : nat) (s : pyval) (a : nat) : t :=
  mk k s [] a VNone VNone VNone VNone VNone.
End RemoteOrganization.

Module RemoteRepository.
(** Modelled from the spec: the class [RemoteRepository] of the absent
    [readthedocs/oauth/models.py]: full name, display name, description,
    SSH and HTTPS clone URLs, visibility flag, admin flag, version-control
    kind, avatar URL, raw JSON snapshot, owning account, optional
    organization, set of local users. *)
Record t : Type := mk {
  pk : nat;
  full_name : pyval;
  users : list nat;
  account : nat;
  organization : option nat;
  name : pyval;
  description : pyval;
  ssh_url : pyval;
  html_url : pyval;
  private : pyval;
  clone_url : pyval;
  admin : pyval;
  vcs : pyval;
  avatar_url : pyval;
  json : pyval
}.

Definition set_full_name (x : pyval) (r : t) : t :=
  mk (pk r) x (users r) (account r) (organization r) (name r) (description r) (ssh_url r) (html_url r) (private r) (clone_url r) (admin r) (vcs r) (avatar_url r) (json r).
Definition set_users (x : list nat) (r : t) : t :=
  mk (pk r) (full_name r) x (account r) (organization r) (name r) (description r) (ssh_url r) (html_url r) (private r) (clone_url r) (admin r) (vcs r) (avatar_url r) (json r).
Definition set_account (x : nat) (r : t) : t :=
  mk (pk r) (full_name r) (users r) x (organization r) (name r) (description r) (ssh_url r) (html_url r) (private r) (clone_url r) (admin r) (vcs r) (avatar_url r) (json r).
Definition set_organization (x : option nat) (r : t) : t :=
  mk (pk r) (full_name r) (users r) (account r) x (name r) (description r) (ssh_url r) (html_url r) (private r) (clone_url r) (admin r) (vcs r) (avatar_url r) (json r).
Definition set_name (x : pyval) (r : t) : t :=
  mk (pk r) (full_name r) (users r) (account r) (organization r) x (description r) (ssh_url r) (html_url r) (private r) (clone_url r) (admin r) (vcs r) (avatar_url r) (json r).
Definition set_description (x : pyval) (r : t) : t :=
  mk (pk r) (full_name r) (users r) (account r) (organization r) (name r) x (ssh_url r) (html_url r) (private r) (clone_url r) (admin r) (vcs r) (avatar_url r) (json r).
Definition set_ssh_url (x : pyval) (r : t) : t :=
  mk (pk r) (full_name r) (users r) (account r) (organization r) (name r) (description r) x (html_url r) (private r) (clone_url r) (admin r) (vcs r) (avatar_url r) (json r).
Definition set_html_url (x : pyval) (r : t) : t :=
  mk (pk r) (full_name r) (users r) (account r) (organization r) (name r) (description r) (ssh_url r) x (private r) (clone_url r) (admin r) (vcs r) (avatar_url r) (json r).
Definition set_private (x : pyval) (r : t) : t :=
  mk (pk r) (full_name r) (users r) (account r) (organization r) (name r) (description r) (ssh_url r) (html_url r) x (clone_url r) (admin r) (vcs r) (avatar_url r) (json r).
Definition set_clone_url (x : pyval) (r : t) : t :=
  mk (pk r) (full_name r) (users r) (account r) (organization r) (name r) (description r) (ssh_url r) (html_url r) (private r) x (admin r) (vcs r) (avatar_url r) (json r).
Definition set_admin (x : pyval) (r : t) : t :=
  mk (pk r) (full_name r) (users r) (account r) (organization r) (name r) (description r) (ssh_url r) (html_url r) (private r) (clone_url r) x (vcs r) (avatar_url r) (json r).
Definition set_vcs (x : pyval) (r : t) : t :=
  mk (pk r) (full_name r) (users r) (account r) (organization r) (name r) (description r) (ssh_url r) (html_url r) (private r) (clone_url r) (admin r) x (avatar_url r) (json r).
Definition set_avatar_url (x : pyval) (r : t) : t :=
  mk (pk r) (full_name r) (users r) (account r) (organization r) (name r) (description r) (ssh_url r) (html_url r) (private r) (clone_url r) (admin r) (vcs r) x (json r).
Definition set_json (x : pyval) (r : t) : t :=
  mk (pk r) (full_name r) (users r) (account r) (organization r) (name r) (description r) (ssh_url r) (html_url r) (private r) (clone_url r) (admin r) (vcs r) (avatar_url r) x.

(** The row that [objects.create(full_name=..., account=...)] inserts:
    no organization, no user, the other attributes unset. *)
Definition blank (k : nat) (fn : pyval) (a : nat) : t :=
  mk k fn [] a None VNone VNone VNone VNone VNone VNone VNone VNone VNone
     VNone.
End RemoteRepository.

Module Project.
(** Modelled from the spec: the class [Project] of the absent
    [readthedocs/projects/models.py]; the service reads its key, its
    repository URL and its users. *)
Record t : Type := mk {
  pk : nat;
  repo : string;
  users : list nat
}.
End Project.

Module SocialToken.
(** Modelled from the spec: a stored credential, allauth's [SocialToken];
    the service reads its token. *)
Record t : Type := mk {
  token : string
}.
End SocialToken.

(** Django settings read by the module; an attribute may be absent, which
    is what [getattr(settings, name, default)] is for. *)
Module Settings.
Record t : Type := mk {
  DEFAULT_PRIVACY_LEVEL : option string;
  ALLOW_PRIVATE_REPOS : option pyval;
  DONT_HIT_DB : option pyval;
  PRODUCTION_DOMAIN : string
}.
End Settings.

Definition getattr {A : Type} (attr : option A) (default : A) : A :=
  match attr with
  | Some v => v
  | None => default
  end.

(** ** The outside world *)

(** An HTTP response: [body] is [None] when the body is not valid JSON;
    [links] is [resp.links], the parsed [Link] header, a dict of dicts of
    strings keyed by relation. *)
Record Response : Type := mkResponse {
  status_code : Z;
  body : option pyval;
  links : list (string * list (string * string))
}.

Inductive Request : Type :=
| GET (url : string)
| POST (url : string) (data : string).

(** What the collaborators answer.  [str_other] is Python's [str] on the
    values that are not strings and [json_dumps] is [json.dumps]; both
    belong to the language, and [get_github_username_repo] to
    [readthedocs.builds.utils]; they are parameters here.
    [recursion_limit] is the depth of nested [paginate] calls that the
    interpreter allows. *)
Record Env : Type := mkEnv {
  http_get : string -> result Response;
  http_post : string -> string -> result Response;
  api_project_token : nat -> result pyval;
  social_tokens : nat -> string -> result (list SocialToken.t);
  settings : Settings.t;
  recursion_limit : nat;
  json_dumps : pyval -> string;
  str_other : pyval -> string;
  get_github_username_repo : string -> option string * option string
}.

(** ** Logging *)
Inductive level : Type := DEBUG | INFO | ERROR.

Inductive logarg : Type :=
| ArgVal (v : pyval)
| ArgExn (e : exn)
| ArgProject (p : Project.t).

(** A call of [log.debug], [log.info] or [log.error]: the format string,
    its arguments, and whether [exc_info=True] was passed. *)
Record LogRecord : Type := mkLog {
  lvl : level;
  msg : string;
  args : list logarg;
  exc_info : bool
}.

(** ** State *)
Record World : Type := mkWorld {
  repositories : list RemoteRepository.t;
  organizations : list RemoteOrganization.t;
  log : list LogRecord;
  requests : list Request
}.

Definition set_repositories (l : list RemoteRepository.t) (w : World) : World :=
  mkWorld l (organizations w) (log w) (requests w).
Definition set_organizations (l : list RemoteOrganization.t) (w : World)
  : World :=
  mkWorld (repositories w) l (log w) (requests w).
Definition add_log (e : LogRecord) (w : World) : World :=
  mkWorld (repositories w) (organizations w) (log w ++ [e]) (requests w).
Definition add_request (q : Request) (w : World) : World :=
  mkWorld (repositories w) (organizations w) (log w) (requests w ++ [q]).

(** ** A monad for state and exceptions

    A computation takes the world and gives a value or a raised
    exception, with the world as it is at that point: what was written to
    the database or the log before an exception stays written. *)
Definition M (A : Type) : Type := World -> result A * World.

Definition ret {A : Type} (a : A) : M A := fun w => (Ok a, w).

Definition raise {A : Type} (e : exn) : M A := fun w => (Raise e, w).

Definition bind {A B : Type} (m : M A) (k : A -> M B) : M B :=
  fun w =>
    match m w with
    | (Ok a, w') => k a w'
    | (Raise e, w') => (Raise e, w')
    end.

Definition lift {A : Type} (r : result A) : M A := fun w => (r, w).

Declare Scope py_scope.
Delimit Scope py_scope with py.
Notation "x <- m ;; k" := (bind m (fun x => k))
  (at level 61, m at next level, right associativity) : py_scope.
Notation "m ;;; k" := (bind m (fun _ => k))
  (at level 61, right associativity) : py_scope.
Local Open Scope py_scope.

(** [try: body except ...: handler]: [handler e] is [None] when no
    [except] clause matches [e]. *)
Definition try_except {A : Type} (body : M A) (handler : exn -> option (M A))
  : M A :=
  fun w =>
    match body w with
    | (Ok a, w') => (Ok a, w')
    | (Raise e, w') =>
        match handler e with
        | Some h => h w'
        | None => (Raise e, w')
        end
    end.

(** How a block ends: by a [return] statement or by reaching its end. *)
Inductive flow (R A : Type) : Type :=
| Return (r : R)
| Next (a : A).
Arguments Return {R A} r.
Arguments Next {R A} a.

(** [try: body except ...: handler else: orelse].  The [else] block runs
    when the body reaches its end without an exception; a [return] in the
    body leaves the function at once. *)
Definition try_except_else {R A B : Type} (body : M (flow R A))
  (handler : exn -> option (M (flow R B))) (orelse : A -> M (flow R B))
  : M (flow R B) :=
  fun w =>
    match body w with
    | (Ok (Return r), w') => (Ok (Return r), w')
    | (Ok (Next a), w') => orelse a w'
    | (Raise e, w') =>
        match handler e with
        | Some h => h w'
        | None => (Raise e, w')
        end
    end.

(** [for x in l: body] *)
Fixpoint for_each {A : Type} (l : list A) (body : A -> M unit) : M unit :=
  match l with
  | [] => ret tt
  | x :: r => body x ;;; for_each r body
  end.

Definition log_call (l : level) (m : string) (a : list logarg) (ei : bool)
  : M unit :=
  fun w => (Ok tt, add_log (mkLog l m a ei) w).

(** ** The ORM

    The managers and instance methods of the two ORM classes come from
    Django and from the absent models module.  [objects.get] returns the
    one row that matches and raises [DoesNotExist] or
    [MultipleObjectsReturned] otherwise; [objects.create] inserts a row
    under a fresh key; [users.add] attaches a user to the row; [save]
    updates the row of the instance's key and inserts the instance when
    there is no such row. *)

(** Modelled from the spec: what the generic operations need of a model
    class of the absent models module, the primary key of a row and its
    many-to-many relation [users]. *)
Class Model (T : Type) : Type := {
  pk_of : T -> nat;
  users_of : T -> list nat;
  with_users : list nat -> T -> T;
  pk_with_users : forall us r, pk_of (with_users us r) = pk_of r;
  users_with_users : forall us r, users_of (with_users us r) = us
}.

#[export] Instance RemoteRepository_Model : Model RemoteRepository.t := {|
  pk_of := RemoteRepository.pk;
  users_of := RemoteRepository.users;
  with_users := RemoteRepository.set_users;
  pk_with_users := fun _ _ => eq_refl;
  users_with_users := fun _ _ => eq_refl
|}.

#[export] Instance RemoteOrganization_Model : Model RemoteOrganization.t := {|
  pk_of := RemoteOrganization.pk;
  users_of := RemoteOrganization.users;
  with_users := RemoteOrganization.set_users;
  pk_with_users := fun _ _ => eq_refl;
  users_with_users := fun _ _ => eq_refl
|}.

Definition fresh_pk (pks : list nat) : nat := S (list_max pks).

Definition add_user (u : nat) (us : list nat) : list nat :=
  if existsb (Nat.eqb u) us then us else (us ++ [u])%list.

Module Table.
Section Rows.
Context {T : Type} `{Model T}.

(** Modelled from the spec: the answer of [objects.get] on the rows
    selected by [f] (get-or-create keyed by natural identifier, user and
    account). *)
Definition select (f : T -> bool) (rows : list T) : result T :=
  match filter f rows with
  | [] => Raise DoesNotExist
  | [r] => Ok r
  | _ :: _ :: _ => Raise MultipleObjectsReturned
  end.

(** Modelled from the spec: the key that the next inserted row gets. *)
Definition next_pk (rows : list T) : nat := fresh_pk (map pk_of rows).

(** Modelled from the spec: the table after [objects.create]. *)
Definition insert (r : T) (rows : list T) : list T := (rows ++ [r])%list.

(** Modelled from the spec: the table after [users.add(u)] on the row of
    key [k]. *)
Definition attach (k u : nat) (rows : list T) : list T :=
  map (fun row =>
         if Nat.eqb (pk_of row) k
         then with_users (add_user u (users_of row)) row
         else row)
    rows.

Definition replace (r : T) (row : T) : T :=
  if Nat.eqb (pk_of row) (pk_of r) then r else row.

(** Modelled from the spec: the table after [r.save()], an update in
    place of the row of that key, or an insertion. *)
Definition store (r : T) (rows : list T) : list T :=
  if existsb (fun row => Nat.eqb (pk_of row) (pk_of r)) rows
  then map (replace r) rows
  else (rows ++ [r])%list.
End Rows.
End Table.

Module RemoteRepositoryManager.
Import RemoteRepository.

Definition matches (fn : pyval) (u a : nat) (r : t) : bool :=
  pyval_eqb (full_name r) fn && existsb (Nat.eqb u) (users r)
  && Nat.eqb (account r) a.

(** [RemoteRepository.objects.get(full_name=fn, users=u, account=a)] *)
Definition get (fn : pyval) (u a : nat) : M t :=
  fun w => (Table.select (matches fn u a) (repositories w), w).

(** [RemoteRepository.objects.create(full_name=fn, account=a)] *)
Definition create (fn : pyval) (a : nat) : M t :=
  fun w =>
    let r := blank (Table.next_pk (repositories w)) fn a in
    (Ok r, set_repositories (Table.insert r (repositories w)) w).

(** [repo.users.add(u)]: the instance afterwards sees the user too. *)
Definition users_add (r : t) (u : nat) : M t :=
  fun w =>
    (Ok (set_users (add_user u (users r)) r),
     set_repositories (Table.attach (pk r) u (repositories w)) w).

(** [repo.save()] *)
Definition save (r : t) : M unit :=
  fun w => (Ok tt, set_repositories (Table.store r (repositories w)) w).
End RemoteRepositoryManager.

Module RemoteOrganizationManager.
Import RemoteOrganization.

Definition matches (s : pyval) (u a : nat) (o : t) : bool :=
  pyval_eqb (slug o) s && existsb (Nat.eqb u) (users o)
  && Nat.eqb (account o) a.

(** [RemoteOrganization.objects.get(slug=s, users=u, account=a)] *)
Definition get (s : pyval) (u a : nat) : M t :=
  fun w => (Table.select (matches s u a) (organizations w), w).

(** [RemoteOrganization.objects.create(slug=s, account=a)] *)
Definition create (s : pyval) (a : nat) : M t :=
  fun w =>
    let o := blank (Table.next_pk (organizations w)) s a in
    (Ok o, set_organizations (Table.insert o (organizations w)) w).

(** [organization.users.add(u)] *)
Definition users_add (o : t) (u : nat) : M t :=
  fun w =>
    (Ok (set_users (add_user u (users o)) o),
     set_organizations (Table.attach (pk o) u (organizations w)) w).

(** [organization.save()] *)
Definition save (o : t) : M unit :=
  fun w => (Ok tt, set_organizations (Table.store o (organizations w)) w).
End RemoteOrganizationManager.

(** [repo.organization != organization], for a repository linked to the
    organization of key [linked]: Django compares model instances by
    key, and an instance differs from [None]. *)
Definition organization_differs (linked : nat)
  (organization : option RemoteOrganization.t) : bool :=
  match organization with
  | Some o => negb (Nat.eqb linked (RemoteOrganization.pk o))
  | None => true
  end.

(** [repo.organization and repo.organization != organization] *)
Definition mismatched_orgs (r : RemoteRepository.t)
  (organization : option RemoteOrganization.t) : bool :=
  match RemoteRepository.organization r with
  | Some linked => organization_differs linked organization
  | None => false
  end.

(** ** String helpers *)

(** [str(v)] where a value is put into a URL. *)
Definition py_str (env : Env) (v : pyval) : string :=
  match v with
  | VStr s => s
  | _ => str_other env v
  end.

(** [str(x)] of an optional string, as [format] renders it. *)
Definition format_opt (o : option string) : string :=
  match o with
  | Some s => s
  | None => "None"
  end.

(** [resp.links.get('next', {}).get('url')] *)
Fixpoint assoc {A : Type} (k : string) (d : list (string * A)) : option A :=
  match d with
  | [] => None
  | (k', v) :: r => if String.eqb k k' then Some v else assoc k r
  end.

Definition next_link (resp : Response) : option string :=
  assoc "url" (getattr (assoc "next" (links resp)) []).

(** The truth value of such an optional string: [None] and the empty
    string are false. *)
Definition url_truthy (o : option string) : bool :=
  match o with
  | Some s => negb (String.eqb s "")
  | None => false
  end.

(** ** The service *)

(** [self.user] and [self.account] of a service instance. *)
Module Service.
Record t : Type := mk {
  user : nat;
  account : nat
}.
End Service.

(** [GitHubOAuth2Adapter.provider_id] *)
Definition provider_id : string := "github".

Section GitHubService.
Variable env : Env.
Variable self : Service.t.

(** [DEFAULT_PRIVACY_LEVEL = getattr(settings, 'DEFAULT_PRIVACY_LEVEL',
    'public')] *)
Definition DEFAULT_PRIVACY_LEVEL : string :=
  getattr (Settings.DEFAULT_PRIVACY_LEVEL (settings env)) "public".

(** [self.get_session().get(url)] *)
Definition session_get (url : string) : M Response :=
  fun w => (http_get env url, add_request (GET url) w).

(** [self.get_session().post(url, data=data, headers=...)] *)
Definition session_post (url data : string) : M Response :=
  fun w => (http_post env url data, add_request (POST url data) w).

(** [resp.json()] *)
Definition Response_json (resp : Response) : M pyval :=
  match body resp with
  | Some v => ret v
  | None => raise ValueError
  end.

(** The attribute [result.extend]: lists have it. *)
Definition extend_method (result : pyval) : M (list pyval) :=
  match result with
  | VList l => ret l
  | _ => raise AttributeError
  end.

(** [GitHubService.paginate] (lines 147-159).  The method calls itself
    once per page; [depth] is the number of nested calls the interpreter
    still allows, and Python raises when they are used up. *)
Fixpoint paginate (depth : nat) (url : string) : M pyval :=
  match depth with
  | 0 => raise RecursionError
  | S depth' =>
      resp <- session_get url ;;
      result <- Response_json resp ;;
      let next_url := next_link resp in
      if url_truthy next_url then
        l <- extend_method result ;;
        more <- paginate depth' (getattr next_url "") ;;
        items <- lift (Py.iter more) ;;
        ret (VList (l ++ items))
      else
        ret result
  end.

(** [GitHubService.create_repository] (lines 69-118).  The result is
    [Some repo] for [return repo] and [None] for [return None] and for
    the end of the function. *)
Definition create_repository (fields : pyval) (privacy : string)
  (organization : option RemoteOrganization.t)
  : M (option RemoteRepository.t) :=
  cond <- (if String.eqb privacy "private" then ret true
           else
             p <- lift (Py.subscript fields "private") ;;
             ret (Py.is_False p && String.eqb privacy "public")) ;;
  if (cond : bool) then
    repo <- try_except
              (fn <- lift (Py.subscript fields "full_name") ;;
               RemoteRepositoryManager.get fn (Service.user self)
                 (Service.account self))
              (fun e =>
                 match e with
                 | DoesNotExist =>
                     Some
                       (fn <- lift (Py.subscript fields "full_name") ;;
                        repo <- RemoteRepositoryManager.create fn
                                  (Service.account self) ;;
                        RemoteRepositoryManager.users_add repo
                          (Service.user self))
                 | _ => None
                 end) ;;
    if mismatched_orgs repo organization then
      n <- lift (Py.subscript fields "name") ;;
      log_call DEBUG "Not importing %s because mismatched orgs" [ArgVal n]
        false ;;;
      ret None
    else
      let repo :=
        RemoteRepository.set_organization
          (option_map RemoteOrganization.pk organization) repo in
      v <- lift (Py.subscript fields "name") ;;
      let repo := RemoteRepository.set_name v repo in
      v <- lift (Py.subscript fields "description") ;;
      let repo := RemoteRepository.set_description v repo in
      v <- lift (Py.subscript fields "ssh_url") ;;
      let repo := RemoteRepository.set_ssh_url v repo in
      v <- lift (Py.subscript fields "html_url") ;;
      let repo := RemoteRepository.set_html_url v repo in
      v <- lift (Py.subscript fields "private") ;;
      let repo := RemoteRepository.set_private v repo in
      v <- (if Py.truthy (RemoteRepository.private repo)
            then lift (Py.subscript fields "ssh_url")
            else lift (Py.subscript fields "clone_url")) ;;
      let repo := RemoteRepository.set_clone_url v repo in
      perms <- lift (Py.get fields "permissions" (VDict [])) ;;
      v <- lift (Py.get perms "admin" (VBool false)) ;;
      let repo := RemoteRepository.set_admin v repo in
      let repo := RemoteRepository.set_vcs (VStr "git") repo in
      let repo := RemoteRepository.set_account (Service.account self) repo in
      owner <- lift (Py.get fields "owner" (VDict [])) ;;
      v <- lift (Py.get owner "avatar_url" VNone) ;;
      let repo := RemoteRepository.set_avatar_url v repo in
      let repo :=
        RemoteRepository.set_json (VStr (json_dumps env fields)) repo in
      RemoteRepositoryManager.save repo ;;;
      ret (Some repo)
  else
    n <- lift (Py.subscript fields "name") ;;
    log_call DEBUG "Not importing %s because mismatched type" [ArgVal n]
      false ;;;
    ret None.

(** [GitHubService.create_organization] (lines 120-145) *)
Definition create_organization (fields : pyval) : M RemoteOrganization.t :=
  organization <- try_except
                    (s <- lift (Py.get fields "login" VNone) ;;
                     RemoteOrganizationManager.get s (Service.user self)
                       (Service.account self))
                    (fun e =>
                       match e with
                       | DoesNotExist =>
                           Some
                             (s <- lift (Py.get fields "login" VNone) ;;
                              organization <-
                                RemoteOrganizationManager.create s
                                  (Service.account self) ;;
                              RemoteOrganizationManager.users_add
                                organization (Service.user self))
                       | _ => None
                       end) ;;
  v <- lift (Py.get fields "html_url" VNone) ;;
  let organization := RemoteOrganization.set_url v organization in
  v <- lift (Py.get fields "name" VNone) ;;
  let organization := RemoteOrganization.set_name v organization in
  v <- lift (Py.get fields "email" VNone) ;;
  let organization := RemoteOrganization.set_email v organization in
  v <- lift (Py.get fields "avatar_url" VNone) ;;
  let organization := RemoteOrganization.set_avatar_url v organization in
  let organization :=
    RemoteOrganization.set_json (VStr (json_dumps env fields)) organization in
  let organization :=
    RemoteOrganization.set_account (Service.account self) organization in
  RemoteOrganizationManager.save organization ;;;
  ret organization.

(** The [except (TypeError, ValueError) as e] clause of the two stages:
    log the error and raise the message for the user. *)
Definition sync_handler (what : string) (e : exn) : option (M unit) :=
  match e with
  | TypeError | ValueError =>
      Some
        (log_call ERROR ("Error syncing GitHub " ++ what ++ ": %s")
           [ArgExn e] true ;;;
         raise
           (Exception_
              ("Could not sync your GitHub " ++ what
               ++ ", try reconnecting your account")))
  | _ => None
  end.

(** [GitHubService.sync_repositories] (lines 37-47): the pages are
    fetched before the [try] statement is entered. *)
Definition sync_repositories : M unit :=
  repos <- paginate (recursion_limit env)
             "https://api.github.com/user/repos?per_page=100" ;;
  try_except
    (items <- lift (Py.iter repos) ;;
     for_each items
       (fun repo =>
          create_repository repo DEFAULT_PRIVACY_LEVEL None ;;; ret tt))
    (sync_handler "repositories").

(** [GitHubService.sync_organizations] (lines 49-67): everything happens
    inside the [try] statement. *)
Definition sync_organizations : M unit :=
  try_except
    (orgs <- paginate (recursion_limit env)
               "https://api.github.com/user/orgs" ;;
     items <- lift (Py.iter orgs) ;;
     for_each items
       (fun org =>
          url <- lift (Py.subscript org "url") ;;
          org_resp <- session_get (py_str env url) ;;
          org_json <- Response_json org_resp ;;
          org_obj <- create_organization org_json ;;
          url <- lift (Py.subscript org "url") ;;
          org_repos <- paginate (recursion_limit env)
                         (py_str env url ++ "/repos") ;;
          repo_items <- lift (Py.iter org_repos) ;;
          for_each repo_items
            (fun repo =>
               create_repository repo DEFAULT_PRIVACY_LEVEL (Some org_obj) ;;;
               ret tt)))
    (sync_handler "organizations").

(** [GitHubService.sync] (lines 32-35) *)
Definition sync : M unit :=
  sync_repositories ;;;
  sync_organizations.

(** [GitHubService.setup_webhook] (lines 161-195).  A function that
    reaches its end returns [None]. *)
Definition setup_webhook (project : Project.t) : M pyval :=
  let '(owner, repo) :=
    get_github_username_repo env (Project.repo project) in
  let data :=
    json_dumps env
      (VDict
         [("name", VStr "readthedocs");
          ("active", VBool true);
          ("config",
            VDict
              [("url",
                 VStr
                   ("https://"
                    ++ Settings.PRODUCTION_DOMAIN (settings env)
                    ++ "/github"))])]) in
  out <- try_except_else
           (resp <- session_post
                      ("https://api.github.com/repos/" ++ format_opt owner
                       ++ "/" ++ format_opt repo ++ "/hooks")
                      data ;;
            if Z.eqb (status_code resp) 201 then
              log_call INFO
                "GitHub webhook creation successful for project: %s"
                [ArgProject project] false ;;;
              ret (Return (VBool true))
            else
              ret (Next tt))
           (fun e =>
              match e with
              | RequestException =>
                  Some
                    (log_call ERROR
                       "GitHub webhook creation failed for project: %s"
                       [ArgProject project] true ;;;
                     ret (Next tt))
              | _ => None
              end)
           (fun _ =>
              log_call ERROR "GitHub webhook creation failed for project: %s"
                [ArgProject project] false ;;;
              ret (Return (VBool false))) ;;
  match out with
  | Return r => ret r
  | Next _ => ret VNone
  end.

(** The loop [for user in project.users.all(): ...] on the local
    variable [token]: the value of [token] when the loop ends, and the
    exception that ended it, if one did. *)
Fixpoint scan_users (users : list nat) (token : pyval)
  : pyval * option exn :=
  match users with
  | [] => (token, None)
  | user :: rest =>
      match social_tokens env user provider_id with
      | Raise e => (token, Some e)
      | Ok tokens =>
          match tokens with
          | t :: _ => scan_users rest (VStr (SocialToken.token t))
          | [] => scan_users rest token
          end
      end
  end.

(** [GitHubService.get_token_for_project] (lines 197-216), a class
    method.  The [try] block assigns the local variable [token]; an
    exception leaves it as it was at that point. *)
Definition get_token_for_project (project : Project.t) (force_local : bool)
  : M pyval :=
  if negb (Py.truthy
             (getattr (Settings.ALLOW_PRIVATE_REPOS (settings env))
                (VBool false)))
  then ret VNone
  else
    let token := VNone in
    let '(token, raised) :=
      if Py.truthy
           (getattr (Settings.DONT_HIT_DB (settings env)) (VBool true))
         && negb force_local
      then
        match api_project_token env (Project.pk project) with
        | Raise e => (token, Some e)
        | Ok answer =>
            match Py.subscript answer "token" with
            | Raise e => (token, Some e)
            | Ok t => (t, None)
            end
        end
      else scan_users (Project.users project) token in
    match raised with
    | Some _ =>
        log_call ERROR "Failed to get token for user" [] true ;;;
        ret token
    | None => ret token
    end.

End GitHubService.

(** ** Vocabulary of the statements *)

(** [pages] are the bodies of the responses met when following the "next"
    links from [url]: every response is a JSON array, every page but the
    last links to the next one, and the last one has no usable link. *)
Fixpoint pages_from (env : Env) (url : string) (pages : list (list pyval))
  : bool :=
  match pages with
  | [] => false
  | items :: rest =>
      match http_get env url with
      | Ok resp =>
          match body resp with
          | Some v => pyval_eqb v (VList items)
          | None => false
          end
          && match rest with
             | [] => negb (url_truthy (next_link resp))
             | _ :: _ =>
                 url_truthy (next_link resp)
                 && pages_from env (getattr (next_link resp) "") rest
             end
      | Raise _ => false
      end
  end.

(** The credential that the scan of one user finds: the first stored
    credential of that user for the provider, when the query succeeds and
    there is one. *)
Definition stored_token (env : Env) (user : nat) : option pyval :=
  match social_tokens env user provider_id with
  | Ok (t :: _) => Some (VStr (SocialToken.token t))
  | _ => None
  end.

(** The first credential met when going through [users] in order. *)
Fixpoint first_match (env : Env) (users : list nat) : option pyval :=
  match users with
  | [] => None
  | user :: rest =>
      match stored_token env user with
      | Some t => Some t
      | None => first_match env rest
      end
  end.

(** The credential of the last user, in order, that has one. *)
Definition last_match (env : Env) (users : list nat) : option pyval :=
  first_match env (rev users).

(** Every credential query of the scan gets an answer. *)
Definition queries_succeed (env : Env) (users : list nat) : bool :=
  forallb
    (fun user =>
       match social_tokens env user provider_id with
       | Ok _ => true
       | Raise _ => false
       end)
    users.

(** The configuration sends [get_token_for_project] to the local scan. *)
Definition scans_locally (env : Env) (force_local : bool) : bool :=
  negb (Py.truthy (getattr (Settings.DONT_HIT_DB (settings env)) (VBool true))
        && negb force_local).

Definition private_repos_allowed (env : Env) : bool :=
  Py.truthy
    (getattr (Settings.ALLOW_PRIVATE_REPOS (settings env)) (VBool false)).

(** The request that [setup_webhook] posts for a project. *)
Definition hooks_url (env : Env) (project : Project.t) : string :=
  "https://api.github.com/repos/"
  ++ format_opt (fst (get_github_username_repo env (Project.repo project)))
  ++ "/"
  ++ format_opt (snd (get_github_username_repo env (Project.repo project)))
  ++ "/hooks".

Definition hook_data (env : Env) : string :=
  json_dumps env
    (VDict
       [("name", VStr "readthedocs");
        ("active", VBool true);
        ("config",
          VDict
            [("url",
               VStr
                 ("https://" ++ Settings.PRODUCTION_DOMAIN (settings env)
                  ++ "/github"))])]).

(** A repository object of the GitHub API, as far as the service looks at
    it: a JSON object that has the keys which [create_repository]
    subscripts, and whose ["permissions"] and ["owner"], when present, are
    objects. *)
Definition has_key (k : string) (fields : pyval) : bool :=
  match Py.subscript fields k with
  | Ok _ => true
  | Raise _ => false
  end.

Definition object_or_absent (k : string) (fields : pyval) : bool :=
  match Py.get fields k (VDict []) with
  | Ok (VDict _) => true
  | _ => false
  end.

Definition repo_payload (fields : pyval) : bool :=
  has_key "private" fields && has_key "full_name" fields
  && has_key "name" fields && has_key "description" fields
  && has_key "ssh_url" fields && has_key "html_url" fields
  && has_key "clone_url" fields
  && object_or_absent "permissions" fields
  && object_or_absent "owner" fields.

(** [fields[k]] and [fields.get(k, {}).get(k', default)] of such an
    object. *)
Definition item (fields : pyval) (k : string) : pyval :=
  match Py.subscript fields k with
  | Ok v => v
  | Raise _ => VNone
  end.

Definition nested (fields : pyval) (k k' : string) (default : pyval) : pyval :=
  match Py.get fields k (VDict []) with
  | Ok inner =>
      match Py.get inner k' default with
      | Ok v => v
      | Raise _ => VNone
      end
  | Raise _ => VNone
  end.

(** The visibility test at the head of [create_repository]. *)
Definition visible (privacy : string) (fields : pyval) : bool :=
  String.eqb privacy "private"
  || (Py.is_False (item fields "private") && String.eqb privacy "public").

(** The instance after the assignments of [create_repository], from
    [repo.organization = organization] to [repo.json = ...]. *)
Definition overwrite (env : Env) (self : Service.t) (fields : pyval)
  (organization : option RemoteOrganization.t) (repo : RemoteRepository.t)
  : RemoteRepository.t :=
  RemoteRepository.set_json (VStr (json_dumps env fields))
    (RemoteRepository.set_avatar_url (nested fields "owner" "avatar_url" VNone)
       (RemoteRepository.set_account (Service.account self)
          (RemoteRepository.set_vcs (VStr "git")
             (RemoteRepository.set_admin
                (nested fields "permissions" "admin" (VBool false))
                (RemoteRepository.set_clone_url
                   (if Py.truthy (item fields "private")
                    then item fields "ssh_url"
                    else item fields "clone_url")
                   (RemoteRepository.set_private (item fields "private")
                      (RemoteRepository.set_html_url (item fields "html_url")
                         (RemoteRepository.set_ssh_url (item fields "ssh_url")
                            (RemoteRepository.set_description
                               (item fields "description")
                               (RemoteRepository.set_name (item fields "name")
                                  (RemoteRepository.set_organization
                                     (option_map RemoteOrganization.pk
                                        organization)
                                     repo))))))))))).

(** The row that the first synchronisation of a repository inserts,
    before the assignments. *)
Definition new_repository (self : Service.t) (fields : pyval) (w : World)
  : RemoteRepository.t :=
  RemoteRepository.set_users [Service.user self]
    (RemoteRepository.blank (Table.next_pk (repositories w))
       (item fields "full_name") (Service.account self)).

(** The rows that [create_repository] looks up for a payload. *)
Definition matching_repositories (self : Service.t) (fields : pyval)
  (w : World) : list RemoteRepository.t :=
  filter
    (RemoteRepositoryManager.matches (item fields "full_name")
       (Service.user self) (Service.account self))
    (repositories w).

(** [fields.get(k)] of an object. *)
Definition entry (fields : pyval) (k : string) : pyval :=
  match Py.get fields k VNone with
  | Ok v => v
  | Raise _ => VNone
  end.

(** The instance after the assignments of [create_organization]. *)
Definition overwrite_organization (env : Env) (self : Service.t)
  (fields : pyval) (organization : RemoteOrganization.t)
  : RemoteOrganization.t :=
  RemoteOrganization.set_account (Service.account self)
    (RemoteOrganization.set_json (VStr (json_dumps env fields))
       (RemoteOrganization.set_avatar_url (entry fields "avatar_url")
          (RemoteOrganization.set_email (entry fields "email")
             (RemoteOrganization.set_name (entry fields "name")
                (RemoteOrganization.set_url (entry fields "html_url")
                   organization))))).

(** The row that the first synchronisation of an organization inserts,
    before the assignments. *)
Definition new_organization (self : Service.t) (fields : pyval) (w : World)
  : RemoteOrganization.t :=
  RemoteOrganization.set_users [Service.user self]
    (RemoteOrganization.blank (Table.next_pk (organizations w))
       (entry fields "login") (Service.account self)).

(** The rows that [create_organization] looks up for a payload. *)
Definition matching_organizations (self : Service.t) (fields : pyval)
  (w : World) : list RemoteOrganization.t :=
  filter
    (RemoteOrganizationManager.matches (entry fields "login")
       (Service.user self) (Service.account self))
    (organizations w).

(** [w'] comes after [w]: every key of the two tables is still there, in
    its place, and the log and the list of requests have only been
    appended to. *)
Definition extends {A : Type} (l l' : list A) : Prop :=
  exists more, l' = (l ++ more)%list.

Definition grows (w w' : World) : Prop :=
  extends (map RemoteRepository.pk (repositories w))
    (map RemoteRepository.pk (repositories w'))
  /\ extends (map RemoteOrganization.pk (organizations w))
       (map RemoteOrganization.pk (organizations w'))
  /\ extends (log w) (log w')
  /\ extends (requests w) (requests w').

Definition monotone {A : Type} (m : M A) : Prop :=
  forall w, grows w (snd (m w)).

(** [m] begins by issuing the request [q]. *)
Definition starts_with {A : Type} (q : Request) (m : M A) : Prop :=
  forall w, extends (requests w ++ [q]) (requests (snd (m w))).

(** The first request of [sync_organizations]. *)
Definition organizations_request : Request :=
  GET "https://api.github.com/user/orgs".

(** The log record of the conflict branch of [create_repository]. *)
Definition conflict_record (fields : pyval) : LogRecord :=
  mkLog DEBUG "Not importing %s because mismatched orgs"
    [ArgVal (item fields "name")] false.

(** The URLs met when following the "next" links from [url], at most [n]
    of them. *)
Fixpoint chain_urls (env : Env) (url : string) (n : nat) : list string :=
  match n with
  | 0 => []
  | S n' =>
      url
      :: match http_get env url with
         | Ok resp =>
             if url_truthy (next_link resp)
             then chain_urls env (getattr (next_link resp) "") n'
             else []
         | Raise _ => []
         end
  end.

(** Every page that the API serves links to a next page. *)
Definition endless (env : Env) : Prop :=
  forall url resp,
    http_get env url = Ok resp -> url_truthy (next_link resp) = true.

(** The value is a JSON object. *)
Definition is_object (v : pyval) : bool :=
  match v with
  | VDict _ => true
  | _ => false
  end.

(** No two rows of the table answer the same lookup by full name, user
    and account. *)
Definition repository_keys_unique (rows : list RemoteRepository.t) : Prop :=
  forall fn u a,
    List.length (filter (RemoteRepositoryManager.matches fn u a) rows) <= 1.

(** No two rows of the table answer the same lookup by slug, user and
    account. *)
Definition organization_keys_unique (rows : list RemoteOrganization.t)
  : Prop :=
  forall s u a,
    List.length (filter (RemoteOrganizationManager.matches s u a) rows) <= 1.

(** Every row of [w] that is linked to an organization is found again in
    [w'], under its key and linked to the same organization. *)
Definition links_kept (w w' : World) : Prop :=
  forall row a,
    In row (repositories w) ->
    RemoteRepository.organization row = Some a ->
    exists row',
      In row' (repositories w')
      /\ RemoteRepository.pk row' = RemoteRepository.pk row
      /\ RemoteRepository.organization row' = Some a.

(** [m] leaves the component [f] of the world as it finds it, whatever
    it returns or raises. *)
Definition preserves {A B : Type} (f : World -> B) (m : M A) : Prop :=
  forall w, f (snd (m w)) = f w.

(** ** Sample data

    A user with two repositories and one organization, and some ways in
    which the API can misbehave. *)
Module Sample.

Definition repos_url : string :=
  "https://api.github.com/user/repos?per_page=100".
Definition repos_page2_url : string :=
  "https://api.github.com/user/repos?per_page=100&page=2".
Definition orgs_url : string := "https://api.github.com/user/orgs".
Definition acme_url : string := "https://api.github.com/orgs/acme".

Definition repo_object (name full_name : string) (private : bool)
  : pyval :=
  VDict
    [("name", VStr name);
     ("full_name", VStr full_name);
     ("description", VNone);
     ("private", VBool private);
     ("html_url", VStr ("https://github.com/" ++ full_name));
     ("ssh_url", VStr ("git@github.com:" ++ full_name ++ ".git"));
     ("clone_url", VStr ("https://github.com/" ++ full_name ++ ".git"));
     ("permissions", VDict [("admin", VBool true)]);
     ("owner", VDict [("avatar_url", VStr "https://avatars/ann")])].

Definition kit : pyval := repo_object "kit" "ann/kit" false.
Definition vault : pyval := repo_object "vault" "ann/vault" true.
Definition site : pyval := repo_object "site" "acme/site" false.

Definition acme_object : pyval :=
  VDict
    [("login", VStr "acme");
     ("url", VStr acme_url);
     ("html_url", VStr "https://github.com/acme");
     ("name", VStr "Acme");
     ("email", VNone);
     ("avatar_url", VStr "https://avatars/acme")].

Definition page (items : list pyval) (next : option string) : Response :=
  mkResponse 200 (Some (VList items))
    match next with
    | Some url => [("next", [("url", url); ("rel", "next")])]
    | None => []
    end.

(** GitHub answering as documented. *)
Definition github_get (url : string) : result Response :=
  if String.eqb url repos_url then Ok (page [kit] (Some repos_page2_url))
  else if String.eqb url repos_page2_url then Ok (page [vault] None)
  else if String.eqb url orgs_url then
    Ok (page [VDict [("login", VStr "acme"); ("url", VStr acme_url)]] None)
  else if String.eqb url acme_url then
    Ok (mkResponse 200 (Some acme_object) [])
  else if String.eqb url (acme_url ++ "/repos") then Ok (page [site] None)
  else Raise RequestException.

(** GitHub rejecting the credentials: every GET answers 401 with an
    error object. *)
Definition rejected_get (url : string) : result Response :=
  Ok (mkResponse 401 (Some (VDict [("message", VStr "Bad credentials")])) []).

(** GitHub behind a failing gateway: every GET answers 502 with a body
    that is not JSON. *)
Definition gateway_get (url : string) : result Response :=
  Ok (mkResponse 502 None []).

Definition hook_post (url data : string) : result Response :=
  if String.eqb url "https://api.github.com/repos/ann/kit/hooks"
  then Ok (mkResponse 201 (Some (VDict [("id", VInt 1)])) [])
  else Ok (mkResponse 404 (Some (VDict [("message", VStr "Not Found")])) []).

Definition config : Settings.t :=
  Settings.mk None (Some (VBool true)) (Some (VBool true)) "readthedocs.org".

(** Users 1 and 2 each have one GitHub credential, the others none. *)
Definition credentials (user : nat) (provider : string)
  : result (list SocialToken.t) :=
  if String.eqb provider "github" then
    match user with
    | 1 => Ok [SocialToken.mk "token-of-ann"]
    | 2 => Ok [SocialToken.mk "token-of-bob"]
    | _ => Ok []
    end
  else Ok [].

(** The same credentials behind a database that fails on user 2. *)
Definition failing_credentials (user : nat) (provider : string)
  : result (list SocialToken.t) :=
  match user with
  | 2 => Raise (OtherError "OperationalError")
  | _ => credentials user provider
  end.

(** Stand-ins for [json.dumps] and [str]: the sample runs do not look at
    the serialised text. *)
Definition dumps (v : pyval) : string :=
  match v with
  | VDict _ => "{...}"
  | VList _ => "[...]"
  | VStr s => s
  | _ => "..."
  end.

Definition owner_and_name (url : string) : option string * option string :=
  if String.eqb url "https://github.com/ann/kit"
  then (Some "ann", Some "kit")
  else (None, None).

Definition env_with (get : string -> result Response) : Env :=
  mkEnv get hook_post (fun _ => Raise (OtherError "HttpClientError"))
    credentials config 1000 dumps dumps owner_and_name.

(** An API whose listing holds an object without the private flag. *)
Definition partial_get (url : string) : result Response :=
  Ok (page [VDict [("name", VStr "kit"); ("full_name", VStr "ann/kit")]]
        None).

(** An API whose every page names itself as the next one. *)
Definition looping_get (url : string) : result Response :=
  Ok (page [kit] (Some repos_url)).

Definition github : Env := env_with github_get.
Definition looping : Env := env_with looping_get.
Definition partial : Env := env_with partial_get.

Definition flaky : Env :=
  mkEnv github_get hook_post (fun _ => Raise (OtherError "HttpClientError"))
    failing_credentials config 1000 dumps dumps owner_and_name.

(** A project of users 1, 2 and 3, in that order. *)
Definition shared_project : Project.t :=
  Project.mk 8 "https://github.com/ann/kit" [1; 2; 3].

(** A POST that fails before anything is sent, with an exception that is
    not a transport error. *)
Definition faulty : Env :=
  mkEnv github_get (fun _ _ => Raise ValueError)
    (fun _ => Raise (OtherError "HttpClientError"))
    credentials config 1000 dumps dumps owner_and_name.

(** No network: every POST raises a transport error. *)
Definition offline : Env :=
  mkEnv github_get (fun _ _ => Raise RequestException)
    (fun _ => Raise (OtherError "HttpClientError"))
    credentials config 1000 dumps dumps owner_and_name.
Definition rejected : Env := env_with rejected_get.
Definition gateway : Env := env_with gateway_get.

(** The service of user 1 under account 7. *)
Definition ann : Service.t := Service.mk 1 7.

Definition empty : World := mkWorld [] [] [] [].

(** The organization row of key 5, and the tables after an organization
    pass has linked [kit] and [vault] to it. *)
Definition acme : RemoteOrganization.t :=
  RemoteOrganization.mk 5 (VStr "acme") [1] 7 VNone VNone VNone VNone VNone.

Definition other_org : RemoteOrganization.t :=
  RemoteOrganization.mk 6 (VStr "other") [1] 7 VNone VNone VNone VNone VNone.

Definition linked : World :=
  snd (create_repository github ann vault "private" (Some acme)
         (snd (create_repository github ann kit "public" (Some acme) empty))).

(** The two rows of [linked]. *)
Definition kit_row : RemoteRepository.t :=
  overwrite github ann kit (Some acme) (new_repository ann kit empty).

Definition vault_row : RemoteRepository.t :=
  overwrite github ann vault (Some acme)
    (new_repository ann vault
       (snd (create_repository github ann kit "public" (Some acme) empty))).

(** A table in which the row of [kit] has been duplicated by hand. *)
Definition doubled : World :=
  mkWorld
    [kit_row;
     RemoteRepository.mk 9 (VStr "ann/kit") [1] 7 None VNone VNone VNone
       VNone VNone VNone VNone VNone VNone VNone]
    [] [] [].

(** [kit] again, as the API describes it after a change of its name. *)
Definition kit_renamed : pyval := repo_object "toolkit" "ann/kit" false.

Definition acme_renamed : pyval :=
  VDict [("login", VStr "acme"); ("name", VStr "Acme Corporation")].

Definition kit_project : Project.t :=
  Project.mk 3 "https://github.com/ann/kit" [1; 2].

(** A project whose repository GitHub does not know. *)
Definition lost_project : Project.t :=
  Project.mk 4 "https://github.com/ann/lost" [3].

End Sample.

(** * Properties *)

(** ** Values *)

Lemma pyval_eqb_eq (a b : pyval) : pyval_eqb a b = true <-> a = b.
Proof.
  revert b. induction a as [| x | x | x | l IH | d IH] using pyval_nested_ind;
    intros [| y | y | y | l' | d']; simpl;
    try (split; [discriminate | discriminate]);
    try (split; reflexivity).
  - rewrite Bool.eqb_true_iff. split; congruence.
  - rewrite Z.eqb_eq. split; congruence.
  - rewrite String.eqb_eq. split; congruence.
  - revert l'. induction IH as [| x r Hx _ IHr]; intros [| y r'];
      try (split; [discriminate | discriminate]);
      try (split; reflexivity).
    rewrite andb_true_iff, Hx, IHr. split.
    + intros [-> H]. congruence.
    + intros H. injection H as -> ->. split; reflexivity.
  - revert d'. induction IH as [| [k x] r Hx _ IHr]; intros [| [k' y] r'];
      try (split; [discriminate | discriminate]);
      try (split; reflexivity).
    simpl in Hx.
    rewrite !andb_true_iff, String.eqb_eq, Hx, IHr. split.
    + intros [[-> ->] H]. congruence.
    + intros H. injection H as -> -> ->. repeat split; reflexivity.
Qed.

Lemma pyval_eqb_refl (a : pyval) : pyval_eqb a a = true.
Proof. apply pyval_eqb_eq. reflexivity. Qed.

(** ** Pagination *)

Lemma pages_from_step (env : Env) (url : string) (items : list pyval)
  (rest : list (list pyval)) :
  pages_from env url (items :: rest) = true ->
  exists resp,
    http_get env url = Ok resp /\ body resp = Some (VList items) /\
    match rest with
    | [] => url_truthy (next_link resp) = false
    | _ :: _ =>
        url_truthy (next_link resp) = true /\
        pages_from env (getattr (next_link resp) "") rest = true
    end.
Proof.
  simpl. destruct (http_get env url) as [resp | e]; [| discriminate].
  intros H. apply andb_true_iff in H as [Hb Hn].
  exists resp. split; [reflexivity |]. split.
  - destruct (body resp) as [v |]; [| discriminate].
    apply pyval_eqb_eq in Hb. congruence.
  - destruct rest as [| p rest].
    + now apply negb_true_iff in Hn.
    + now apply andb_true_iff in Hn.
Qed.

(** C4: when [pages] is the sequence of pages reached from [url] by
    following the "next" links, and the interpreter allows that many nested
    calls, [paginate url] returns the items of all the pages, page after
    page, in their order. *)
Theorem paginate_concat (env : Env) (pages : list (list pyval)) :
  forall (depth : nat) (url : string) (w : World),
    pages_from env url pages = true ->
    List.length pages <= depth ->
    fst (paginate env depth url w) = Ok (VList (List.concat pages)).
Proof.
  induction pages as [| items rest IH]; intros depth url w Hp Hd.
  - discriminate.
  - destruct depth as [| depth]; [simpl in Hd; lia |].
    apply pages_from_step in Hp as (resp & Hget & Hbody & Hnext).
    simpl paginate. unfold bind at 1, session_get. rewrite Hget.
    unfold bind at 1, Response_json. rewrite Hbody. unfold ret at 1.
    destruct rest as [| page rest].
    + rewrite Hnext. simpl. now rewrite app_nil_r.
    + destruct Hnext as [Ht Hrest]. rewrite Ht.
      unfold bind at 1, extend_method, ret at 1.
      unfold bind at 1.
      specialize (IH depth (getattr (next_link resp) "")
                    (add_request (GET url) w) Hrest).
      destruct (paginate env depth (getattr (next_link resp) "")
                  (add_request (GET url) w)) as [r w'] eqn:E.
      simpl in IH. rewrite IH by (simpl in Hd; lia).
      reflexivity.
Qed.

(** ** Webhook registration *)

Lemma setup_webhook_run (env : Env) (project : Project.t) (w : World) :
  setup_webhook env project w =
  let w1 := add_request (POST (hooks_url env project) (hook_data env)) w in
  match http_post env (hooks_url env project) (hook_data env) with
  | Ok resp =>
      if Z.eqb (status_code resp) 201
      then (Ok (VBool true),
            add_log
              (mkLog INFO "GitHub webhook creation successful for project: %s"
                 [ArgProject project] false) w1)
      else (Ok (VBool false),
            add_log
              (mkLog ERROR "GitHub webhook creation failed for project: %s"
                 [ArgProject project] false) w1)
  | Raise RequestException =>
      (Ok VNone,
       add_log
         (mkLog ERROR "GitHub webhook creation failed for project: %s"
            [ArgProject project] true) w1)
  | Raise e => (Raise e, w1)
  end.
Proof.
  unfold setup_webhook, hooks_url, hook_data.
  destruct (get_github_username_repo env (Project.repo project))
    as [owner repo].
  cbn [fst snd].
  unfold bind, try_except_else, session_post.
  destruct (http_post env _ _) as [resp | e].
  - destruct (Z.eqb (status_code resp) 201); reflexivity.
  - destruct e; reflexivity.
Qed.


(** ** Token resolution *)

Lemma scan_users_no_error (env : Env) (users : list nat) :
  forall token,
    queries_succeed env users = true ->
    scan_users env users token
    = (getattr (last_match env users) token, None).
Proof.
  unfold last_match.
  induction users as [| user rest IH]; intros token Hq.
  - reflexivity.
  - simpl in Hq. apply andb_true_iff in Hq as [Hu Hrest].
    simpl scan_users.
    assert (Hsplit : forall l,
               first_match env (l ++ [user])
               = match first_match env l with
                 | Some t => Some t
                 | None => stored_token env user
                 end).
    { induction l as [| x l IHl]; simpl.
      - now destruct (stored_token env user).
      - destruct (stored_token env x); [reflexivity | exact IHl]. }
    simpl rev. rewrite Hsplit. unfold stored_token.
    destruct (social_tokens env user provider_id) as [[| t ts] | e];
      [| | discriminate]; rewrite (IH _ Hrest);
      now destruct (first_match env (rev rest)).
Qed.

Lemma scan_users_token (env : Env) (users : list nat) :
  forall token, exists token' raised,
    scan_users env users token = (token', raised).
Proof. intros token. destruct (scan_users env users token); eauto. Qed.

(** C8, as the code has it: [get_token_for_project] returns [None],
    touching nothing, unless [ALLOW_PRIVATE_REPOS] is set to a true value;
    it always returns a value, whatever the token API or the credential
    queries raise; and when it scans the users of the project and every
    query is answered, it returns the credential of the last user, in
    the order of the scan, that has one, or [None] when no user has. *)
Theorem get_token_for_project_last_match (env : Env) (project : Project.t)
  (force_local : bool) (w : World) :
  (private_repos_allowed env = false ->
   get_token_for_project env project force_local w = (Ok VNone, w))
  /\ (exists token, fst (get_token_for_project env project force_local w)
                    = Ok token)
  /\ (private_repos_allowed env = true ->
      scans_locally env force_local = true ->
      queries_succeed env (Project.users project) = true ->
      get_token_for_project env project force_local w
      = (Ok (getattr (last_match env (Project.users project)) VNone), w)).
Proof.
  unfold private_repos_allowed, scans_locally, get_token_for_project.
  destruct (Py.truthy (getattr (Settings.ALLOW_PRIVATE_REPOS (settings env))
                         (VBool false))); cbn [negb].
  - split; [discriminate |]. split.
    + destruct (Py.truthy _ && negb force_local).
      * destruct (api_project_token env (Project.pk project)) as [a | e];
          [destruct (Py.subscript a "token") |]; cbn; eauto.
      * destruct (scan_users env (Project.users project) VNone)
          as [t [e |]]; cbn; eauto.
    + intros _ Hloc Hq. apply negb_true_iff in Hloc. rewrite Hloc.
      now rewrite scan_users_no_error.
  - split; [reflexivity |]. split; [cbn; eauto | discriminate].
Qed.

(** ** The database only grows *)

Lemma fresh_pk_above (pks : list nat) (k : nat) :
  In k pks -> k < fresh_pk pks.
Proof.
  intros Hin. unfold fresh_pk.
  assert (H : list_max pks <= list_max pks) by lia.
  apply list_max_le in H. rewrite Forall_forall in H.
  specialize (H k Hin). lia.
Qed.

Lemma repo_payload_inv (fields : pyval) :
  repo_payload fields = true ->
  exists pv fn nm ds ssh html cl p o,
    Py.subscript fields "private" = Ok pv
    /\ Py.subscript fields "full_name" = Ok fn
    /\ Py.subscript fields "name" = Ok nm
    /\ Py.subscript fields "description" = Ok ds
    /\ Py.subscript fields "ssh_url" = Ok ssh
    /\ Py.subscript fields "html_url" = Ok html
    /\ Py.subscript fields "clone_url" = Ok cl
    /\ Py.get fields "permissions" (VDict []) = Ok (VDict p)
    /\ Py.get fields "owner" (VDict []) = Ok (VDict o).
Proof.
  unfold repo_payload, has_key, object_or_absent. intros H.
  repeat (apply andb_true_iff in H as [H ?]).
  destruct (Py.subscript fields "private") as [pv |]; [| discriminate].
  destruct (Py.subscript fields "full_name") as [fn |]; [| discriminate].
  destruct (Py.subscript fields "name") as [nm |]; [| discriminate].
  destruct (Py.subscript fields "description") as [ds |]; [| discriminate].
  destruct (Py.subscript fields "ssh_url") as [ssh |]; [| discriminate].
  destruct (Py.subscript fields "html_url") as [html |]; [| discriminate].
  destruct (Py.subscript fields "clone_url") as [cl |]; [| discriminate].
  destruct (Py.get fields "permissions" (VDict [])) as [[| | | | | p] |];
    try discriminate.
  destruct (Py.get fields "owner" (VDict [])) as [[| | | | | o] |];
    try discriminate.
  exists pv, fn, nm, ds, ssh, html, cl, p, o. repeat split.
Qed.

(** ** What [create_repository] does with a repository object *)

Lemma bind_lift_ok {A B : Type} (a : A) (k : A -> M B) (w : World) :
  bind (lift (Ok a)) k w = k a w.
Proof. reflexivity. Qed.

Lemma bind_lift_raise {A B : Type} (e : exn) (k : A -> M B) (w : World) :
  bind (lift (Raise e)) k w = (Raise e, w).
Proof. reflexivity. Qed.

(** *** Generic facts on tables *)
Section TableFacts.
Context {T : Type} `{Model T}.

Lemma next_pk_above (rows : list T) (row : T) :
  In row rows -> pk_of row < Table.next_pk rows.
Proof.
  intros Hin. apply fresh_pk_above. now apply in_map.
Qed.

Lemma attach_other (k u : nat) (rows : list T) :
  (forall row, In row rows -> pk_of row < k) ->
  Table.attach k u rows = rows.
Proof.
  intros Hl. unfold Table.attach.
  induction rows as [| x rows IH]; [reflexivity |].
  simpl. rewrite IH by (intros row Hin; apply Hl; now right).
  specialize (Hl x (or_introl eq_refl)).
  destruct (Nat.eqb_spec (pk_of x) k); [lia | reflexivity].
Qed.

Lemma replace_other (r : T) (rows : list T) :
  (forall row, In row rows -> pk_of row < pk_of r) ->
  map (Table.replace r) rows = rows.
Proof.
  intros Hl. induction rows as [| x rows IH]; [reflexivity |].
  simpl. rewrite IH by (intros row Hin; apply Hl; now right).
  specialize (Hl x (or_introl eq_refl)). unfold Table.replace.
  destruct (Nat.eqb_spec (pk_of x) (pk_of r)); [lia | reflexivity].
Qed.

Lemma store_found (r : T) (rows : list T) :
  (exists row, In row rows /\ pk_of row = pk_of r) ->
  Table.store r rows = map (Table.replace r) rows.
Proof.
  intros (row & Hin & Hpk). unfold Table.store.
  replace (existsb _ rows) with true; [reflexivity |].
  symmetry. apply existsb_exists. exists row.
  split; [exact Hin | now apply Nat.eqb_eq].
Qed.

(** Inserting a row under the next key, attaching a user to it and
    saving an instance of that key leaves the earlier rows alone. *)
Lemma store_inserted (r0 r : T) (u : nat) (rows : list T) :
  pk_of r0 = Table.next_pk rows ->
  pk_of r = pk_of r0 ->
  Table.store r (Table.attach (pk_of r0) u (Table.insert r0 rows))
  = (rows ++ [r])%list.
Proof.
  intros Hk Hr.
  assert (Hlt : forall row, In row rows -> pk_of row < pk_of r0)
    by (intros row Hin; rewrite Hk; now apply next_pk_above).
  unfold Table.insert, Table.attach. rewrite map_app.
  fold (Table.attach (pk_of r0) u rows). rewrite attach_other by exact Hlt.
  cbn [map]. rewrite Nat.eqb_refl.
  rewrite store_found.
  - rewrite map_app, replace_other by (rewrite Hr; exact Hlt).
    cbn [map]. unfold Table.replace.
    now rewrite pk_with_users, Hr, Nat.eqb_refl.
  - eexists. split; [apply in_or_app; right; now left |].
    now rewrite pk_with_users.
Qed.

Lemma attach_inserted (r0 : T) (u : nat) (rows : list T) :
  pk_of r0 = Table.next_pk rows ->
  Table.attach (pk_of r0) u (Table.insert r0 rows)
  = (rows ++ [with_users (add_user u (users_of r0)) r0])%list.
Proof.
  intros Hk.
  assert (Hlt : forall row, In row rows -> pk_of row < pk_of r0)
    by (intros row Hin; rewrite Hk; now apply next_pk_above).
  unfold Table.insert, Table.attach. rewrite map_app.
  fold (Table.attach (pk_of r0) u rows). rewrite attach_other by exact Hlt.
  cbn [map]. now rewrite Nat.eqb_refl.
Qed.

Lemma in_replace (r found : T) (rows : list T) :
  In found rows -> pk_of r = pk_of found ->
  In r (map (Table.replace r) rows).
Proof.
  intros Hin Hpk. apply in_map_iff. exists found. split; [| exact Hin].
  unfold Table.replace. now rewrite Hpk, Nat.eqb_refl.
Qed.

Lemma pk_replace (r row : T) : pk_of (Table.replace r row) = pk_of row.
Proof.
  unfold Table.replace.
  destruct (Nat.eqb_spec (pk_of row) (pk_of r)); congruence.
Qed.

Lemma pks_replace (r : T) (rows : list T) :
  map pk_of (map (Table.replace r) rows) = map pk_of rows.
Proof.
  rewrite map_map. apply map_ext. intros row. apply pk_replace.
Qed.

Lemma pks_attach (k u : nat) (rows : list T) :
  map pk_of (Table.attach k u rows) = map pk_of rows.
Proof.
  unfold Table.attach. rewrite map_map. apply map_ext. intros row.
  destruct (Nat.eqb (pk_of row) k); [apply pk_with_users | reflexivity].
Qed.

(** No operation on a table removes a key. *)
Lemma pks_store (r : T) (rows : list T) :
  exists more, map pk_of (Table.store r rows) = (map pk_of rows ++ more)%list.
Proof.
  unfold Table.store. destruct (existsb _ rows).
  - exists []. now rewrite pks_replace, app_nil_r.
  - exists [pk_of r]. now rewrite map_app.
Qed.

Lemma in_store (r : T) (rows : list T) : In r (Table.store r rows).
Proof.
  unfold Table.store.
  destruct (existsb _ rows) eqn:E.
  - apply existsb_exists in E as (row & Hin & Hpk).
    apply Nat.eqb_eq in Hpk. now apply in_replace with (found := row).
  - apply in_or_app. right. now left.
Qed.

Lemma select_found (f : T -> bool) (rows : list T) (r : T) :
  Table.select f rows = Ok r -> filter f rows = [r].
Proof.
  unfold Table.select.
  destruct (filter f rows) as [| x [| y l]]; congruence.
Qed.
End TableFacts.

Lemma pk_overwrite (env : Env) (self : Service.t) (fields : pyval)
  (organization : option RemoteOrganization.t) (r : RemoteRepository.t) :
  RemoteRepository.pk (overwrite env self fields organization r)
  = RemoteRepository.pk r.
Proof. reflexivity. Qed.

Lemma create_repository_run (env : Env) (self : Service.t) (fields : pyval)
  (privacy : string) (organization : option RemoteOrganization.t)
  (w : World) :
  repo_payload fields = true ->
  create_repository env self fields privacy organization w =
  if visible privacy fields then
    match matching_repositories self fields w with
    | [] =>
        let r := overwrite env self fields organization
                   (new_repository self fields w) in
        (Ok (Some r), set_repositories (repositories w ++ [r]) w)
    | [found] =>
        if mismatched_orgs found organization then
          (Ok None,
           add_log
             (mkLog DEBUG "Not importing %s because mismatched orgs"
                [ArgVal (item fields "name")] false) w)
        else
          let r := overwrite env self fields organization found in
          (Ok (Some r),
           set_repositories
             (map (Table.replace r) (repositories w)) w)
    | _ :: _ :: _ => (Raise MultipleObjectsReturned, w)
    end
  else
    (Ok None,
     add_log
       (mkLog DEBUG "Not importing %s because mismatched type"
          [ArgVal (item fields "name")] false) w).
Proof.
  intros Hwf.
  destruct (repo_payload_inv _ Hwf)
    as (pv & fn & nm & ds & ssh & html & cl & p & o & Hpv & Hfn & Hnm & Hds
        & Hssh & Hhtml & Hcl & Hp & Ho).
  unfold create_repository, visible, matching_repositories, new_repository.
  assert (Ipv : item fields "private" = pv) by (unfold item; now rewrite Hpv).
  assert (Ifn : item fields "full_name" = fn)
    by (unfold item; now rewrite Hfn).
  assert (Inm : item fields "name" = nm) by (unfold item; now rewrite Hnm).
  rewrite Ipv, Ifn, Inm, Hpv, Hfn, Hnm.
  assert (Hcond :
            (if String.eqb privacy "private" then ret true
             else p0 <- lift (Ok pv) ;;
                  ret (Py.is_False p0 && String.eqb privacy "public")) w
            = (Ok (String.eqb privacy "private"
                   || (Py.is_False pv && String.eqb privacy "public")), w)).
  { destruct (String.eqb privacy "private"); reflexivity. }
  unfold bind at 1. rewrite Hcond.
  destruct (String.eqb privacy "private"
            || (Py.is_False pv && String.eqb privacy "public"));
    [| reflexivity].
  unfold bind at 1.
  match goal with
  | |- (let (r, w') := _ in
        match r with Ok a => @?T a w' | Raise e => _ end) = _ =>
      assert (Htail : forall a w',
                 T a w'
                 = if mismatched_orgs a organization then
                     (Ok None,
                      add_log
                        (mkLog DEBUG "Not importing %s because mismatched orgs"
                           [ArgVal nm] false) w')
                   else
                     let r := overwrite env self fields organization a in
                     (Ok (Some r), snd (RemoteRepositoryManager.save r w')))
  end.
  { intros a w'. cbv beta.
    destruct (mismatched_orgs a organization); [reflexivity |].
    unfold overwrite, item, nested.
    rewrite Hpv, Hnm, Hds, Hssh, Hhtml, Hcl, Hp, Ho.
    assert (Had : exists ad, Py.get (VDict p) "admin" (VBool false) = Ok ad)
      by (cbn; destruct (Py.lookup "admin" p); eauto).
    assert (Hav : exists av, Py.get (VDict o) "avatar_url" VNone = Ok av)
      by (cbn; destruct (Py.lookup "avatar_url" o); eauto).
    destruct Had as [ad Had], Hav as [av Hav].
    unfold bind, lift, ret. rewrite Had, Hav.
    cbn [RemoteRepository.private RemoteRepository.set_private].
    destruct (Py.truthy pv); reflexivity. }
  cbv beta in Htail.
  unfold try_except, bind at 1, lift at 1, RemoteRepositoryManager.get,
    Table.select.
  destruct (filter _ (repositories w)) as [| found [| other rest]] eqn:Hfilter.
  - cbv beta iota. rewrite bind_lift_ok.
    unfold bind, RemoteRepositoryManager.create,
      RemoteRepositoryManager.users_add.
    cbv beta iota zeta. rewrite Htail.
    cbn [mismatched_orgs RemoteRepository.organization
           RemoteRepository.set_users RemoteRepository.blank].
    cbv zeta. unfold RemoteRepositoryManager.save.
    cbn [snd repositories set_repositories organizations log requests].
    rewrite (@store_inserted _ RemoteRepository_Model);
      reflexivity.
  - cbv beta iota. rewrite Htail.
    destruct (mismatched_orgs found organization); [reflexivity |].
    cbv zeta. unfold RemoteRepositoryManager.save. cbn [snd].
    rewrite (@store_found _ RemoteRepository_Model); [reflexivity |].
    exists found. split; [| reflexivity].
    assert (Hin : In found (filter
                              (RemoteRepositoryManager.matches fn
                                 (Service.user self) (Service.account self))
                              (repositories w)))
      by (rewrite Hfilter; now left).
    now apply filter_In in Hin.
  - reflexivity.
Qed.

Lemma visible_spec (privacy : string) (fields : pyval) :
  repo_payload fields = true ->
  visible privacy fields = true
  <-> privacy = "private"
      \/ (Py.subscript fields "private" = Ok (VBool false)
          /\ privacy = "public").
Proof.
  intros Hwf.
  destruct (repo_payload_inv _ Hwf) as (pv & ? & ? & ? & ? & ? & ? & ? & ?
                                        & Hpv & _).
  unfold visible, item. rewrite Hpv.
  rewrite orb_true_iff, andb_true_iff, !String.eqb_eq.
  assert (Hf : Py.is_False pv = true <-> Ok pv = Ok (VBool false)).
  { destruct pv as [| [|] | | | |]; cbn; split; congruence. }
  rewrite Hf. reflexivity.
Qed.

Lemma matching_in (self : Service.t) (fields : pyval) (w : World)
  (found : RemoteRepository.t) :
  In found (matching_repositories self fields w) ->
  In found (repositories w).
Proof. unfold matching_repositories. intros H. now apply filter_In in H. Qed.

(** C1, as the code has it: for a repository object of the API and a
    table in which at most one row answers the lookup,
    [create_repository] persists a record exactly when the visibility test
    admits the payload (the requested privacy is "private", or the
    payload's private flag is [False] and the requested privacy is
    "public") and the row found is not linked to another organization
    than the one given; in every other case it returns [None] and leaves
    the table as it was. *)
Theorem create_repository_persists_iff (env : Env) (self : Service.t)
  (fields : pyval) (privacy : string)
  (organization : option RemoteOrganization.t) (w : World) :
  repo_payload fields = true ->
  List.length (matching_repositories self fields w) <= 1 ->
  let run := create_repository env self fields privacy organization w in
  let admitted :=
    privacy = "private"
    \/ (Py.subscript fields "private" = Ok (VBool false)
        /\ privacy = "public") in
  let conflict :=
    exists found,
      In found (matching_repositories self fields w)
      /\ mismatched_orgs found organization = true in
  ((exists r, fst run = Ok (Some r) /\ In r (repositories (snd run)))
   <-> admitted /\ ~ conflict)
  /\ (~ (admitted /\ ~ conflict) ->
      fst run = Ok None /\ repositories (snd run) = repositories w).
Proof.
  intros Hwf Hlen. cbv zeta.
  rewrite create_repository_run by exact Hwf.
  rewrite <- (visible_spec privacy fields Hwf).
  destruct (visible privacy fields).
  - destruct (matching_repositories self fields w)
      as [| found [| other rest]] eqn:Hm.
    + cbn [fst snd repositories set_repositories]. split.
      * split.
        -- intros _. split; [reflexivity |]. intros (f & [] & _).
        -- intros _. eexists. split; [reflexivity |].
           apply in_or_app. right. now left.
      * intros Hn. exfalso. apply Hn. split; [reflexivity |].
        intros (f & [] & _).
    + destruct (mismatched_orgs found organization) eqn:Hmis;
        cbn [fst snd repositories set_repositories add_log].
      * split.
        -- split.
           ++ intros (r & Hr & _). discriminate.
           ++ intros [_ Hn]. exfalso. apply Hn. exists found.
              split; [now left | exact Hmis].
        -- intros _. split; reflexivity.
      * split.
        -- split.
           ++ intros _. split; [reflexivity |].
              intros (f & [<- | []] & Hf). congruence.
           ++ intros _. eexists. split; [reflexivity |].
              apply (@in_replace _ RemoteRepository_Model) with (found := found);
                [| reflexivity].
              apply (matching_in self fields). rewrite Hm. now left.
        -- intros Hn. exfalso. apply Hn. split; [reflexivity |].
           intros (f & [<- | []] & Hf). congruence.
    + simpl in Hlen. lia.
  - cbn [fst snd repositories add_log]. split.
    + split.
      * intros (r & Hr & _). discriminate.
      * intros [Hv _]. discriminate.
    + intros _. split; reflexivity.
Qed.

(** C3: an existing record linked to organization [A] and presented under
    another organization [B] makes [create_repository] return [None];
    the tables are left as they were, so no field of the record is
    overwritten and nothing is saved. *)
Theorem create_repository_other_organization (env : Env) (self : Service.t)
  (fields : pyval) (privacy : string) (A : nat) (B : RemoteOrganization.t)
  (found : RemoteRepository.t) (w : World) :
  repo_payload fields = true ->
  matching_repositories self fields w = [found] ->
  RemoteRepository.organization found = Some A ->
  RemoteOrganization.pk B <> A ->
  let run := create_repository env self fields privacy (Some B) w in
  fst run = Ok None
  /\ repositories (snd run) = repositories w
  /\ organizations (snd run) = organizations w
  /\ In found (repositories (snd run)).
Proof.
  intros Hwf Hm HA HB. cbv zeta.
  rewrite create_repository_run by exact Hwf. rewrite Hm.
  assert (Hmis : mismatched_orgs found (Some B) = true).
  { unfold mismatched_orgs, organization_differs. rewrite HA.
    apply negb_true_iff, Nat.eqb_neq. congruence. }
  rewrite Hmis.
  assert (Hin : In found (repositories w))
    by (apply (matching_in self fields); rewrite Hm; now left).
  destruct (visible privacy fields); cbn; auto.
Qed.

(** C10, as the code has it: for an existing record linked to some
    organization, [create_repository] called without an organization
    returns [None] and leaves the tables as they were, so the record
    keeps its organization.  It does so through the conflict branch when
    the visibility test admits the payload, and through the visibility
    skip when it does not. *)
Theorem create_repository_keeps_organization (env : Env) (self : Service.t)
  (fields : pyval) (privacy : string) (A : nat)
  (found : RemoteRepository.t) (w : World) :
  repo_payload fields = true ->
  matching_repositories self fields w = [found] ->
  RemoteRepository.organization found = Some A ->
  let run := create_repository env self fields privacy None w in
  fst run = Ok None
  /\ repositories (snd run) = repositories w
  /\ organizations (snd run) = organizations w
  /\ In found (repositories (snd run))
  /\ log (snd run)
     = (log w
        ++ [mkLog DEBUG
              (if visible privacy fields
               then "Not importing %s because mismatched orgs"
               else "Not importing %s because mismatched type")
              [ArgVal (item fields "name")] false])%list.
Proof.
  intros Hwf Hm HA. cbv zeta.
  rewrite create_repository_run by exact Hwf. rewrite Hm.
  assert (Hmis : mismatched_orgs found None = true).
  { unfold mismatched_orgs, organization_differs. now rewrite HA. }
  rewrite Hmis.
  assert (Hin : In found (repositories w))
    by (apply (matching_in self fields); rewrite Hm; now left).
  destruct (visible privacy fields); cbn; auto.
Qed.

(** ** Reading a successful run backwards *)

Lemma bind_ok_inv {A B : Type} (m : M A) (k : A -> M B) (w w' : World)
  (b : B) :
  bind m k w = (Ok b, w') ->
  exists a w1, m w = (Ok a, w1) /\ k a w1 = (Ok b, w').
Proof.
  unfold bind. destruct (m w) as [[a | e] w1]; [eauto | discriminate].
Qed.

Lemma lift_ok_inv {A : Type} (r : result A) (w w' : World) (a : A) :
  lift r w = (Ok a, w') -> r = Ok a /\ w' = w.
Proof. unfold lift. intros H. injection H as -> ->. now split. Qed.

Lemma ret_ok_inv {A : Type} (a b : A) (w w' : World) :
  ret a w = (Ok b, w') -> a = b /\ w' = w.
Proof. unfold ret. intros H. injection H as -> ->. now split. Qed.

Ltac bind_inv H a Ha :=
  let w1 := fresh "w" in
  apply bind_ok_inv in H as (a & w1 & Ha & H); cbv beta in H.

Ltac lift_inv H a Ha :=
  bind_inv H a Ha; apply lift_ok_inv in Ha as [Ha ->].


(** ** Nothing is ever deleted *)

Lemma extends_refl {A : Type} (l : list A) : extends l l.
Proof. exists []. now rewrite app_nil_r. Qed.

Lemma extends_trans {A : Type} (l1 l2 l3 : list A) :
  extends l1 l2 -> extends l2 l3 -> extends l1 l3.
Proof.
  intros [m1 ->] [m2 ->]. exists (m1 ++ m2)%list. now rewrite app_assoc.
Qed.

Lemma extends_app {A : Type} (l more : list A) : extends l (l ++ more).
Proof. now exists more. Qed.

Lemma grows_refl (w : World) : grows w w.
Proof. (split; [| split; [| split]]); apply extends_refl. Qed.

Lemma grows_trans (w1 w2 w3 : World) :
  grows w1 w2 -> grows w2 w3 -> grows w1 w3.
Proof.
  intros (A1 & B1 & C1 & D1) (A2 & B2 & C2 & D2).
  (split; [| split; [| split]]); eapply extends_trans; eassumption.
Qed.

(** Expose the tables of the world a database primitive returns. *)
Ltac snd_world :=
  unfold RemoteRepositoryManager.create, RemoteRepositoryManager.users_add,
    RemoteRepositoryManager.save, RemoteOrganizationManager.create,
    RemoteOrganizationManager.users_add, RemoteOrganizationManager.save,
    set_repositories, set_organizations, grows;
  cbn [snd repositories organizations log requests].

Lemma monotone_ret {A : Type} (a : A) : monotone (ret a).
Proof. intros w. apply grows_refl. Qed.

Lemma monotone_raise {A : Type} (e : exn) : monotone (@raise A e).
Proof. intros w. apply grows_refl. Qed.

Lemma monotone_lift {A : Type} (r : result A) : monotone (lift r).
Proof. intros w. apply grows_refl. Qed.

Lemma monotone_bind {A B : Type} (m : M A) (k : A -> M B) :
  monotone m -> (forall a, monotone (k a)) -> monotone (bind m k).
Proof.
  intros Hm Hk w. unfold bind. specialize (Hm w).
  destruct (m w) as [[a | e] w1]; cbn [snd] in *; [| exact Hm].
  eapply grows_trans; [exact Hm | apply Hk].
Qed.

Lemma monotone_try_except {A : Type} (body : M A)
  (handler : exn -> option (M A)) :
  monotone body ->
  (forall e h, handler e = Some h -> monotone h) ->
  monotone (try_except body handler).
Proof.
  intros Hb Hh w. unfold try_except. specialize (Hb w).
  destruct (body w) as [[a | e] w1]; cbn [snd] in *; [exact Hb |].
  destruct (handler e) as [h |] eqn:E; [| exact Hb].
  eapply grows_trans; [exact Hb | apply (Hh e h E)].
Qed.

Lemma monotone_for_each {A : Type} (l : list A) (body : A -> M unit) :
  (forall x, monotone (body x)) -> monotone (for_each l body).
Proof.
  intros Hb. induction l as [| x l IH]; simpl.
  - apply monotone_ret.
  - apply monotone_bind; [apply Hb | intros _; exact IH].
Qed.

Lemma monotone_log_call (l : level) (m : string) (a : list logarg)
  (ei : bool) : monotone (log_call l m a ei).
Proof.
  intros w. cbn. (split; [| split; [| split]]); try apply extends_refl. apply extends_app.
Qed.

Lemma monotone_session_get (env : Env) (url : string) :
  monotone (session_get env url).
Proof.
  intros w. cbn. (split; [| split; [| split]]); try apply extends_refl. apply extends_app.
Qed.

Lemma monotone_Response_json (resp : Response) : monotone (Response_json resp).
Proof.
  unfold Response_json.
  destruct (body resp); [apply monotone_ret | apply monotone_raise].
Qed.

Lemma monotone_extend_method (result : pyval) :
  monotone (extend_method result).
Proof.
  destruct result; first [apply monotone_ret | apply monotone_raise].
Qed.

Lemma monotone_repository_get (fn : pyval) (u a : nat) :
  monotone (RemoteRepositoryManager.get fn u a).
Proof. intros w. apply grows_refl. Qed.

Lemma monotone_repository_create (fn : pyval) (a : nat) :
  monotone (RemoteRepositoryManager.create fn a).
Proof.
  intros w. snd_world. (split; [| split; [| split]]); try apply extends_refl.
  unfold Table.insert. rewrite map_app. apply extends_app.
Qed.

Lemma monotone_repository_users_add (r : RemoteRepository.t) (u : nat) :
  monotone (RemoteRepositoryManager.users_add r u).
Proof.
  intros w. snd_world. (split; [| split; [| split]]); try apply extends_refl.
  rewrite (@pks_attach _ RemoteRepository_Model). apply extends_refl.
Qed.

Lemma monotone_repository_save (r : RemoteRepository.t) :
  monotone (RemoteRepositoryManager.save r).
Proof.
  intros w. snd_world. (split; [| split; [| split]]); try apply extends_refl.
  apply (@pks_store _ RemoteRepository_Model).
Qed.

Lemma monotone_organization_get (s : pyval) (u a : nat) :
  monotone (RemoteOrganizationManager.get s u a).
Proof. intros w. apply grows_refl. Qed.

Lemma monotone_organization_create (s : pyval) (a : nat) :
  monotone (RemoteOrganizationManager.create s a).
Proof.
  intros w. snd_world. (split; [| split; [| split]]); try apply extends_refl.
  unfold Table.insert. rewrite map_app. apply extends_app.
Qed.

Lemma monotone_organization_users_add (o : RemoteOrganization.t) (u : nat) :
  monotone (RemoteOrganizationManager.users_add o u).
Proof.
  intros w. snd_world. (split; [| split; [| split]]); try apply extends_refl.
  rewrite (@pks_attach _ RemoteOrganization_Model). apply extends_refl.
Qed.

Lemma monotone_organization_save (o : RemoteOrganization.t) :
  monotone (RemoteOrganizationManager.save o).
Proof.
  intros w. snd_world. (split; [| split; [| split]]); try apply extends_refl.
  apply (@pks_store _ RemoteOrganization_Model).
Qed.

Create HintDb mono discriminated.
#[local] Hint Resolve monotone_ret monotone_raise monotone_lift
  monotone_log_call monotone_session_get monotone_Response_json
  monotone_extend_method
  monotone_repository_get monotone_repository_create
  monotone_repository_users_add monotone_repository_save
  monotone_organization_get monotone_organization_create
  monotone_organization_users_add monotone_organization_save : mono.

(** One step of a monotonicity proof: follow the shape of the program. *)
Ltac mono_step :=
  match goal with
  | |- monotone (bind _ _) => apply monotone_bind; [| intros ?]
  | |- monotone (try_except _ _) =>
      apply monotone_try_except;
      [| let e := fresh "e" in
         let h := fresh "h" in
         let E := fresh "E" in
         intros e h E; destruct e; try discriminate E;
         injection E as <-]
  | |- monotone (for_each _ _) => apply monotone_for_each; intros ?
  | |- monotone (if ?b then _ else _) => destruct b
  | |- monotone (match ?x with _ => _ end) => destruct x
  | |- monotone _ => solve [auto with mono]
  end.

Ltac mono := repeat mono_step.

Lemma monotone_paginate (env : Env) (depth : nat) :
  forall url, monotone (paginate env depth url).
Proof.
  induction depth as [| depth IH]; intros url; simpl.
  - apply monotone_raise.
  - mono.
Qed.

Lemma monotone_create_repository (env : Env) (self : Service.t)
  (fields : pyval) (privacy : string)
  (organization : option RemoteOrganization.t) :
  monotone (create_repository env self fields privacy organization).
Proof. unfold create_repository. mono. Qed.

Lemma monotone_create_organization (env : Env) (self : Service.t)
  (fields : pyval) :
  monotone (create_organization env self fields).
Proof. unfold create_organization. mono. Qed.

Lemma monotone_sync_handler (what : string) (e : exn) (h : M unit) :
  sync_handler what e = Some h -> monotone h.
Proof.
  unfold sync_handler. destruct e; try discriminate;
    intros E; injection E as <-; mono.
Qed.

Lemma monotone_sync_repositories (env : Env) (self : Service.t) :
  monotone (sync_repositories env self).
Proof.
  unfold sync_repositories.
  apply monotone_bind; [apply monotone_paginate | intros repos].
  apply monotone_try_except; [| apply monotone_sync_handler].
  mono. apply monotone_create_repository.
Qed.

Lemma monotone_sync_organizations (env : Env) (self : Service.t) :
  monotone (sync_organizations env self).
Proof.
  unfold sync_organizations.
  apply monotone_try_except; [| apply monotone_sync_handler].
  apply monotone_bind; [apply monotone_paginate | intros orgs].
  mono;
    first [ apply monotone_paginate | apply monotone_create_organization
          | apply monotone_create_repository ].
Qed.

Lemma monotone_sync (env : Env) (self : Service.t) :
  monotone (sync env self).
Proof.
  unfold sync. apply monotone_bind;
    [apply monotone_sync_repositories
    | intros _; apply monotone_sync_organizations].
Qed.

(** ** Upserts are in place *)

Section TableKeys.
Context {T : Type} `{Model T}.

Lemma pk_injective (rows : list T) (x y : T) :
  NoDup (map pk_of rows) -> In x rows -> In y rows ->
  pk_of x = pk_of y -> x = y.
Proof.
  induction rows as [| z rows IH]; intros Hnd Hx Hy Hpk; [destruct Hx |].
  simpl in Hnd. inversion Hnd as [| k ks Hnotin Hnd' ]; subst.
  destruct Hx as [-> | Hx], Hy as [-> | Hy].
  - reflexivity.
  - exfalso. apply Hnotin. rewrite Hpk. now apply in_map.
  - exfalso. apply Hnotin. rewrite <- Hpk. now apply in_map.
  - now apply IH.
Qed.

Lemma filter_map_same (f : T -> bool) (g : T -> T) (rows : list T) :
  (forall x, In x rows -> f (g x) = f x) ->
  filter f (map g rows) = map g (filter f rows).
Proof.
  intros Hfg. induction rows as [| x rows IH]; [reflexivity |].
  simpl. rewrite (Hfg x (or_introl eq_refl)).
  rewrite IH by (intros y Hy; apply Hfg; now right).
  now destruct (f x).
Qed.

(** Saving over the one row that a lookup selects leaves the lookup with
    that one row, when the keys of the table are distinct. *)
Lemma filter_replace (f : T -> bool) (r found : T) (rows : list T) :
  NoDup (map pk_of rows) ->
  filter f rows = [found] ->
  pk_of r = pk_of found ->
  f r = true ->
  filter f (map (Table.replace r) rows) = [r].
Proof.
  intros Hnd Hf Hpk Hr.
  assert (Hin : In found (filter f rows)) by (rewrite Hf; now left).
  apply filter_In in Hin as [Hin Hfound].
  rewrite filter_map_same.
  - rewrite Hf. cbn [map]. unfold Table.replace.
    now rewrite Hpk, Nat.eqb_refl.
  - intros x Hx. unfold Table.replace.
    destruct (Nat.eqb_spec (pk_of x) (pk_of r)) as [E | E]; [| reflexivity].
    assert (x = found) by (apply (pk_injective rows); congruence).
    congruence.
Qed.

Lemma NoDup_insert (r : T) (rows : list T) :
  NoDup (map pk_of rows) ->
  pk_of r = Table.next_pk rows ->
  NoDup (map pk_of (rows ++ [r])).
Proof.
  intros Hnd Hk. rewrite map_app. cbn [map].
  apply NoDup_rev in Hnd. rewrite <- (rev_involutive (_ ++ _)).
  apply NoDup_rev. rewrite rev_app_distr. cbn [rev app].
  constructor; [| exact Hnd].
  rewrite <- in_rev. intros Hin. apply in_map_iff in Hin as (x & Hx & Hin).
  apply next_pk_above in Hin. lia.
Qed.
End TableKeys.

Section ReplaceOne.
Context {T : Type} `{Model T}.

(** With distinct keys, saving over a row changes that row and no
    other. *)
Lemma replace_one (r found : T) (rows : list T) :
  NoDup (map pk_of rows) ->
  In found rows ->
  pk_of r = pk_of found ->
  exists before after,
    rows = (before ++ found :: after)%list
    /\ map (Table.replace r) rows = (before ++ r :: after)%list.
Proof.
  intros Hnd Hin Hpk.
  destruct (in_split _ _ Hin) as (before & after & ->).
  exists before, after. split; [reflexivity |].
  assert (Hother : forall row,
             In row before \/ In row after ->
             Table.replace r row = row).
  { intros row Hrow. unfold Table.replace.
    destruct (Nat.eqb_spec (pk_of row) (pk_of r)) as [E | E];
      [| reflexivity].
    exfalso. rewrite map_app in Hnd. cbn [map] in Hnd.
    apply NoDup_remove_2 in Hnd. apply Hnd.
    rewrite <- Hpk, <- E. apply in_or_app.
    destruct Hrow as [Hrow | Hrow]; [left | right]; now apply in_map. }
  rewrite map_app. cbn [map].
  replace (Table.replace r found) with r
    by (unfold Table.replace; now rewrite Hpk, Nat.eqb_refl).
  f_equal; [| f_equal].
  - rewrite <- (map_id before) at 2. apply map_ext_in.
    intros row Hrow. apply Hother. now left.
  - rewrite <- (map_id after) at 2. apply map_ext_in.
    intros row Hrow. apply Hother. now right.
Qed.
End ReplaceOne.

Lemma matches_overwrite (env : Env) (self : Service.t) (fields : pyval)
  (organization : option RemoteOrganization.t) (fn : pyval)
  (r : RemoteRepository.t) :
  RemoteRepositoryManager.matches fn (Service.user self)
    (Service.account self) r = true ->
  RemoteRepositoryManager.matches fn (Service.user self)
    (Service.account self) (overwrite env self fields organization r) = true.
Proof.
  unfold RemoteRepositoryManager.matches. cbn.
  rewrite !andb_true_iff. intros [[H1 H2] _].
  now rewrite H1, H2, Nat.eqb_refl.
Qed.

Lemma matches_new_repository (self : Service.t) (fields : pyval) (w : World) :
  RemoteRepositoryManager.matches (item fields "full_name")
    (Service.user self) (Service.account self)
    (new_repository self fields w) = true.
Proof.
  unfold RemoteRepositoryManager.matches, new_repository.
  cbn -[Table.next_pk]. now rewrite pyval_eqb_refl, !Nat.eqb_refl.
Qed.

(** After a successful upsert the lookup for the payload selects the
    record returned, and nothing else. *)
Lemma upsert_selects (env : Env) (self : Service.t) (fields : pyval)
  (privacy : string) (organization : option RemoteOrganization.t)
  (w w' : World) (r : RemoteRepository.t) :
  repo_payload fields = true ->
  NoDup (map RemoteRepository.pk (repositories w)) ->
  create_repository env self fields privacy organization w
  = (Ok (Some r), w') ->
  matching_repositories self fields w' = [r]
  /\ NoDup (map RemoteRepository.pk (repositories w')).
Proof.
  intros Hwf Hnd H. rewrite create_repository_run in H by exact Hwf.
  destruct (visible privacy fields); [| discriminate].
  destruct (matching_repositories self fields w)
    as [| found [| other rest]] eqn:Hm; [| | discriminate].
  - cbv zeta in H. injection H as <- <-.
    unfold matching_repositories in *.
    cbn [repositories set_repositories]. split.
    + rewrite filter_app, Hm. cbn [filter app].
      now rewrite matches_overwrite by apply matches_new_repository.
    + apply (@NoDup_insert _ RemoteRepository_Model);
        [exact Hnd | reflexivity].
  - destruct (mismatched_orgs found organization); [discriminate |].
    cbv zeta in H. injection H as <- <-.
    unfold matching_repositories in *.
    cbn [repositories set_repositories]. split.
    + apply (@filter_replace _ RemoteRepository_Model) with (found := found);
        [exact Hnd | exact Hm | reflexivity |].
      apply matches_overwrite.
      assert (Hin : In found
                      (filter
                         (RemoteRepositoryManager.matches
                            (item fields "full_name") (Service.user self)
                            (Service.account self)) (repositories w)))
        by (rewrite Hm; now left).
      now apply filter_In in Hin.
    + change (NoDup (map pk_of (map (Table.replace
                (overwrite env self fields organization found))
                (repositories w)))).
      now rewrite pks_replace.
Qed.

Lemma get_object (d : list (string * pyval)) (k : string) :
  Py.get (VDict d) k VNone = Ok (entry (VDict d) k).
Proof. unfold entry. cbn. now destruct (Py.lookup k d). Qed.

Lemma create_organization_run (env : Env) (self : Service.t)
  (d : list (string * pyval)) (w : World) :
  create_organization env self (VDict d) w =
  match matching_organizations self (VDict d) w with
  | [] =>
      let o := overwrite_organization env self (VDict d)
                 (new_organization self (VDict d) w) in
      (Ok o, set_organizations (organizations w ++ [o]) w)
  | [found] =>
      let o := overwrite_organization env self (VDict d) found in
      (Ok o, set_organizations (map (Table.replace o) (organizations w)) w)
  | _ :: _ :: _ => (Raise MultipleObjectsReturned, w)
  end.
Proof.
  unfold create_organization, matching_organizations, new_organization,
    overwrite_organization.
  rewrite !get_object.
  unfold bind at 1, try_except, bind at 1, lift at 1,
    RemoteOrganizationManager.get, Table.select.
  destruct (filter _ (organizations w)) as [| found [| other rest]] eqn:Hf.
  - cbv beta iota. rewrite bind_lift_ok.
    unfold bind, lift, ret, RemoteOrganizationManager.create,
      RemoteOrganizationManager.users_add, RemoteOrganizationManager.save.
    cbv beta iota zeta.
    cbn [snd organizations set_organizations repositories log requests].
    rewrite (@store_inserted _ RemoteOrganization_Model); reflexivity.
  - cbv beta iota. unfold bind, lift, ret, RemoteOrganizationManager.save.
    cbv beta iota zeta. cbn [snd organizations set_organizations].
    rewrite (@store_found _ RemoteOrganization_Model); [reflexivity |].
    exists found. split; [| reflexivity].
    assert (Hin : In found
                    (filter
                       (RemoteOrganizationManager.matches
                          (entry (VDict d) "login") (Service.user self)
                          (Service.account self)) (organizations w)))
      by (rewrite Hf; now left).
    now apply filter_In in Hin.
  - reflexivity.
Qed.

Lemma matches_overwrite_organization (env : Env) (self : Service.t)
  (fields : pyval) (s : pyval) (o : RemoteOrganization.t) :
  RemoteOrganizationManager.matches s (Service.user self)
    (Service.account self) o = true ->
  RemoteOrganizationManager.matches s (Service.user self)
    (Service.account self) (overwrite_organization env self fields o) = true.
Proof.
  unfold RemoteOrganizationManager.matches. cbn.
  rewrite !andb_true_iff. intros [[H1 H2] _].
  now rewrite H1, H2, Nat.eqb_refl.
Qed.

Lemma matches_new_organization (self : Service.t) (fields : pyval)
  (w : World) :
  RemoteOrganizationManager.matches (entry fields "login")
    (Service.user self) (Service.account self)
    (new_organization self fields w) = true.
Proof.
  unfold RemoteOrganizationManager.matches, new_organization.
  cbn -[Table.next_pk]. now rewrite pyval_eqb_refl, !Nat.eqb_refl.
Qed.

Lemma organization_upsert_selects (env : Env) (self : Service.t)
  (d : list (string * pyval)) (w w' : World) (o : RemoteOrganization.t) :
  NoDup (map RemoteOrganization.pk (organizations w)) ->
  create_organization env self (VDict d) w = (Ok o, w') ->
  matching_organizations self (VDict d) w' = [o]
  /\ NoDup (map RemoteOrganization.pk (organizations w')).
Proof.
  intros Hnd H. rewrite create_organization_run in H.
  destruct (matching_organizations self (VDict d) w)
    as [| found [| other rest]] eqn:Hm; [| | discriminate];
    cbv zeta in H; injection H as <- <-;
    unfold matching_organizations in *;
    cbn [organizations set_organizations]; split.
  - rewrite filter_app, Hm. cbn [filter app].
    now rewrite matches_overwrite_organization
      by apply matches_new_organization.
  - apply (@NoDup_insert _ RemoteOrganization_Model);
      [exact Hnd | reflexivity].
  - apply (@filter_replace _ RemoteOrganization_Model) with (found := found);
      [exact Hnd | exact Hm | reflexivity |].
    apply matches_overwrite_organization.
    assert (Hin : In found
                    (filter
                       (RemoteOrganizationManager.matches
                          (entry (VDict d) "login") (Service.user self)
                          (Service.account self)) (organizations w)))
      by (rewrite Hm; now left).
    now apply filter_In in Hin.
  - change (NoDup (map pk_of (map (Table.replace
              (overwrite_organization env self (VDict d) found))
              (organizations w)))).
    now rewrite pks_replace.
Qed.

Lemma create_organization_object (env : Env) (self : Service.t)
  (fields : pyval) (w w' : World) (o : RemoteOrganization.t) :
  create_organization env self fields w = (Ok o, w') ->
  exists d, fields = VDict d.
Proof.
  destruct fields as [| b | z | s | l | d]; try (cbn; discriminate).
  eauto.
Qed.

(** C9, as the code has it: a second upsert under the same natural key
    never adds a row and never removes one.  For repositories, keyed by
    full name, user and account: when the visibility test admits the
    second payload and the record of the first call is not linked to
    another organization than the one passed, the second call returns
    that record with its fields overwritten from the second payload,
    under the same primary key and at the same place in the table, and it
    is then the only row for the key; otherwise the second call returns
    [None] and leaves the table as it is.  For organizations, keyed by
    slug, user and account, the second call always overwrites the first
    record's fields in that way.  And no call of [create_repository],
    [create_organization] or [sync] removes a row from either table. *)
Theorem upsert_twice_in_place (env : Env) (self : Service.t)
  (fields1 fields2 : pyval) (privacy1 privacy2 : string)
  (organization1 organization2 : option RemoteOrganization.t)
  (w w1 : World) (r1 : RemoteRepository.t)
  (org1 org2 : pyval) (v v1 : World) (o1 : RemoteOrganization.t) :
  repo_payload fields1 = true ->
  repo_payload fields2 = true ->
  item fields2 "full_name" = item fields1 "full_name" ->
  NoDup (map RemoteRepository.pk (repositories w)) ->
  create_repository env self fields1 privacy1 organization1 w
  = (Ok (Some r1), w1) ->
  Py.get org2 "login" VNone = Py.get org1 "login" VNone ->
  NoDup (map RemoteOrganization.pk (organizations v)) ->
  create_organization env self org1 v = (Ok o1, v1) ->
  let run2 := create_repository env self fields2 privacy2 organization2 w1 in
  let r2 := overwrite env self fields2 organization2 r1 in
  let orun2 := create_organization env self org2 v1 in
  let o2 := overwrite_organization env self org2 o1 in
  (map RemoteRepository.pk (repositories (snd run2))
   = map RemoteRepository.pk (repositories w1)
   /\ (visible privacy2 fields2 = true ->
       mismatched_orgs r1 organization2 = false ->
       fst run2 = Ok (Some r2)
       /\ (exists before after,
              repositories w1 = (before ++ r1 :: after)%list
              /\ repositories (snd run2) = (before ++ r2 :: after)%list)
       /\ RemoteRepository.pk r2 = RemoteRepository.pk r1
       /\ RemoteRepository.users r2 = RemoteRepository.users r1
       /\ RemoteRepository.name r2 = item fields2 "name"
       /\ RemoteRepository.description r2 = item fields2 "description"
       /\ RemoteRepository.ssh_url r2 = item fields2 "ssh_url"
       /\ RemoteRepository.html_url r2 = item fields2 "html_url"
       /\ RemoteRepository.private r2 = item fields2 "private"
       /\ RemoteRepository.organization r2
          = option_map RemoteOrganization.pk organization2
       /\ matching_repositories self fields2 (snd run2) = [r2])
   /\ (visible privacy2 fields2 = false
       \/ mismatched_orgs r1 organization2 = true ->
       fst run2 = Ok None /\ repositories (snd run2) = repositories w1))
  /\ (fst orun2 = Ok o2
      /\ (exists before after,
             organizations v1 = (before ++ o1 :: after)%list
             /\ organizations (snd orun2) = (before ++ o2 :: after)%list)
      /\ RemoteOrganization.pk o2 = RemoteOrganization.pk o1
      /\ RemoteOrganization.users o2 = RemoteOrganization.users o1
      /\ RemoteOrganization.url o2 = entry org2 "html_url"
      /\ RemoteOrganization.name o2 = entry org2 "name"
      /\ RemoteOrganization.email o2 = entry org2 "email"
      /\ RemoteOrganization.avatar_url o2 = entry org2 "avatar_url"
      /\ map RemoteOrganization.pk (organizations (snd orun2))
         = map RemoteOrganization.pk (organizations v1)
      /\ matching_organizations self org2 (snd orun2) = [o2])
  /\ (forall fields privacy organization x,
         grows x (snd (create_repository env self fields privacy
                         organization x)))
  /\ (forall fields x, grows x (snd (create_organization env self fields x)))
  /\ (forall x, grows x (snd (sync env self x))).
Proof.
  intros Hwf1 Hwf2 Hfn Hnd Hrun1 Hlogin Hndo Horun1. cbv zeta.
  split; [| split; [| split; [| split]]].
  - destruct (upsert_selects _ _ _ _ _ _ _ _ Hwf1 Hnd Hrun1) as [Hm1 Hnd1].
    assert (Hm2 : matching_repositories self fields2 w1 = [r1])
      by (unfold matching_repositories in *; now rewrite Hfn).
    assert (Hin : In r1 (repositories w1))
      by (apply (matching_in self fields2); rewrite Hm2; now left).
    rewrite create_repository_run by exact Hwf2. rewrite Hm2.
    destruct (visible privacy2 fields2);
      [destruct (mismatched_orgs r1 organization2) |];
      cbn [fst snd repositories set_repositories add_log].
    + split; [reflexivity |]. split; [discriminate |].
      intros _. now split.
    + split; [apply (@pks_replace _ RemoteRepository_Model) |].
      split; [| intros [H | H]; discriminate H].
      intros _ _. split; [reflexivity |].
      split.
      { apply (@replace_one _ RemoteRepository_Model);
          [exact Hnd1 | exact Hin | reflexivity]. }
      cbn -[item nested Py.truthy matching_repositories].
      do 8 (split; [reflexivity |]).
      unfold matching_repositories in *.
      apply (@filter_replace _ RemoteRepository_Model) with (found := r1);
        [exact Hnd1 | exact Hm2 | reflexivity |].
      apply matches_overwrite.
      assert (Hf : In r1
                     (filter
                        (RemoteRepositoryManager.matches
                           (item fields2 "full_name") (Service.user self)
                           (Service.account self)) (repositories w1)))
        by (rewrite Hm2; now left).
      now apply filter_In in Hf.
    + split; [reflexivity |]. split; [discriminate |].
      intros _. now split.
  - destruct (create_organization_object _ _ _ _ _ _ Horun1) as [d1 ->].
    rewrite get_object in Hlogin.
    destruct org2 as [| b | z | s | l | d2]; try (cbn in Hlogin; discriminate).
    rewrite get_object in Hlogin. injection Hlogin as Hlogin.
    destruct (organization_upsert_selects _ _ _ _ _ _ Hndo Horun1)
      as [Hm1 Hnd1].
    assert (Hm2 : matching_organizations self (VDict d2) v1 = [o1])
      by (unfold matching_organizations in *; now rewrite Hlogin).
    assert (Hin : In o1 (organizations v1)).
    { assert (Hf : In o1 (matching_organizations self (VDict d2) v1))
        by (rewrite Hm2; now left).
      unfold matching_organizations in Hf. now apply filter_In in Hf. }
    rewrite create_organization_run, Hm2.
    cbn [fst snd organizations set_organizations].
    split; [reflexivity |].
    split.
    { apply (@replace_one _ RemoteOrganization_Model);
        [exact Hnd1 | exact Hin | reflexivity]. }
    cbn -[entry matching_organizations].
    do 6 (split; [reflexivity |]).
    split.
    + apply (@pks_replace _ RemoteOrganization_Model).
    + unfold matching_organizations in *.
      apply (@filter_replace _ RemoteOrganization_Model) with (found := o1);
        [exact Hnd1 | exact Hm2 | reflexivity |].
      apply matches_overwrite_organization.
      assert (Hf : In o1
                     (filter
                        (RemoteOrganizationManager.matches
                           (entry (VDict d2) "login") (Service.user self)
                           (Service.account self)) (organizations v1)))
        by (rewrite Hm2; now left).
      now apply filter_In in Hf.
  - intros fields privacy organization x. apply monotone_create_repository.
  - intros fields x. apply monotone_create_organization.
  - intros x. apply monotone_sync.
Qed.

(** ** The two stages of [sync] *)

Lemma starts_session_get {A : Type} (env : Env) (url : string)
  (k : Response -> M A) :
  (forall resp, monotone (k resp)) ->
  starts_with (GET url) (bind (session_get env url) k).
Proof.
  intros Hk w. unfold bind, session_get.
  destruct (http_get env url) as [resp | e]; cbn [snd].
  - destruct (Hk resp (add_request (GET url) w)) as (_ & _ & _ & H).
    exact H.
  - apply extends_refl.
Qed.

Lemma starts_bind {A B : Type} (q : Request) (m : M A) (k : A -> M B) :
  starts_with q m -> (forall a, monotone (k a)) -> starts_with q (bind m k).
Proof.
  intros Hm Hk w. unfold bind. specialize (Hm w).
  destruct (m w) as [[a | e] w1]; cbn [snd] in *; [| exact Hm].
  destruct (Hk a w1) as (_ & _ & _ & H).
  eapply extends_trans; eassumption.
Qed.

Lemma starts_try_except {A : Type} (q : Request) (body : M A)
  (handler : exn -> option (M A)) :
  starts_with q body ->
  (forall e h, handler e = Some h -> monotone h) ->
  starts_with q (try_except body handler).
Proof.
  intros Hb Hh w. unfold try_except. specialize (Hb w).
  destruct (body w) as [[a | e] w1]; cbn [snd] in *; [exact Hb |].
  destruct (handler e) as [h |] eqn:E; [| exact Hb].
  destruct (Hh e h E w1) as (_ & _ & _ & H).
  eapply extends_trans; eassumption.
Qed.

(** Whenever [sync_organizations] runs, it asks for the organizations of
    the user. *)
Lemma sync_organizations_attempt (env : Env) (self : Service.t) (w : World) :
  recursion_limit env <> 0 ->
  In organizations_request (requests (snd (sync_organizations env self w))).
Proof.
  intros Hlimit.
  assert (Hs : starts_with organizations_request (sync_organizations env self)).
  { unfold sync_organizations, organizations_request.
    destruct (recursion_limit env) as [| depth] eqn:Hd; [contradiction |].
    apply starts_try_except; [| apply monotone_sync_handler].
    apply starts_bind.
    - simpl paginate. apply starts_session_get. intros resp.
      pose proof (monotone_paginate env depth). mono.
    - intros orgs.
      pose proof (monotone_paginate env (S depth)).
      pose proof (monotone_create_organization env self).
      pose proof (monotone_create_repository env self).
      mono. }
  destruct (Hs w) as [more Hmore]. rewrite Hmore.
  apply in_or_app. left. apply in_or_app. right. now left.
Qed.

(** C5, as the code has it: [sync] runs [sync_repositories] and then
    [sync_organizations].  An exception of the first stage ends [sync]
    there, with that very exception and the world as the first stage left
    it; the second stage runs, and asks for the user's organizations,
    only when the first stage returned. *)
Theorem sync_stops_at_first_failure (env : Env) (self : Service.t)
  (w : World) :
  (forall e w1,
      sync_repositories env self w = (Raise e, w1) ->
      sync env self w = (Raise e, w1))
  /\ (forall w1,
         sync_repositories env self w = (Ok tt, w1) ->
         sync env self w = sync_organizations env self w1
         /\ (recursion_limit env <> 0 ->
             In organizations_request (requests (snd (sync env self w))))).
Proof.
  split.
  - intros e w1 H. unfold sync, bind. now rewrite H.
  - intros w1 H.
    assert (Hs : sync env self w = sync_organizations env self w1)
      by (unfold sync, bind; now rewrite H).
    split; [exact Hs |].
    intros Hlimit. rewrite Hs. now apply sync_organizations_attempt.
Qed.

(** What [sync_repositories] does convert: a [TypeError] or [ValueError]
    raised while going through the fetched repositories is logged, and
    the message for the user is raised in its place. *)
Lemma sync_repositories_loop_error (env : Env) (self : Service.t)
  (w w1 w2 : World) (repos : pyval) (e : exn) :
  paginate env (recursion_limit env)
    "https://api.github.com/user/repos?per_page=100" w = (Ok repos, w1) ->
  (items <- lift (Py.iter repos) ;;
   for_each items
     (fun repo =>
        create_repository env self repo (DEFAULT_PRIVACY_LEVEL env) None ;;;
        ret tt)) w1 = (Raise e, w2) ->
  e = TypeError \/ e = ValueError ->
  sync_repositories env self w
  = (Raise
       (Exception_
          "Could not sync your GitHub repositories, try reconnecting your account"),
     add_log
       (mkLog ERROR "Error syncing GitHub repositories: %s" [ArgExn e] true)
       w2).
Proof.
  intros Hp Hloop He. unfold sync_repositories.
  unfold bind at 1. rewrite Hp. unfold try_except. rewrite Hloop.
  destruct He as [-> | ->]; reflexivity.
Qed.

(** C7, where the code falls short of it: when the gateway answers the
    repository listing with a body that is not JSON, the [ValueError] of
    [resp.json()] leaves [sync_repositories] as it is, and nothing is
    logged, because [paginate] is called before the [try]; in
    [sync_organizations], which calls it inside, the same answer is
    logged and turned into the message for the user. *)
Theorem sync_repositories_raw_decoding_error :
  sync_repositories Sample.gateway Sample.ann Sample.empty
  = (Raise ValueError, mkWorld [] [] [] [GET Sample.repos_url])
  /\ sync_organizations Sample.gateway Sample.ann Sample.empty
     = (Raise
          (Exception_
             "Could not sync your GitHub organizations, try reconnecting your account"),
        mkWorld [] []
          [mkLog ERROR "Error syncing GitHub organizations: %s"
             [ArgExn ValueError] true]
          [GET Sample.orgs_url]).
Proof. split; vm_compute; reflexivity. Qed.

(** ** The statements at the sample data *)

Lemma paginate_concat_witness :
  pages_from Sample.github Sample.repos_url [[Sample.kit]; [Sample.vault]]
  = true
  /\ List.length [[Sample.kit]; [Sample.vault]] <= 1000
  /\ fst (paginate Sample.github 1000 Sample.repos_url Sample.empty)
     = Ok (VList (List.concat [[Sample.kit]; [Sample.vault]])).
Proof.
  split; [vm_compute; reflexivity |].
  split; [simpl; lia |].
  apply (paginate_concat Sample.github [[Sample.kit]; [Sample.vault]] 1000
           Sample.repos_url Sample.empty).
  - vm_compute; reflexivity.
  - simpl; lia.
Defined.

Lemma create_repository_persists_iff_witness :
  repo_payload Sample.kit = true
  /\ List.length (matching_repositories Sample.ann Sample.kit Sample.empty) <= 1
  /\ (let run :=
        create_repository Sample.github Sample.ann Sample.kit "public" None
          Sample.empty in
      let admitted :=
        "public" = "private"
        \/ (Py.subscript Sample.kit "private" = Ok (VBool false)
            /\ "public" = "public") in
      let conflict :=
        exists found,
          In found (matching_repositories Sample.ann Sample.kit Sample.empty)
          /\ mismatched_orgs found None = true in
      ((exists r, fst run = Ok (Some r) /\ In r (repositories (snd run)))
       <-> admitted /\ ~ conflict)
      /\ (~ (admitted /\ ~ conflict) ->
          fst run = Ok None
          /\ repositories (snd run) = repositories Sample.empty)).
Proof.
  split; [vm_compute; reflexivity |].
  split; [simpl; lia |].
  apply (create_repository_persists_iff Sample.github Sample.ann Sample.kit
           "public" None Sample.empty).
  - vm_compute; reflexivity.
  - simpl; lia.
Defined.

(** C1 as stated fails: the visibility test admits the public payload
    [kit] under the requested privacy "public", yet the call without an
    organization persists nothing, because the row found is linked to
    organization 5. *)
Lemma create_repository_admitted_but_skipped :
  let run :=
    create_repository Sample.github Sample.ann Sample.kit "public" None
      Sample.linked in
  ("public" = "private"
   \/ (Py.subscript Sample.kit "private" = Ok (VBool false)
       /\ "public" = "public"))
  /\ fst run = Ok None
  /\ repositories (snd run) = repositories Sample.linked
  /\ ~ (exists r, fst run = Ok (Some r)).
Proof.
  cbv zeta. split; [right; split; reflexivity |].
  split; [vm_compute; reflexivity |].
  split; [vm_compute; reflexivity |].
  intros [r Hr]. vm_compute in Hr. discriminate.
Qed.


Lemma create_repository_other_organization_witness :
  repo_payload Sample.kit = true
  /\ matching_repositories Sample.ann Sample.kit Sample.linked
     = [Sample.kit_row]
  /\ RemoteRepository.organization Sample.kit_row = Some 5
  /\ RemoteOrganization.pk Sample.other_org <> 5
  /\ (let run :=
        create_repository Sample.github Sample.ann Sample.kit "public"
          (Some Sample.other_org) Sample.linked in
      fst run = Ok None
      /\ repositories (snd run) = repositories Sample.linked
      /\ organizations (snd run) = organizations Sample.linked
      /\ In Sample.kit_row (repositories (snd run))).
Proof.
  split; [vm_compute; reflexivity |].
  split; [vm_compute; reflexivity |].
  split; [vm_compute; reflexivity |].
  split; [vm_compute; lia |].
  apply (create_repository_other_organization Sample.github Sample.ann
           Sample.kit "public" 5 Sample.other_org Sample.kit_row
           Sample.linked).
  - vm_compute; reflexivity.
  - vm_compute; reflexivity.
  - vm_compute; reflexivity.
  - vm_compute; lia.
Defined.

Lemma create_repository_keeps_organization_witness :
  repo_payload Sample.kit = true
  /\ matching_repositories Sample.ann Sample.kit Sample.linked
     = [Sample.kit_row]
  /\ RemoteRepository.organization Sample.kit_row = Some 5
  /\ (let run :=
        create_repository Sample.github Sample.ann Sample.kit "public" None
          Sample.linked in
      fst run = Ok None
      /\ repositories (snd run) = repositories Sample.linked
      /\ organizations (snd run) = organizations Sample.linked
      /\ In Sample.kit_row (repositories (snd run))
      /\ log (snd run)
         = (log Sample.linked
            ++ [mkLog DEBUG
                  (if visible "public" Sample.kit
                   then "Not importing %s because mismatched orgs"
                   else "Not importing %s because mismatched type")
                  [ArgVal (item Sample.kit "name")] false])%list).
Proof.
  split; [vm_compute; reflexivity |].
  split; [vm_compute; reflexivity |].
  split; [vm_compute; reflexivity |].
  apply (create_repository_keeps_organization Sample.github Sample.ann
           Sample.kit "public" 5 Sample.kit_row Sample.linked).
  - vm_compute; reflexivity.
  - vm_compute; reflexivity.
  - vm_compute; reflexivity.
Defined.

(** C10 as stated fails: for the private payload [vault], whose row is
    linked to organization 5, the call of the user-repositories pass
    (default privacy "public", no organization) returns [None] and leaves
    the row alone, but through the visibility skip: the conflict branch
    is not taken, its log record is not written. *)
Lemma create_repository_skips_before_conflict :
  let run :=
    create_repository Sample.github Sample.ann Sample.vault
      (DEFAULT_PRIVACY_LEVEL Sample.github) None Sample.linked in
  matching_repositories Sample.ann Sample.vault Sample.linked
  = [Sample.vault_row]
  /\ RemoteRepository.organization Sample.vault_row = Some 5
  /\ fst run = Ok None
  /\ log (snd run)
     = [mkLog DEBUG "Not importing %s because mismatched type"
          [ArgVal (VStr "vault")] false]
  /\ ~ In (conflict_record Sample.vault) (log (snd run)).
Proof.
  cbv zeta.
  split; [vm_compute; reflexivity |].
  split; [vm_compute; reflexivity |].
  split; [vm_compute; reflexivity |].
  split; [vm_compute; reflexivity |].
  vm_compute. intros [H | []]. discriminate.
Qed.

(** C5 as stated fails: when GitHub rejects the credentials,
    [sync_repositories] raises, [sync] raises with it, and the
    organizations are never asked for. *)
Lemma sync_skips_organizations_after_failure :
  (exists e w1,
      sync_repositories Sample.rejected Sample.ann Sample.empty
      = (Raise e, w1))
  /\ recursion_limit Sample.rejected <> 0
  /\ requests (snd (sync Sample.rejected Sample.ann Sample.empty))
     = [GET Sample.repos_url]
  /\ ~ In organizations_request
         (requests (snd (sync Sample.rejected Sample.ann Sample.empty))).
Proof.
  split; [do 2 eexists; vm_compute; reflexivity |].
  split; [vm_compute; lia |].
  split; [vm_compute; reflexivity |].
  vm_compute. intros [H | []]. discriminate.
Qed.

(** C8 as stated fails: users 1 and 2 of the project both have a
    credential; the scan returns the one of user 2, the last, where the
    first match is the one of user 1. *)
Lemma get_token_for_project_not_first_match :
  let run :=
    get_token_for_project Sample.github Sample.kit_project true Sample.empty in
  private_repos_allowed Sample.github = true
  /\ scans_locally Sample.github true = true
  /\ first_match Sample.github (Project.users Sample.kit_project)
     = Some (VStr "token-of-ann")
  /\ fst run = Ok (VStr "token-of-bob")
  /\ fst run
     <> Ok (getattr
              (first_match Sample.github (Project.users Sample.kit_project))
              VNone).
Proof.
  cbv zeta.
  split; [vm_compute; reflexivity |].
  split; [vm_compute; reflexivity |].
  split; [vm_compute; reflexivity |].
  split; [vm_compute; reflexivity |].
  vm_compute. discriminate.
Qed.

Lemma upsert_twice_in_place_witness :
  let w1 :=
    snd (create_repository Sample.github Sample.ann Sample.kit "public" None
           Sample.empty) in
  let r1 := overwrite Sample.github Sample.ann Sample.kit None
              (new_repository Sample.ann Sample.kit Sample.empty) in
  let v1 :=
    snd (create_organization Sample.github Sample.ann Sample.acme_object
           Sample.empty) in
  let o1 := overwrite_organization Sample.github Sample.ann Sample.acme_object
              (new_organization Sample.ann Sample.acme_object Sample.empty) in
  let run2 :=
    create_repository Sample.github Sample.ann Sample.kit_renamed "public"
      None w1 in
  let r2 := overwrite Sample.github Sample.ann Sample.kit_renamed None r1 in
  let orun2 :=
    create_organization Sample.github Sample.ann Sample.acme_renamed v1 in
  let o2 :=
    overwrite_organization Sample.github Sample.ann Sample.acme_renamed o1 in
  repo_payload Sample.kit = true
  /\ repo_payload Sample.kit_renamed = true
  /\ item Sample.kit_renamed "full_name" = item Sample.kit "full_name"
  /\ NoDup (map RemoteRepository.pk (repositories Sample.empty))
  /\ create_repository Sample.github Sample.ann Sample.kit "public" None
       Sample.empty = (Ok (Some r1), w1)
  /\ Py.get Sample.acme_renamed "login" VNone
     = Py.get Sample.acme_object "login" VNone
  /\ NoDup (map RemoteOrganization.pk (organizations Sample.empty))
  /\ create_organization Sample.github Sample.ann Sample.acme_object
       Sample.empty = (Ok o1, v1)
  /\ visible "public" Sample.kit_renamed = true
  /\ mismatched_orgs r1 None = false
  /\ fst run2 = Ok (Some r2)
  /\ RemoteRepository.name r2 = item Sample.kit_renamed "name"
  /\ matching_repositories Sample.ann Sample.kit_renamed (snd run2) = [r2]
  /\ fst orun2 = Ok o2
  /\ RemoteOrganization.name o2 = entry Sample.acme_renamed "name".
Proof.
  cbv zeta.
  assert (Hwf1 : repo_payload Sample.kit = true)
    by (vm_compute; reflexivity).
  assert (Hwf2 : repo_payload Sample.kit_renamed = true)
    by (vm_compute; reflexivity).
  assert (Hfn : item Sample.kit_renamed "full_name"
                = item Sample.kit "full_name")
    by (vm_compute; reflexivity).
  assert (Hrun1 : create_repository Sample.github Sample.ann Sample.kit
                    "public" None Sample.empty
                  = (Ok (Some
                           (overwrite Sample.github Sample.ann Sample.kit None
                              (new_repository Sample.ann Sample.kit
                                 Sample.empty))),
                     snd (create_repository Sample.github Sample.ann
                            Sample.kit "public" None Sample.empty)))
    by (vm_compute; reflexivity).
  assert (Hlogin : Py.get Sample.acme_renamed "login" VNone
                   = Py.get Sample.acme_object "login" VNone)
    by (vm_compute; reflexivity).
  assert (Horun1 : create_organization Sample.github Sample.ann
                     Sample.acme_object Sample.empty
                   = (Ok (overwrite_organization Sample.github Sample.ann
                            Sample.acme_object
                            (new_organization Sample.ann Sample.acme_object
                               Sample.empty)),
                      snd (create_organization Sample.github Sample.ann
                             Sample.acme_object Sample.empty)))
    by (vm_compute; reflexivity).
  assert (Hv : visible "public" Sample.kit_renamed = true)
    by (vm_compute; reflexivity).
  assert (Hmis : mismatched_orgs
                   (overwrite Sample.github Sample.ann Sample.kit None
                      (new_repository Sample.ann Sample.kit Sample.empty))
                   None = false)
    by (vm_compute; reflexivity).
  pose proof
    (upsert_twice_in_place Sample.github Sample.ann Sample.kit
       Sample.kit_renamed "public" "public" None None Sample.empty _ _
       Sample.acme_object Sample.acme_renamed Sample.empty _ _
       Hwf1 Hwf2 Hfn (NoDup_nil _) Hrun1 Hlogin (NoDup_nil _) Horun1) as H.
  cbv zeta in H. destruct H as ((_ & Hupd & _) & Ho & _).
  destruct (Hupd Hv Hmis)
    as (Hres & _ & _ & _ & Hname & _ & _ & _ & _ & _ & Hmatch).
  destruct Ho as (Hores & _ & _ & _ & _ & Honame & _).
  split; [exact Hwf1 |]. split; [exact Hwf2 |]. split; [exact Hfn |].
  split; [constructor |]. split; [exact Hrun1 |]. split; [exact Hlogin |].
  split; [constructor |]. split; [exact Horun1 |]. split; [exact Hv |].
  split; [exact Hmis |]. split; [exact Hres |]. split; [exact Hname |].
  split; [exact Hmatch |]. split; [exact Hores | exact Honame].
Defined.

(** C9 as stated fails: [kit] is first upserted under organization 5;
    the second upsert of the same key, with the repository renamed and no
    organization passed, returns [None]: the table is as it was and no
    row carries the new name. *)
Lemma upsert_twice_second_skipped :
  let w1 :=
    snd (create_repository Sample.github Sample.ann Sample.kit "public"
           (Some Sample.acme) Sample.empty) in
  let run2 :=
    create_repository Sample.github Sample.ann Sample.kit_renamed "public"
      None w1 in
  create_repository Sample.github Sample.ann Sample.kit "public"
    (Some Sample.acme) Sample.empty = (Ok (Some Sample.kit_row), w1)
  /\ item Sample.kit_renamed "full_name" = item Sample.kit "full_name"
  /\ visible "public" Sample.kit_renamed = true
  /\ fst run2 = Ok None
  /\ repositories (snd run2) = [Sample.kit_row]
  /\ RemoteRepository.name Sample.kit_row = VStr "kit"
  /\ item Sample.kit_renamed "name" = VStr "toolkit"
  /\ ~ (exists r2, fst run2 = Ok (Some r2)).
Proof.
  cbv zeta.
  split; [vm_compute; reflexivity |].
  split; [vm_compute; reflexivity |].
  split; [vm_compute; reflexivity |].
  split; [vm_compute; reflexivity |].
  split; [vm_compute; reflexivity |].
  split; [vm_compute; reflexivity |].
  split; [vm_compute; reflexivity |].
  intros [r2 Hr2]. vm_compute in Hr2. discriminate.
Qed.



Lemma get_token_for_project_last_match_witness :
  private_repos_allowed Sample.github = true
  /\ scans_locally Sample.github true = true
  /\ queries_succeed Sample.github (Project.users Sample.kit_project) = true
  /\ get_token_for_project Sample.github Sample.kit_project true Sample.empty
     = (Ok (VStr "token-of-bob"), Sample.empty).
Proof.
  split; [reflexivity |]. split; [reflexivity |]. split; [reflexivity |].
  apply (proj2 (proj2 (get_token_for_project_last_match Sample.github
                         Sample.kit_project true Sample.empty)));
    reflexivity.
Defined.

Lemma sync_stops_at_first_failure_witness :
  (exists e w1,
      sync_repositories Sample.rejected Sample.ann Sample.empty
      = (Raise e, w1)
      /\ sync Sample.rejected Sample.ann Sample.empty = (Raise e, w1))
  /\ (exists w1,
         sync_repositories Sample.github Sample.ann Sample.empty = (Ok tt, w1)
         /\ In organizations_request
              (requests (snd (sync Sample.github Sample.ann Sample.empty)))).
Proof.
  split.
  - eexists. eexists.
    assert (H : sync_repositories Sample.rejected Sample.ann Sample.empty
                = (Raise
                     (Exception_
                        "Could not sync your GitHub repositories, try reconnecting your account"),
                   snd (sync_repositories Sample.rejected Sample.ann
                          Sample.empty)))
      by (vm_compute; reflexivity).
    split; [exact H |].
    exact (proj1 (sync_stops_at_first_failure Sample.rejected Sample.ann
                    Sample.empty) _ _ H).
  - eexists.
    assert (H : sync_repositories Sample.github Sample.ann Sample.empty
                = (Ok tt,
                   snd (sync_repositories Sample.github Sample.ann
                          Sample.empty)))
      by (vm_compute; reflexivity).
    split; [exact H |].
    apply (proj2 (sync_stops_at_first_failure Sample.github Sample.ann
                    Sample.empty) _ H).
    vm_compute. lia.
Defined.

(** * Further properties of the service *)

(** ** What the methods leave alone *)

Section Frames.
Context {B : Type} (f : World -> B).

Lemma preserves_ret {A : Type} (a : A) : preserves f (ret a).
Proof. intros w. reflexivity. Qed.

Lemma preserves_raise {A : Type} (e : exn) : preserves f (@raise A e).
Proof. intros w. reflexivity. Qed.

Lemma preserves_lift {A : Type} (r : result A) : preserves f (lift r).
Proof. intros w. reflexivity. Qed.

Lemma preserves_bind {A C : Type} (m : M A) (k : A -> M C) :
  preserves f m -> (forall a, preserves f (k a)) -> preserves f (bind m k).
Proof.
  intros Hm Hk w. unfold bind. specialize (Hm w).
  destruct (m w) as [[a | e] w1]; cbn [snd] in *; [| exact Hm].
  now rewrite Hk.
Qed.

Lemma preserves_try_except {A : Type} (body : M A)
  (handler : exn -> option (M A)) :
  preserves f body ->
  (forall e h, handler e = Some h -> preserves f h) ->
  preserves f (try_except body handler).
Proof.
  intros Hb Hh w. unfold try_except. specialize (Hb w).
  destruct (body w) as [[a | e] w1]; cbn [snd] in *; [exact Hb |].
  destruct (handler e) as [h |] eqn:E; [| exact Hb].
  now rewrite (Hh e h E).
Qed.

Lemma preserves_for_each {A : Type} (l : list A) (body : A -> M unit) :
  (forall x, preserves f (body x)) -> preserves f (for_each l body).
Proof.
  intros Hb. induction l as [| x l IH]; simpl.
  - apply preserves_ret.
  - apply preserves_bind; [apply Hb | intros _; exact IH].
Qed.

Lemma preserves_Response_json (resp : Response) :
  preserves f (Response_json resp).
Proof.
  unfold Response_json.
  destruct (body resp); [apply preserves_ret | apply preserves_raise].
Qed.

Lemma preserves_extend_method (result : pyval) :
  preserves f (extend_method result).
Proof.
  destruct result; first [apply preserves_ret | apply preserves_raise].
Qed.

Lemma preserves_repository_get (fn : pyval) (u a : nat) :
  preserves f (RemoteRepositoryManager.get fn u a).
Proof. intros w. reflexivity. Qed.

Lemma preserves_organization_get (s : pyval) (u a : nat) :
  preserves f (RemoteOrganizationManager.get s u a).
Proof. intros w. reflexivity. Qed.
End Frames.

(** The primitives that write, each with the components it leaves. *)
Lemma log_call_keeps (l : level) (m : string) (a : list logarg) (ei : bool) :
  preserves repositories (log_call l m a ei)
  /\ preserves organizations (log_call l m a ei)
  /\ preserves requests (log_call l m a ei).
Proof. repeat split. Qed.

Lemma session_get_keeps (env : Env) (url : string) :
  preserves repositories (session_get env url)
  /\ preserves organizations (session_get env url)
  /\ preserves log (session_get env url).
Proof. repeat split. Qed.

Lemma repository_create_keeps (fn : pyval) (a : nat) :
  preserves organizations (RemoteRepositoryManager.create fn a)
  /\ preserves requests (RemoteRepositoryManager.create fn a)
  /\ preserves log (RemoteRepositoryManager.create fn a).
Proof. repeat split. Qed.

Lemma repository_users_add_keeps (r : RemoteRepository.t) (u : nat) :
  preserves organizations (RemoteRepositoryManager.users_add r u)
  /\ preserves requests (RemoteRepositoryManager.users_add r u)
  /\ preserves log (RemoteRepositoryManager.users_add r u).
Proof. repeat split. Qed.

Lemma repository_save_keeps (r : RemoteRepository.t) :
  preserves organizations (RemoteRepositoryManager.save r)
  /\ preserves requests (RemoteRepositoryManager.save r)
  /\ preserves log (RemoteRepositoryManager.save r).
Proof. repeat split. Qed.

Lemma organization_create_keeps (s : pyval) (a : nat) :
  preserves repositories (RemoteOrganizationManager.create s a)
  /\ preserves requests (RemoteOrganizationManager.create s a)
  /\ preserves log (RemoteOrganizationManager.create s a).
Proof. repeat split. Qed.

Lemma organization_users_add_keeps (o : RemoteOrganization.t) (u : nat) :
  preserves repositories (RemoteOrganizationManager.users_add o u)
  /\ preserves requests (RemoteOrganizationManager.users_add o u)
  /\ preserves log (RemoteOrganizationManager.users_add o u).
Proof. repeat split. Qed.

Lemma organization_save_keeps (o : RemoteOrganization.t) :
  preserves repositories (RemoteOrganizationManager.save o)
  /\ preserves requests (RemoteOrganizationManager.save o)
  /\ preserves log (RemoteOrganizationManager.save o).
Proof. repeat split. Qed.

(** One step of a frame proof: follow the shape of the program, and close
    the primitives with the facts above. *)
Ltac frame_step :=
  match goal with
  | |- preserves _ (bind _ _) => apply preserves_bind; [| intros ?]
  | |- preserves _ (try_except _ _) =>
      apply preserves_try_except;
      [| let e := fresh "e" in
         let h := fresh "h" in
         let E := fresh "E" in
         intros e h E; destruct e; try discriminate E;
         injection E as <-]
  | |- preserves _ (for_each _ _) => apply preserves_for_each; intros ?
  | |- preserves _ (ret _) => apply preserves_ret
  | |- preserves _ (raise _) => apply preserves_raise
  | |- preserves _ (lift _) => apply preserves_lift
  | |- preserves _ (Response_json _) => apply preserves_Response_json
  | |- preserves _ (extend_method _) => apply preserves_extend_method
  | |- preserves _ (RemoteRepositoryManager.get _ _ _) =>
      apply preserves_repository_get
  | |- preserves _ (RemoteOrganizationManager.get _ _ _) =>
      apply preserves_organization_get
  | |- preserves _ (log_call _ _ _ _) => apply log_call_keeps
  | |- preserves _ (session_get _ _) => apply session_get_keeps
  | |- preserves _ (RemoteRepositoryManager.create _ _) =>
      apply repository_create_keeps
  | |- preserves _ (RemoteRepositoryManager.users_add _ _) =>
      apply repository_users_add_keeps
  | |- preserves _ (RemoteRepositoryManager.save _) =>
      apply repository_save_keeps
  | |- preserves _ (RemoteOrganizationManager.create _ _) =>
      apply organization_create_keeps
  | |- preserves _ (RemoteOrganizationManager.users_add _ _) =>
      apply organization_users_add_keeps
  | |- preserves _ (RemoteOrganizationManager.save _) =>
      apply organization_save_keeps
  | |- preserves _ (if ?b then _ else _) => destruct b
  | |- preserves _ (match ?x with _ => _ end) => destruct x
  | H : _ |- preserves _ _ => solve [apply H]
  end.

Ltac frame := repeat frame_step.

Lemma paginate_keeps (env : Env) (depth : nat) :
  forall url,
    preserves repositories (paginate env depth url)
    /\ preserves organizations (paginate env depth url)
    /\ preserves log (paginate env depth url).
Proof.
  induction depth as [| depth IH]; intros url; simpl.
  - repeat split.
  - split; [| split]; frame; apply IH.
Qed.

(** X1: [paginate] only talks to the API: whatever the answers, it leaves
    both tables and the log as they are, and it only appends to the list
    of requests. *)
Theorem paginate_only_requests (env : Env) (depth : nat) (url : string)
  (w : World) :
  let w' := snd (paginate env depth url w) in
  repositories w' = repositories w
  /\ organizations w' = organizations w
  /\ log w' = log w
  /\ extends (requests w) (requests w').
Proof.
  cbv zeta. destruct (paginate_keeps env depth url) as (Hr & Ho & Hl).
  split; [apply Hr |]. split; [apply Ho |]. split; [apply Hl |].
  apply monotone_paginate.
Qed.

Lemma chain_urls_length (env : Env) (pages : list (list pyval)) :
  forall url,
    pages_from env url pages = true ->
    List.length (chain_urls env url (List.length pages)) = List.length pages.
Proof.
  induction pages as [| items rest IH]; intros url Hp; [discriminate |].
  apply pages_from_step in Hp as (resp & Hget & _ & Hnext).
  cbn [List.length chain_urls]. rewrite Hget.
  destruct rest as [| page rest].
  - now rewrite Hnext.
  - destruct Hnext as [Ht Hrest]. rewrite Ht. f_equal. now apply IH.
Qed.

(** X2: on a chain of N pages, [paginate] issues exactly N requests, one
    GET for each page in the order of the links, and none twice. *)
Theorem paginate_requests (env : Env) (pages : list (list pyval)) :
  forall (depth : nat) (url : string) (w : World),
    pages_from env url pages = true ->
    List.length pages <= depth ->
    requests (snd (paginate env depth url w))
    = (requests w ++ map GET (chain_urls env url (List.length pages)))%list
    /\ List.length (chain_urls env url (List.length pages))
       = List.length pages.
Proof.
  intros depth url w Hp Hd. split; [| now apply chain_urls_length].
  revert depth url w Hp Hd.
  induction pages as [| items rest IH]; intros depth url w Hp Hd.
  - discriminate.
  - destruct depth as [| depth]; [simpl in Hd; lia |].
    apply pages_from_step in Hp as (resp & Hget & Hbody & Hnext).
    cbn [List.length chain_urls]. rewrite Hget.
    simpl paginate. unfold bind at 1, session_get. rewrite Hget.
    unfold bind at 1, Response_json. rewrite Hbody. unfold ret at 1.
    destruct rest as [| page rest].
    + rewrite Hnext. reflexivity.
    + destruct Hnext as [Ht Hrest]. rewrite Ht.
      unfold bind at 1, extend_method, ret at 1. unfold bind at 1.
      specialize (IH depth (getattr (next_link resp) "")
                    (add_request (GET url) w) Hrest).
      pose proof (paginate_concat env (page :: rest) depth
                    (getattr (next_link resp) "")
                    (add_request (GET url) w) Hrest) as Hres.
      destruct (paginate env depth (getattr (next_link resp) "")
                  (add_request (GET url) w)) as [r w'] eqn:E.
      cbn [fst snd] in IH, Hres.
      rewrite Hres by (simpl in Hd; simpl; lia).
      unfold bind, lift, ret. cbn [Py.iter snd].
      rewrite IH by (simpl in Hd; simpl; lia).
      cbn [requests add_request map]. now rewrite <- app_assoc.
Qed.

(** X3: when every page links to a next page, [paginate] never returns:
    whatever the allowed depth of nested calls, the call ends in an
    exception. *)
Theorem paginate_endless (env : Env) :
  endless env ->
  forall (depth : nat) (url : string) (w : World),
    exists e, fst (paginate env depth url w) = Raise e.
Proof.
  intros Hend. induction depth as [| depth IH]; intros url w.
  - eexists. reflexivity.
  - simpl paginate. unfold bind at 1, session_get.
    destruct (http_get env url) as [resp | e] eqn:Hget;
      [| exists e; reflexivity].
    unfold bind at 1, Response_json.
    destruct (body resp) as [v |]; [| eexists; reflexivity].
    unfold ret at 1. rewrite (Hend url resp Hget).
    unfold bind at 1, extend_method.
    destruct v as [| b | z | s | l | d];
      try (exists AttributeError; reflexivity).
    unfold ret at 1. unfold bind at 1.
    destruct (IH (getattr (next_link resp) "") (add_request (GET url) w))
      as [e He].
    destruct (paginate env depth (getattr (next_link resp) "")
                (add_request (GET url) w)) as [[r | e'] w'];
      [discriminate | eauto].
Qed.

Lemma paginate_requests_witness :
  pages_from Sample.github Sample.repos_url [[Sample.kit]; [Sample.vault]]
  = true
  /\ List.length [[Sample.kit]; [Sample.vault]] <= 1000
  /\ requests (snd (paginate Sample.github 1000 Sample.repos_url Sample.empty))
     = [GET Sample.repos_url; GET Sample.repos_page2_url].
Proof.
  split; [vm_compute; reflexivity |].
  split; [simpl; lia |].
  assert (Hd : List.length [[Sample.kit]; [Sample.vault]] <= 1000)
    by (simpl; lia).
  exact (proj1 (paginate_requests Sample.github
                  [[Sample.kit]; [Sample.vault]] 1000 Sample.repos_url
                  Sample.empty eq_refl Hd)).
Defined.

Lemma paginate_endless_witness :
  endless Sample.looping
  /\ exists e,
      fst (paginate Sample.looping 1000 Sample.repos_url Sample.empty)
      = Raise e.
Proof.
  assert (H : endless Sample.looping).
  { intros url resp Hget. injection Hget as <-. reflexivity. }
  split; [exact H |].
  apply (paginate_endless Sample.looping H 1000 Sample.repos_url
           Sample.empty).
Defined.

(** ** More on [create_repository] *)

(** X4: a payload that is not a JSON object makes [create_repository]
    raise [TypeError] at its first subscript, under every privacy level,
    before anything is read from or written to the database or the log. *)
Theorem create_repository_not_object (env : Env) (self : Service.t)
  (fields : pyval) (privacy : string)
  (organization : option RemoteOrganization.t) (w : World) :
  is_object fields = false ->
  create_repository env self fields privacy organization w
  = (Raise TypeError, w).
Proof.
  intros Hobj. unfold create_repository.
  destruct fields as [| b | z | s | l | d]; try discriminate Hobj;
    destruct (String.eqb privacy "private"); reflexivity.
Qed.

Lemma create_repository_not_object_witness :
  is_object (VStr "message") = false
  /\ create_repository Sample.rejected Sample.ann (VStr "message") "public"
       None Sample.linked
     = (Raise TypeError, Sample.linked).
Proof.
  split; [reflexivity |].
  apply (create_repository_not_object Sample.rejected Sample.ann
           (VStr "message") "public" None Sample.linked).
  reflexivity.
Defined.

(** X5: under a privacy level that is neither "private" nor "public",
    [create_repository] never persists anything: whatever the payload, no
    record is returned and both tables stay as they are. *)
Theorem create_repository_other_privacy (env : Env) (self : Service.t)
  (fields : pyval) (privacy : string)
  (organization : option RemoteOrganization.t) (w : World) :
  privacy <> "private" ->
  privacy <> "public" ->
  let run := create_repository env self fields privacy organization w in
  (forall r, fst run <> Ok (Some r))
  /\ repositories (snd run) = repositories w
  /\ organizations (snd run) = organizations w.
Proof.
  intros Hprivate Hpublic. cbv zeta. unfold create_repository.
  apply String.eqb_neq in Hprivate, Hpublic. rewrite Hprivate, Hpublic.
  destruct (Py.subscript fields "private") as [p | e].
  - unfold bind, lift, ret, log_call. cbv beta iota.
    rewrite andb_false_r. cbv beta iota.
    destruct (Py.subscript fields "name") as [n | e];
      (split; [intros r; discriminate | split; reflexivity]).
  - unfold bind, lift.
    split; [intros r; discriminate | split; reflexivity].
Qed.

Lemma create_repository_other_privacy_witness :
  "protected" <> "private"
  /\ "protected" <> "public"
  /\ (let run :=
        create_repository Sample.github Sample.ann Sample.kit "protected"
          None Sample.empty in
      (forall r, fst run <> Ok (Some r))
      /\ repositories (snd run) = repositories Sample.empty
      /\ organizations (snd run) = organizations Sample.empty).
Proof.
  split; [discriminate |]. split; [discriminate |].
  apply (create_repository_other_privacy Sample.github Sample.ann Sample.kit
           "protected" None Sample.empty); discriminate.
Defined.

Lemma create_repository_keeps (env : Env) (self : Service.t)
  (fields : pyval) (privacy : string)
  (organization : option RemoteOrganization.t) :
  preserves organizations
    (create_repository env self fields privacy organization)
  /\ preserves requests
       (create_repository env self fields privacy organization).
Proof. unfold create_repository. split; frame. Qed.

Lemma create_organization_keeps (env : Env) (self : Service.t)
  (fields : pyval) :
  preserves repositories (create_organization env self fields)
  /\ preserves requests (create_organization env self fields)
  /\ preserves log (create_organization env self fields).
Proof. unfold create_organization. split; [| split]; frame. Qed.

(** X6: the upserts write to their own table only and never talk to the
    API: [create_repository] leaves the organizations and the list of
    requests as they are, [create_organization] leaves the repositories,
    the list of requests and the log as they are, whatever the payload
    and whatever the outcome. *)
Theorem upserts_keep_to_their_table (env : Env) (self : Service.t)
  (fields : pyval) (privacy : string)
  (organization : option RemoteOrganization.t) (w : World) :
  let run := create_repository env self fields privacy organization w in
  let orun := create_organization env self fields w in
  (organizations (snd run) = organizations w
   /\ requests (snd run) = requests w)
  /\ (repositories (snd orun) = repositories w
      /\ requests (snd orun) = requests w
      /\ log (snd orun) = log w).
Proof.
  cbv zeta.
  destruct (create_repository_keeps env self fields privacy organization)
    as [H1 H2].
  destruct (create_organization_keeps env self fields) as (H3 & H4 & H5).
  repeat split; [apply H1 | apply H2 | apply H3 | apply H4 | apply H5].
Qed.

Lemma matches_inv (fn : pyval) (u a : nat) (r : RemoteRepository.t) :
  RemoteRepositoryManager.matches fn u a r = true ->
  RemoteRepository.full_name r = fn /\ In u (RemoteRepository.users r)
  /\ RemoteRepository.account r = a.
Proof.
  unfold RemoteRepositoryManager.matches. rewrite !andb_true_iff.
  intros [[Hfn Hu] Ha]. apply pyval_eqb_eq in Hfn. apply Nat.eqb_eq in Ha.
  apply existsb_exists in Hu as (x & Hin & Hx). apply Nat.eqb_eq in Hx.
  subst. auto.
Qed.

(** The record that the lookup, or else the creation, hands to the rest
    of [create_repository] carries the key it was asked for. *)
Lemma lookup_or_create_inv (self : Service.t) (fields : pyval)
  (w w' : World) (repo : RemoteRepository.t) :
  try_except
    (fn <- lift (Py.subscript fields "full_name") ;;
     RemoteRepositoryManager.get fn (Service.user self)
       (Service.account self))
    (fun e =>
       match e with
       | DoesNotExist =>
           Some
             (fn <- lift (Py.subscript fields "full_name") ;;
              repo <- RemoteRepositoryManager.create fn
                        (Service.account self) ;;
              RemoteRepositoryManager.users_add repo (Service.user self))
       | _ => None
       end) w = (Ok repo, w') ->
  Py.subscript fields "full_name" = Ok (RemoteRepository.full_name repo)
  /\ In (Service.user self) (RemoteRepository.users repo).
Proof.
  unfold try_except, bind at 1, lift at 1.
  destruct (Py.subscript fields "full_name") as [fn | e];
    [| destruct e; cbv beta iota; try rewrite bind_lift_raise;
       discriminate].
  unfold RemoteRepositoryManager.get, Table.select.
  destruct (filter _ (repositories w)) as [| found [| other rest]] eqn:Hf;
    [| | discriminate].
  - rewrite bind_lift_ok.
    unfold bind, RemoteRepositoryManager.create,
      RemoteRepositoryManager.users_add.
    cbv beta iota zeta. intros H. injection H as <- _. cbn. auto.
  - cbv beta iota. intros H. injection H as <- _.
    assert (Hin : In found
                    (filter
                       (RemoteRepositoryManager.matches fn
                          (Service.user self) (Service.account self))
                       (repositories w)))
      by (rewrite Hf; now left).
    apply filter_In in Hin as [_ Hm]. apply matches_inv in Hm as (-> & Hu & _).
    auto.
Qed.

(** X7: every record that [create_repository] returns is the image of
    the payload: its full name, name, description, SSH and HTML URLs are
    the payload's, its version-control kind is "git", its account is the
    service's and the service's user is among its users, its
    organization is the one passed (none when none is passed), its admin
    flag is [permissions.admin] of the payload, [False] when the payload
    has no permissions, and its avatar is [owner.avatar_url], [None] when
    the payload has no owner. *)
Theorem create_repository_record (env : Env) (self : Service.t)
  (fields : pyval) (privacy : string)
  (organization : option RemoteOrganization.t) (w w' : World)
  (r : RemoteRepository.t) :
  create_repository env self fields privacy organization w = (Ok (Some r), w') ->
  Py.subscript fields "full_name" = Ok (RemoteRepository.full_name r)
  /\ In (Service.user self) (RemoteRepository.users r)
  /\ RemoteRepository.account r = Service.account self
  /\ RemoteRepository.organization r
     = option_map RemoteOrganization.pk organization
  /\ Py.subscript fields "name" = Ok (RemoteRepository.name r)
  /\ Py.subscript fields "description" = Ok (RemoteRepository.description r)
  /\ Py.subscript fields "ssh_url" = Ok (RemoteRepository.ssh_url r)
  /\ Py.subscript fields "html_url" = Ok (RemoteRepository.html_url r)
  /\ RemoteRepository.vcs r = VStr "git"
  /\ RemoteRepository.json r = VStr (json_dumps env fields)
  /\ (exists perms,
         Py.get fields "permissions" (VDict []) = Ok perms
         /\ Py.get perms "admin" (VBool false)
            = Ok (RemoteRepository.admin r))
  /\ (exists owner,
         Py.get fields "owner" (VDict []) = Ok owner
         /\ Py.get owner "avatar_url" VNone
            = Ok (RemoteRepository.avatar_url r)).
Proof.
  intros H. unfold create_repository in H.
  bind_inv H cond Hcond. destruct cond.
  - bind_inv H repo Hrepo. apply lookup_or_create_inv in Hrepo as [Hfn Hu].
    destruct (mismatched_orgs repo organization).
    + lift_inv H n Hn. bind_inv H u Hlog.
      apply ret_ok_inv in H as [H _]. discriminate.
    + lift_inv H nm Hnm. lift_inv H ds Hds. lift_inv H ssh Hssh.
      lift_inv H html Hhtml. lift_inv H pv Hpv.
      bind_inv H cl Hcl.
      lift_inv H perms Hperms. lift_inv H ad Had.
      lift_inv H owner Howner. lift_inv H av Hav.
      bind_inv H u Hsave.
      apply ret_ok_inv in H as [H _]. injection H as <-.
      cbn. repeat split; eauto.
  - lift_inv H n Hn. bind_inv H u Hlog.
    apply ret_ok_inv in H as [H _]. discriminate.
Qed.

Lemma create_repository_record_witness :
  let run :=
    create_repository Sample.github Sample.ann Sample.kit "public"
      (Some Sample.acme) Sample.empty in
  run = (Ok (Some Sample.kit_row), snd run)
  /\ RemoteRepository.full_name Sample.kit_row = VStr "ann/kit"
  /\ RemoteRepository.organization Sample.kit_row = Some 5
  /\ RemoteRepository.admin Sample.kit_row = VBool true.
Proof.
  cbv zeta.
  assert (H : create_repository Sample.github Sample.ann Sample.kit "public"
                (Some Sample.acme) Sample.empty
              = (Ok (Some Sample.kit_row),
                 snd (create_repository Sample.github Sample.ann Sample.kit
                        "public" (Some Sample.acme) Sample.empty)))
    by (vm_compute; reflexivity).
  split; [exact H |].
  pose proof (create_repository_record _ _ _ _ _ _ _ _ H)
    as (Hfn & _ & _ & Horg & _).
  split; [reflexivity |]. split; [exact Horg | reflexivity].
Defined.

(** X8: the first encounter of a repository: when no row answers the
    lookup and the visibility test admits the payload, the call appends
    exactly one row to the table, under a key that no row had, with the
    service's user as its only user; the rows that were there, the
    organizations, the log and the requests are as before. *)
Theorem create_repository_first_encounter (env : Env) (self : Service.t)
  (fields : pyval) (privacy : string)
  (organization : option RemoteOrganization.t) (w : World) :
  repo_payload fields = true ->
  visible privacy fields = true ->
  matching_repositories self fields w = [] ->
  exists r,
    create_repository env self fields privacy organization w
    = (Ok (Some r), set_repositories (repositories w ++ [r]) w)
    /\ ~ In (RemoteRepository.pk r)
           (map RemoteRepository.pk (repositories w))
    /\ RemoteRepository.users r = [Service.user self].
Proof.
  intros Hwf Hv Hm. rewrite create_repository_run by exact Hwf.
  rewrite Hv, Hm. cbv zeta. eexists. split; [reflexivity |].
  split; [| reflexivity].
  intros Hin. apply in_map_iff in Hin as (row & Hpk & Hin).
  apply (@next_pk_above _ RemoteRepository_Model) in Hin.
  cbn -[Table.next_pk] in Hpk. cbn [pk_of RemoteRepository_Model] in Hin.
  lia.
Qed.

Lemma create_repository_first_encounter_witness :
  repo_payload Sample.kit = true
  /\ visible "public" Sample.kit = true
  /\ matching_repositories Sample.ann Sample.kit Sample.empty = []
  /\ exists r,
      create_repository Sample.github Sample.ann Sample.kit "public" None
        Sample.empty
      = (Ok (Some r),
         set_repositories (repositories Sample.empty ++ [r]) Sample.empty)
      /\ ~ In (RemoteRepository.pk r)
             (map RemoteRepository.pk (repositories Sample.empty))
      /\ RemoteRepository.users r = [Service.user Sample.ann].
Proof.
  split; [vm_compute; reflexivity |].
  split; [vm_compute; reflexivity |].
  split; [vm_compute; reflexivity |].
  apply (create_repository_first_encounter Sample.github Sample.ann
           Sample.kit "public" None Sample.empty); vm_compute; reflexivity.
Defined.

(** X9: an update is in place: when the lookup finds one row and there
    is no organization conflict, the returned record takes the place of
    that row in the table, under the same key and with the same users;
    every other row, and the order of the rows, is as before. *)
Theorem create_repository_update_in_place (env : Env) (self : Service.t)
  (fields : pyval) (privacy : string)
  (organization : option RemoteOrganization.t) (w : World)
  (found : RemoteRepository.t) :
  repo_payload fields = true ->
  visible privacy fields = true ->
  NoDup (map RemoteRepository.pk (repositories w)) ->
  matching_repositories self fields w = [found] ->
  mismatched_orgs found organization = false ->
  exists r before after,
    fst (create_repository env self fields privacy organization w)
    = Ok (Some r)
    /\ repositories w = (before ++ found :: after)%list
    /\ repositories
         (snd (create_repository env self fields privacy organization w))
       = (before ++ r :: after)%list
    /\ RemoteRepository.pk r = RemoteRepository.pk found
    /\ RemoteRepository.users r = RemoteRepository.users found
    /\ RemoteRepository.organization r
       = option_map RemoteOrganization.pk organization.
Proof.
  intros Hwf Hv Hnd Hm Hmis. rewrite create_repository_run by exact Hwf.
  rewrite Hv, Hm, Hmis. cbv zeta.
  assert (Hin : In found (repositories w))
    by (apply (matching_in self fields); rewrite Hm; now left).
  destruct (@replace_one _ RemoteRepository_Model
              (overwrite env self fields organization found) found
              (repositories w) Hnd Hin eq_refl)
    as (before & after & Hrows & Hmap).
  exists (overwrite env self fields organization found), before, after.
  cbn [fst snd repositories set_repositories].
  repeat split; assumption.
Qed.

Lemma create_repository_update_in_place_witness :
  repo_payload Sample.kit_renamed = true
  /\ visible "public" Sample.kit_renamed = true
  /\ NoDup (map RemoteRepository.pk (repositories Sample.linked))
  /\ matching_repositories Sample.ann Sample.kit_renamed Sample.linked
     = [Sample.kit_row]
  /\ mismatched_orgs Sample.kit_row (Some Sample.acme) = false
  /\ exists r before after,
      fst (create_repository Sample.github Sample.ann Sample.kit_renamed
             "public" (Some Sample.acme) Sample.linked)
      = Ok (Some r)
      /\ repositories Sample.linked
         = (before ++ Sample.kit_row :: after)%list
      /\ repositories
           (snd (create_repository Sample.github Sample.ann
                   Sample.kit_renamed "public" (Some Sample.acme)
                   Sample.linked))
         = (before ++ r :: after)%list
      /\ RemoteRepository.pk r = RemoteRepository.pk Sample.kit_row
      /\ RemoteRepository.users r = RemoteRepository.users Sample.kit_row
      /\ RemoteRepository.organization r
         = option_map RemoteOrganization.pk (Some Sample.acme).
Proof.
  assert (Hnd : NoDup (map RemoteRepository.pk (repositories Sample.linked))).
  { vm_compute. repeat constructor; cbn; intuition discriminate. }
  split; [vm_compute; reflexivity |].
  split; [vm_compute; reflexivity |].
  split; [exact Hnd |].
  split; [vm_compute; reflexivity |].
  split; [vm_compute; reflexivity |].
  apply (create_repository_update_in_place Sample.github Sample.ann
           Sample.kit_renamed "public" (Some Sample.acme) Sample.linked
           Sample.kit_row);
    first [exact Hnd | vm_compute; reflexivity].
Defined.

Lemma mismatched_orgs_false (r : RemoteRepository.t)
  (organization : option RemoteOrganization.t) (a : nat) :
  mismatched_orgs r organization = false ->
  RemoteRepository.organization r = Some a ->
  option_map RemoteOrganization.pk organization = Some a.
Proof.
  unfold mismatched_orgs, organization_differs. intros Hmis Ha.
  rewrite Ha in Hmis. destruct organization as [o |]; [| discriminate].
  apply negb_false_iff, Nat.eqb_eq in Hmis. cbn. now rewrite Hmis.
Qed.

(** X10: a link to an organization is permanent: for a repository object
    and a table with distinct keys, whatever the privacy and the
    organization passed, every row linked to an organization before a
    call of [create_repository] is still there after it, under its key
    and linked to the same organization. *)
Theorem organization_link_is_permanent (env : Env) (self : Service.t)
  (fields : pyval) (privacy : string)
  (organization : option RemoteOrganization.t) (w : World)
  (row : RemoteRepository.t) (a : nat) :
  repo_payload fields = true ->
  NoDup (map RemoteRepository.pk (repositories w)) ->
  In row (repositories w) ->
  RemoteRepository.organization row = Some a ->
  exists row',
    In row'
      (repositories
         (snd (create_repository env self fields privacy organization w)))
    /\ RemoteRepository.pk row' = RemoteRepository.pk row
    /\ RemoteRepository.organization row' = Some a.
Proof.
  intros Hwf Hnd Hin Ha. rewrite create_repository_run by exact Hwf.
  destruct (visible privacy fields); [| exists row; auto].
  destruct (matching_repositories self fields w)
    as [| found [| other rest]] eqn:Hm; [| | exists row; auto].
  - exists row. cbn. split; [apply in_or_app; now left | auto].
  - destruct (mismatched_orgs found organization) eqn:Hmis;
      [exists row; auto |].
    cbv zeta. cbn [snd repositories set_repositories].
    assert (Hfound : In found (repositories w))
      by (apply (matching_in self fields); rewrite Hm; now left).
    destruct (Nat.eq_dec (RemoteRepository.pk row)
                (RemoteRepository.pk found)) as [E | E].
    + assert (row = found)
        by (apply (@pk_injective _ RemoteRepository_Model (repositories w));
            assumption).
      subst row.
      exists (overwrite env self fields organization found).
      split; [| split].
      * now apply (@in_replace _ RemoteRepository_Model) with (found := found).
      * reflexivity.
      * cbn. now apply mismatched_orgs_false with (r := found).
    + exists row. split; [| auto].
      apply in_map_iff. exists row. split; [| exact Hin].
      unfold Table.replace. cbn [pk_of RemoteRepository_Model].
      change (RemoteRepository.pk
                (overwrite env self fields organization found))
        with (RemoteRepository.pk found).
      apply Nat.eqb_neq in E. now rewrite E.
Qed.

Lemma organization_link_is_permanent_witness :
  repo_payload Sample.kit = true
  /\ NoDup (map RemoteRepository.pk (repositories Sample.linked))
  /\ In Sample.kit_row (repositories Sample.linked)
  /\ RemoteRepository.organization Sample.kit_row = Some 5
  /\ exists row',
      In row'
        (repositories
           (snd (create_repository Sample.github Sample.ann Sample.kit
                   "private" (Some Sample.other_org) Sample.linked)))
      /\ RemoteRepository.pk row' = RemoteRepository.pk Sample.kit_row
      /\ RemoteRepository.organization row' = Some 5.
Proof.
  assert (Hnd : NoDup (map RemoteRepository.pk (repositories Sample.linked))).
  { vm_compute. repeat constructor; cbn; intuition discriminate. }
  assert (Hin : In Sample.kit_row (repositories Sample.linked))
    by (vm_compute; left; reflexivity).
  split; [vm_compute; reflexivity |]. split; [exact Hnd |].
  split; [exact Hin |]. split; [vm_compute; reflexivity |].
  apply (organization_link_is_permanent Sample.github Sample.ann Sample.kit
           "private" (Some Sample.other_org) Sample.linked Sample.kit_row 5);
    first [assumption | vm_compute; reflexivity].
Defined.

Lemma matches_overwrite_eq (env : Env) (self : Service.t) (fields : pyval)
  (organization : option RemoteOrganization.t) (fn : pyval) (u a : nat)
  (r : RemoteRepository.t) :
  RemoteRepository.account r = Service.account self ->
  RemoteRepositoryManager.matches fn u a
    (overwrite env self fields organization r)
  = RemoteRepositoryManager.matches fn u a r.
Proof.
  intros Ha. unfold RemoteRepositoryManager.matches. cbn. now rewrite Ha.
Qed.

(** X11: the upsert keeps the table sound: for a repository object, when
    the keys of the table are distinct and no two rows answer the same
    lookup, [create_repository] does not raise, and both facts hold of
    the table afterwards; so a table that the service alone has filled
    never makes the lookup find several rows. *)
Theorem create_repository_keeps_keys_unique (env : Env) (self : Service.t)
  (fields : pyval) (privacy : string)
  (organization : option RemoteOrganization.t) (w : World) :
  repo_payload fields = true ->
  NoDup (map RemoteRepository.pk (repositories w)) ->
  repository_keys_unique (repositories w) ->
  let run := create_repository env self fields privacy organization w in
  (exists o, fst run = Ok o)
  /\ NoDup (map RemoteRepository.pk (repositories (snd run)))
  /\ repository_keys_unique (repositories (snd run)).
Proof.
  intros Hwf Hnd Hkeys. cbv zeta.
  rewrite create_repository_run by exact Hwf.
  destruct (visible privacy fields); [| cbn; eauto].
  pose proof (Hkeys (item fields "full_name") (Service.user self)
                (Service.account self)) as Hlen.
  fold (matching_repositories self fields w) in Hlen.
  destruct (matching_repositories self fields w)
    as [| found [| other rest]] eqn:Hm; [| | simpl in Hlen; lia].
  - cbv zeta. cbn [fst snd repositories set_repositories].
    split; [eauto |]. split.
    + apply (@NoDup_insert _ RemoteRepository_Model);
        [exact Hnd | reflexivity].
    + intros fn u a. rewrite filter_app. cbn [filter].
      destruct (RemoteRepositoryManager.matches fn u a
                  (overwrite env self fields organization
                     (new_repository self fields w))) eqn:Hr.
      * apply matches_inv in Hr as (Hfn & Hu & Ha).
        cbn -[Table.next_pk] in Hfn, Hu, Ha.
        destruct Hu as [Hu | []]. subst fn u a.
        unfold matching_repositories in Hm. rewrite Hm. simpl. lia.
      * rewrite app_nil_r. apply Hkeys.
  - destruct (mismatched_orgs found organization); [cbn; eauto |].
    cbv zeta. cbn [fst snd repositories set_repositories].
    assert (Hfound : In found (matching_repositories self fields w))
      by (rewrite Hm; now left).
    unfold matching_repositories in Hfound.
    apply filter_In in Hfound as [Hfound Hmatch].
    apply matches_inv in Hmatch as (_ & _ & Hacc).
    split; [eauto |]. split.
    + change (NoDup (map pk_of (map (Table.replace
                (overwrite env self fields organization found))
                (repositories w)))).
      now rewrite pks_replace.
    + intros fn u a.
      rewrite filter_map_same.
      * rewrite length_map. apply Hkeys.
      * intros x Hx. unfold Table.replace.
        destruct (Nat.eqb_spec (pk_of x)
                    (pk_of (overwrite env self fields organization found)))
          as [E | E]; [| reflexivity].
        assert (x = found)
          by (apply (@pk_injective _ RemoteRepository_Model
                       (repositories w)); assumption).
        subst x. now apply matches_overwrite_eq.
Qed.

Lemma create_repository_keeps_keys_unique_witness :
  repo_payload Sample.kit = true
  /\ NoDup (map RemoteRepository.pk (repositories Sample.empty))
  /\ repository_keys_unique (repositories Sample.empty)
  /\ (let run :=
        create_repository Sample.github Sample.ann Sample.kit "public" None
          Sample.empty in
      (exists o, fst run = Ok o)
      /\ NoDup (map RemoteRepository.pk (repositories (snd run)))
      /\ repository_keys_unique (repositories (snd run))).
Proof.
  assert (Hk : repository_keys_unique (repositories Sample.empty))
    by (intros fn u a; simpl; lia).
  assert (Hwf : repo_payload Sample.kit = true)
    by (vm_compute; reflexivity).
  split; [exact Hwf |]. split; [constructor |]. split; [exact Hk |].
  apply (create_repository_keeps_keys_unique Sample.github Sample.ann
           Sample.kit "public" None Sample.empty Hwf (NoDup_nil _) Hk).
Defined.

(** Two rows with the same attributes are the same row. *)
Lemma repository_ext (r r' : RemoteRepository.t) :
  RemoteRepository.pk r = RemoteRepository.pk r' ->
  RemoteRepository.full_name r = RemoteRepository.full_name r' ->
  RemoteRepository.users r = RemoteRepository.users r' ->
  RemoteRepository.account r = RemoteRepository.account r' ->
  RemoteRepository.organization r = RemoteRepository.organization r' ->
  RemoteRepository.name r = RemoteRepository.name r' ->
  RemoteRepository.description r = RemoteRepository.description r' ->
  RemoteRepository.ssh_url r = RemoteRepository.ssh_url r' ->
  RemoteRepository.html_url r = RemoteRepository.html_url r' ->
  RemoteRepository.private r = RemoteRepository.private r' ->
  RemoteRepository.clone_url r = RemoteRepository.clone_url r' ->
  RemoteRepository.admin r = RemoteRepository.admin r' ->
  RemoteRepository.vcs r = RemoteRepository.vcs r' ->
  RemoteRepository.avatar_url r = RemoteRepository.avatar_url r' ->
  RemoteRepository.json r = RemoteRepository.json r' ->
  r = r'.
Proof.
  destruct r, r'. cbn. intros. subst. reflexivity.
Qed.

Lemma overwrite_twice (env : Env) (self : Service.t) (fields : pyval)
  (organization : option RemoteOrganization.t) (r : RemoteRepository.t) :
  overwrite env self fields organization
    (overwrite env self fields organization r)
  = overwrite env self fields organization r.
Proof.
  apply repository_ext; cbn -[item nested Py.truthy]; reflexivity.
Qed.

Lemma mismatched_orgs_overwrite (env : Env) (self : Service.t)
  (fields : pyval) (organization : option RemoteOrganization.t)
  (r : RemoteRepository.t) :
  mismatched_orgs (overwrite env self fields organization r) organization
  = false.
Proof.
  unfold mismatched_orgs, organization_differs. cbn.
  destruct organization as [o |]; cbn; [now rewrite Nat.eqb_refl |].
  reflexivity.
Qed.

Lemma set_repositories_same (w : World) :
  set_repositories (repositories w) w = w.
Proof. now destruct w. Qed.

(** X12: a successful upsert is idempotent: for a repository object and a
    table with distinct keys, repeating a call of [create_repository]
    that returned a record, with the same arguments, returns the same
    record and changes nothing at all. *)
Theorem create_repository_idempotent (env : Env) (self : Service.t)
  (fields : pyval) (privacy : string)
  (organization : option RemoteOrganization.t) (w w1 : World)
  (r1 : RemoteRepository.t) :
  repo_payload fields = true ->
  NoDup (map RemoteRepository.pk (repositories w)) ->
  create_repository env self fields privacy organization w
  = (Ok (Some r1), w1) ->
  create_repository env self fields privacy organization w1
  = (Ok (Some r1), w1).
Proof.
  intros Hwf Hnd H.
  destruct (upsert_selects _ _ _ _ _ _ _ _ Hwf Hnd H) as [Hm1 Hnd1].
  assert (Hform : exists x, r1 = overwrite env self fields organization x).
  { rewrite create_repository_run in H by exact Hwf.
    destruct (visible privacy fields); [| discriminate].
    destruct (matching_repositories self fields w)
      as [| found [| other rest]]; [| | discriminate].
    - cbv zeta in H. injection H as <- _. eauto.
    - destruct (mismatched_orgs found organization); [discriminate |].
      cbv zeta in H. injection H as <- _. eauto. }
  assert (Hv : visible privacy fields = true).
  { rewrite create_repository_run in H by exact Hwf.
    destruct (visible privacy fields); [reflexivity | discriminate]. }
  destruct Hform as [x ->].
  rewrite create_repository_run by exact Hwf.
  rewrite Hv, Hm1, mismatched_orgs_overwrite. cbv zeta.
  rewrite overwrite_twice.
  assert (Hin : In (overwrite env self fields organization x)
                  (repositories w1))
    by (apply (matching_in self fields); rewrite Hm1; now left).
  destruct (@replace_one _ RemoteRepository_Model
              (overwrite env self fields organization x)
              (overwrite env self fields organization x)
              (repositories w1) Hnd1 Hin eq_refl)
    as (before & after & Hrows & Hmap).
  rewrite Hmap, <- Hrows, set_repositories_same. reflexivity.
Qed.

Lemma create_repository_idempotent_witness :
  let w1 :=
    snd (create_repository Sample.github Sample.ann Sample.kit "public"
           (Some Sample.acme) Sample.empty) in
  repo_payload Sample.kit = true
  /\ NoDup (map RemoteRepository.pk (repositories Sample.empty))
  /\ create_repository Sample.github Sample.ann Sample.kit "public"
       (Some Sample.acme) Sample.empty
     = (Ok (Some Sample.kit_row), w1)
  /\ create_repository Sample.github Sample.ann Sample.kit "public"
       (Some Sample.acme) w1
     = (Ok (Some Sample.kit_row), w1).
Proof.
  cbv zeta.
  assert (H : create_repository Sample.github Sample.ann Sample.kit "public"
                (Some Sample.acme) Sample.empty
              = (Ok (Some Sample.kit_row),
                 snd (create_repository Sample.github Sample.ann Sample.kit
                        "public" (Some Sample.acme) Sample.empty)))
    by (vm_compute; reflexivity).
  assert (Hwf : repo_payload Sample.kit = true)
    by (vm_compute; reflexivity).
  split; [exact Hwf |]. split; [constructor |]. split; [exact H |].
  apply (create_repository_idempotent Sample.github Sample.ann Sample.kit
           "public" (Some Sample.acme) Sample.empty _ Sample.kit_row
           Hwf (NoDup_nil _) H).
Defined.

(** X13: when several rows answer the lookup of an admitted repository
    object, [create_repository] raises [MultipleObjectsReturned] and
    leaves the database and the log untouched. *)
Theorem create_repository_several_rows (env : Env) (self : Service.t)
  (fields : pyval) (privacy : string)
  (organization : option RemoteOrganization.t) (w : World) :
  repo_payload fields = true ->
  visible privacy fields = true ->
  2 <= List.length (matching_repositories self fields w) ->
  create_repository env self fields privacy organization w
  = (Raise MultipleObjectsReturned, w).
Proof.
  intros Hwf Hv Hlen. rewrite create_repository_run by exact Hwf.
  rewrite Hv.
  destruct (matching_repositories self fields w)
    as [| found [| other rest]]; simpl in Hlen; try lia.
  reflexivity.
Qed.

Lemma create_repository_several_rows_witness :
  repo_payload Sample.kit = true
  /\ visible "public" Sample.kit = true
  /\ 2 <= List.length (matching_repositories Sample.ann Sample.kit
                         Sample.doubled)
  /\ create_repository Sample.github Sample.ann Sample.kit "public" None
       Sample.doubled
     = (Raise MultipleObjectsReturned, Sample.doubled).
Proof.
  assert (Hlen : 2 <= List.length (matching_repositories Sample.ann
                                     Sample.kit Sample.doubled))
    by (vm_compute; lia).
  assert (Hwf : repo_payload Sample.kit = true)
    by (vm_compute; reflexivity).
  assert (Hv : visible "public" Sample.kit = true)
    by (vm_compute; reflexivity).
  split; [exact Hwf |]. split; [exact Hv |]. split; [exact Hlen |].
  apply (create_repository_several_rows Sample.github Sample.ann Sample.kit
           "public" None Sample.doubled Hwf Hv Hlen).
Defined.

(** ** More on [create_organization] *)

(** X14: a payload that is not a JSON object makes
    [create_organization] raise [AttributeError] at its first [.get],
    before anything is read from or written to the database. *)
Theorem create_organization_not_object (env : Env) (self : Service.t)
  (fields : pyval) (w : World) :
  is_object fields = false ->
  create_organization env self fields w = (Raise AttributeError, w).
Proof.
  intros Hobj.
  destruct fields as [| b | z | s | l | d]; try discriminate Hobj;
    reflexivity.
Qed.

Lemma create_organization_not_object_witness :
  is_object VNone = false
  /\ create_organization Sample.github Sample.ann VNone Sample.empty
     = (Raise AttributeError, Sample.empty).
Proof.
  split; [reflexivity |].
  apply (create_organization_not_object Sample.github Sample.ann VNone
           Sample.empty eq_refl).
Defined.

Lemma organization_matches_inv (s : pyval) (u a : nat)
  (o : RemoteOrganization.t) :
  RemoteOrganizationManager.matches s u a o = true ->
  RemoteOrganization.slug o = s /\ In u (RemoteOrganization.users o)
  /\ RemoteOrganization.account o = a.
Proof.
  unfold RemoteOrganizationManager.matches. rewrite !andb_true_iff.
  intros [[Hs Hu] Ha]. apply pyval_eqb_eq in Hs. apply Nat.eqb_eq in Ha.
  apply existsb_exists in Hu as (x & Hin & Hx). apply Nat.eqb_eq in Hx.
  subst. auto.
Qed.

Lemma entry_missing (fields : pyval) (k : string) :
  has_key k fields = false -> entry fields k = VNone.
Proof.
  unfold has_key, entry.
  destruct fields as [| b | z | s | l | d]; try reflexivity.
  cbn. now destruct (Py.lookup k d).
Qed.

(** X15: [create_organization] never skips: for a JSON object and a
    table in which at most one row answers the lookup, it returns a
    record that is in the table afterwards, filed under the payload's
    login for the service's user and account, with URL, name, email and
    avatar taken from the payload; a key that the payload lacks gives
    [None] and no error. *)
Theorem create_organization_record (env : Env) (self : Service.t)
  (fields : pyval) (w : World) :
  is_object fields = true ->
  List.length (matching_organizations self fields w) <= 1 ->
  exists o w',
    create_organization env self fields w = (Ok o, w')
    /\ In o (organizations w')
    /\ RemoteOrganization.slug o = entry fields "login"
    /\ In (Service.user self) (RemoteOrganization.users o)
    /\ RemoteOrganization.account o = Service.account self
    /\ RemoteOrganization.url o = entry fields "html_url"
    /\ RemoteOrganization.name o = entry fields "name"
    /\ RemoteOrganization.email o = entry fields "email"
    /\ RemoteOrganization.avatar_url o = entry fields "avatar_url"
    /\ RemoteOrganization.json o = VStr (json_dumps env fields)
    /\ (forall k, has_key k fields = false -> entry fields k = VNone).
Proof.
  intros Hobj Hlen.
  destruct fields as [| b | z | s | l | d]; try discriminate Hobj.
  rewrite create_organization_run.
  destruct (matching_organizations self (VDict d) w)
    as [| found [| other rest]] eqn:Hm; [| | simpl in Hlen; lia];
    cbv zeta; do 2 eexists; (split; [reflexivity |]);
    cbn [organizations set_organizations].
  - split; [apply in_or_app; right; now left |].
    cbn -[Table.next_pk entry].
    repeat split; auto using entry_missing.
  - assert (Hin : In found (matching_organizations self (VDict d) w))
      by (rewrite Hm; now left).
    unfold matching_organizations in Hin.
    apply filter_In in Hin as [Hin Hmatch].
    apply organization_matches_inv in Hmatch as (Hslug & Hu & _).
    split; [now apply (@in_replace _ RemoteOrganization_Model)
                  with (found := found) |].
    cbn -[entry]. repeat split; auto using entry_missing.
Qed.

Lemma create_organization_record_witness :
  is_object Sample.acme_renamed = true
  /\ List.length
       (matching_organizations Sample.ann Sample.acme_renamed Sample.empty)
     <= 1
  /\ exists o w',
      create_organization Sample.github Sample.ann Sample.acme_renamed
        Sample.empty = (Ok o, w')
      /\ RemoteOrganization.slug o = VStr "acme"
      /\ RemoteOrganization.name o = VStr "Acme Corporation"
      /\ RemoteOrganization.email o = VNone.
Proof.
  assert (Hlen : List.length
                   (matching_organizations Sample.ann Sample.acme_renamed
                      Sample.empty) <= 1) by (simpl; lia).
  split; [reflexivity |]. split; [exact Hlen |].
  destruct (create_organization_record Sample.github Sample.ann
              Sample.acme_renamed Sample.empty eq_refl Hlen)
    as (o & w' & Hrun & _ & Hslug & _ & _ & _ & Hname & Hemail & _).
  exists o, w'.
  split; [exact Hrun |]. split; [exact Hslug |].
  split; [exact Hname | exact Hemail].
Defined.

Lemma matches_overwrite_organization_eq (env : Env) (self : Service.t)
  (fields : pyval) (s : pyval) (u a : nat) (o : RemoteOrganization.t) :
  RemoteOrganization.account o = Service.account self ->
  RemoteOrganizationManager.matches s u a
    (overwrite_organization env self fields o)
  = RemoteOrganizationManager.matches s u a o.
Proof.
  intros Ha. unfold RemoteOrganizationManager.matches. cbn. now rewrite Ha.
Qed.

(** X16: [create_organization] keeps its table sound: for a JSON object,
    when the keys of the table are distinct and no two rows answer the
    same lookup, the call returns a record, and both facts hold of the
    table afterwards. *)
Theorem create_organization_keeps_keys_unique (env : Env) (self : Service.t)
  (fields : pyval) (w : World) :
  is_object fields = true ->
  NoDup (map RemoteOrganization.pk (organizations w)) ->
  organization_keys_unique (organizations w) ->
  let run := create_organization env self fields w in
  (exists o, fst run = Ok o)
  /\ NoDup (map RemoteOrganization.pk (organizations (snd run)))
  /\ organization_keys_unique (organizations (snd run)).
Proof.
  intros Hobj Hnd Hkeys. cbv zeta.
  destruct fields as [| b | z | s | l | d]; try discriminate Hobj.
  rewrite create_organization_run.
  pose proof (Hkeys (entry (VDict d) "login") (Service.user self)
                (Service.account self)) as Hlen.
  fold (matching_organizations self (VDict d) w) in Hlen.
  destruct (matching_organizations self (VDict d) w)
    as [| found [| other rest]] eqn:Hm; [| | simpl in Hlen; lia];
    cbv zeta; cbn [fst snd organizations set_organizations];
    (split; [eauto |]); split.
  - apply (@NoDup_insert _ RemoteOrganization_Model);
      [exact Hnd | reflexivity].
  - intros s u a. rewrite filter_app. cbn [filter].
    destruct (RemoteOrganizationManager.matches s u a
                (overwrite_organization env self (VDict d)
                   (new_organization self (VDict d) w))) eqn:Hr.
    + apply organization_matches_inv in Hr as (Hs & Hu & Ha).
      cbn -[Table.next_pk entry] in Hs, Hu, Ha.
      destruct Hu as [Hu | []]. subst s u a.
      unfold matching_organizations in Hm. rewrite Hm. simpl. lia.
    + rewrite app_nil_r. apply Hkeys.
  - change (NoDup (map pk_of (map (Table.replace
              (overwrite_organization env self (VDict d) found))
              (organizations w)))).
    now rewrite pks_replace.
  - assert (Hfound : In found (matching_organizations self (VDict d) w))
      by (rewrite Hm; now left).
    unfold matching_organizations in Hfound.
    apply filter_In in Hfound as [Hfound Hmatch].
    apply organization_matches_inv in Hmatch as (_ & _ & Hacc).
    intros s u a.
    rewrite filter_map_same.
    + rewrite length_map. apply Hkeys.
    + intros x Hx. unfold Table.replace.
      destruct (Nat.eqb_spec (pk_of x)
                  (pk_of (overwrite_organization env self (VDict d) found)))
        as [E | E]; [| reflexivity].
      assert (x = found)
        by (apply (@pk_injective _ RemoteOrganization_Model
                     (organizations w)); assumption).
      subst x. now apply matches_overwrite_organization_eq.
Qed.

Lemma create_organization_keeps_keys_unique_witness :
  is_object Sample.acme_object = true
  /\ NoDup (map RemoteOrganization.pk (organizations Sample.empty))
  /\ organization_keys_unique (organizations Sample.empty)
  /\ (let run :=
        create_organization Sample.github Sample.ann Sample.acme_object
          Sample.empty in
      (exists o, fst run = Ok o)
      /\ NoDup (map RemoteOrganization.pk (organizations (snd run)))
      /\ organization_keys_unique (organizations (snd run))).
Proof.
  assert (Hk : organization_keys_unique (organizations Sample.empty))
    by (intros s u a; simpl; lia).
  split; [reflexivity |]. split; [constructor |]. split; [exact Hk |].
  apply (create_organization_keeps_keys_unique Sample.github Sample.ann
           Sample.acme_object Sample.empty eq_refl (NoDup_nil _) Hk).
Defined.

(** ** More on the two stages *)

(** X17: [sync_organizations] never lets a [TypeError] or a [ValueError]
    out, wherever it arises; in particular, when the listing of the
    organizations is answered with a body that is not JSON, the
    [ValueError] of the pagination is logged and the message for the user
    is raised in its place, after that one request. *)
Theorem sync_organizations_converts (env : Env) (self : Service.t)
  (w : World) :
  let run := sync_organizations env self w in
  fst run <> Raise TypeError
  /\ fst run <> Raise ValueError
  /\ (forall resp,
         recursion_limit env <> 0 ->
         http_get env "https://api.github.com/user/orgs" = Ok resp ->
         body resp = None ->
         run
         = (Raise
              (Exception_
                 "Could not sync your GitHub organizations, try reconnecting your account"),
            add_log
              (mkLog ERROR "Error syncing GitHub organizations: %s"
                 [ArgExn ValueError] true)
              (add_request (GET "https://api.github.com/user/orgs") w))).
Proof.
  cbv zeta. split; [| split].
  - unfold sync_organizations, try_except.
    match goal with
    | |- fst (let (r, w') := ?b in _) <> _ => destruct b as [[u | e] w1]
    end; [discriminate |].
    destruct e; cbn; discriminate.
  - unfold sync_organizations, try_except.
    match goal with
    | |- fst (let (r, w') := ?b in _) <> _ => destruct b as [[u | e] w1]
    end; [discriminate |].
    destruct e; cbn; discriminate.
  - intros resp Hlimit Hget Hbody. unfold sync_organizations.
    destruct (recursion_limit env) as [| depth]; [contradiction |].
    unfold try_except. simpl paginate.
    unfold bind at 1. unfold bind at 1. unfold session_get at 1.
    rewrite Hget. unfold bind at 1, Response_json. rewrite Hbody.
    reflexivity.
Qed.

Lemma sync_organizations_converts_witness :
  recursion_limit Sample.gateway <> 0
  /\ http_get Sample.gateway "https://api.github.com/user/orgs"
     = Ok (mkResponse 502 None [])
  /\ sync_organizations Sample.gateway Sample.ann Sample.empty
     = (Raise
          (Exception_
             "Could not sync your GitHub organizations, try reconnecting your account"),
        add_log
          (mkLog ERROR "Error syncing GitHub organizations: %s"
             [ArgExn ValueError] true)
          (add_request (GET "https://api.github.com/user/orgs")
             Sample.empty)).
Proof.
  assert (Hl : recursion_limit Sample.gateway <> 0) by (cbn; lia).
  split; [exact Hl |]. split; [reflexivity |].
  apply (proj2 (proj2 (sync_organizations_converts Sample.gateway Sample.ann
                         Sample.empty))
           (mkResponse 502 None []) Hl eq_refl eq_refl).
Defined.

(** X18: when the first item of the fetched listing is not a JSON object
    (as when the API answers with an error object, whose keys are then
    taken for repositories), [sync_repositories] logs the [TypeError] and
    raises the message for the user; nothing is written to the tables. *)
Theorem sync_repositories_not_object (env : Env) (self : Service.t)
  (w w1 : World) (repos x : pyval) (rest : list pyval) :
  paginate env (recursion_limit env)
    "https://api.github.com/user/repos?per_page=100" w = (Ok repos, w1) ->
  Py.iter repos = Ok (x :: rest) ->
  is_object x = false ->
  sync_repositories env self w
  = (Raise
       (Exception_
          "Could not sync your GitHub repositories, try reconnecting your account"),
     add_log
       (mkLog ERROR "Error syncing GitHub repositories: %s"
          [ArgExn TypeError] true)
       w1)
  /\ repositories w1 = repositories w
  /\ organizations w1 = organizations w.
Proof.
  intros Hp Hiter Hobj. split.
  - apply sync_repositories_loop_error with (repos := repos) (w1 := w1);
      [exact Hp | | now left].
    rewrite Hiter, bind_lift_ok. cbn [for_each].
    unfold bind at 1. unfold bind at 1.
    now rewrite create_repository_not_object.
  - pose proof (paginate_only_requests env (recursion_limit env)
                  "https://api.github.com/user/repos?per_page=100" w) as H.
    cbv zeta in H. rewrite Hp in H. cbn [snd] in H.
    destruct H as (Hr & Ho & _). now split.
Qed.

Lemma sync_repositories_not_object_witness :
  let w1 := add_request (GET Sample.repos_url) Sample.empty in
  paginate Sample.rejected (recursion_limit Sample.rejected)
    "https://api.github.com/user/repos?per_page=100" Sample.empty
  = (Ok (VDict [("message", VStr "Bad credentials")]), w1)
  /\ Py.iter (VDict [("message", VStr "Bad credentials")])
     = Ok [VStr "message"]
  /\ is_object (VStr "message") = false
  /\ sync_repositories Sample.rejected Sample.ann Sample.empty
     = (Raise
          (Exception_
             "Could not sync your GitHub repositories, try reconnecting your account"),
        add_log
          (mkLog ERROR "Error syncing GitHub repositories: %s"
             [ArgExn TypeError] true)
          w1).
Proof.
  cbv zeta.
  assert (Hp : paginate Sample.rejected (recursion_limit Sample.rejected)
                 "https://api.github.com/user/repos?per_page=100"
                 Sample.empty
               = (Ok (VDict [("message", VStr "Bad credentials")]),
                  add_request (GET Sample.repos_url) Sample.empty))
    by (vm_compute; reflexivity).
  split; [exact Hp |]. split; [reflexivity |]. split; [reflexivity |].
  exact (proj1 (sync_repositories_not_object Sample.rejected Sample.ann
                  Sample.empty _ _ (VStr "message") [] Hp eq_refl eq_refl)).
Defined.

(** X19: a missing key is not a malformed response for
    [sync_repositories]: when the first repository object lacks the key
    ["private"] and the default privacy is not "private", the [KeyError]
    leaves the method as it is, without the log record and without the
    message for the user. *)
Theorem sync_repositories_missing_key (env : Env) (self : Service.t)
  (w w1 : World) (repos x : pyval) (rest : list pyval) :
  paginate env (recursion_limit env)
    "https://api.github.com/user/repos?per_page=100" w = (Ok repos, w1) ->
  Py.iter repos = Ok (x :: rest) ->
  is_object x = true ->
  has_key "private" x = false ->
  DEFAULT_PRIVACY_LEVEL env <> "private" ->
  sync_repositories env self w = (Raise (KeyError "private"), w1).
Proof.
  intros Hp Hiter Hobj Hkey Hprivacy. unfold sync_repositories.
  unfold bind at 1. rewrite Hp. unfold try_except.
  rewrite Hiter, bind_lift_ok. cbn [for_each].
  unfold bind at 1. unfold bind at 1. unfold create_repository.
  apply String.eqb_neq in Hprivacy. rewrite Hprivacy.
  destruct x as [| b | z | s | l | d]; try discriminate Hobj.
  unfold has_key in Hkey. cbn [Py.subscript] in *.
  destruct (Py.lookup "private" d); [discriminate |].
  reflexivity.
Qed.

Lemma sync_repositories_missing_key_witness :
  let x := VDict [("name", VStr "kit"); ("full_name", VStr "ann/kit")] in
  let w1 := add_request (GET Sample.repos_url) Sample.empty in
  paginate Sample.partial (recursion_limit Sample.partial)
    "https://api.github.com/user/repos?per_page=100" Sample.empty
  = (Ok (VList [x]), w1)
  /\ Py.iter (VList [x]) = Ok [x]
  /\ is_object x = true
  /\ has_key "private" x = false
  /\ DEFAULT_PRIVACY_LEVEL Sample.partial <> "private"
  /\ sync_repositories Sample.partial Sample.ann Sample.empty
     = (Raise (KeyError "private"), w1).
Proof.
  cbv zeta.
  assert (Hp : paginate Sample.partial (recursion_limit Sample.partial)
                 "https://api.github.com/user/repos?per_page=100"
                 Sample.empty
               = (Ok (VList [VDict [("name", VStr "kit");
                                    ("full_name", VStr "ann/kit")]]),
                  add_request (GET Sample.repos_url) Sample.empty))
    by (vm_compute; reflexivity).
  assert (Hd : DEFAULT_PRIVACY_LEVEL Sample.partial <> "private")
    by (cbn; discriminate).
  split; [exact Hp |]. split; [reflexivity |]. split; [reflexivity |].
  split; [reflexivity |]. split; [exact Hd |].
  apply (sync_repositories_missing_key Sample.partial Sample.ann
           Sample.empty _ _ _ [] Hp eq_refl eq_refl eq_refl Hd).
Defined.

Lemma links_kept_refl (w : World) : links_kept w w.
Proof. intros row a Hin Ha. exists row. auto. Qed.

Lemma links_kept_trans (w1 w2 w3 : World) :
  links_kept w1 w2 -> links_kept w2 w3 -> links_kept w1 w3.
Proof.
  intros H12 H23 row a Hin Ha.
  destruct (H12 row a Hin Ha) as (row2 & Hin2 & Hpk2 & Ha2).
  destruct (H23 row2 a Hin2 Ha2) as (row3 & Hin3 & Hpk3 & Ha3).
  exists row3. repeat split; congruence.
Qed.

(** The loop of the two stages over repository objects. *)
Lemma upsert_loop (env : Env) (self : Service.t) (privacy : string)
  (organization : option RemoteOrganization.t) (items : list pyval) :
  forall w,
    forallb repo_payload items = true ->
    NoDup (map RemoteRepository.pk (repositories w)) ->
    repository_keys_unique (repositories w) ->
    exists w',
      for_each items
        (fun repo =>
           create_repository env self repo privacy organization ;;; ret tt) w
      = (Ok tt, w')
      /\ NoDup (map RemoteRepository.pk (repositories w'))
      /\ repository_keys_unique (repositories w')
      /\ links_kept w w'
      /\ organizations w' = organizations w
      /\ requests w' = requests w.
Proof.
  induction items as [| x items IH]; intros w Hwf Hnd Hkeys.
  - exists w. cbn. repeat split; auto using links_kept_refl.
  - cbn [forallb] in Hwf. apply andb_true_iff in Hwf as [Hx Hitems].
    pose proof (create_repository_keeps_keys_unique env self x privacy
                  organization w Hx Hnd Hkeys) as Hstep.
    cbv zeta in Hstep. destruct Hstep as ([o Ho] & Hnd1 & Hkeys1).
    assert (Hlinks : links_kept w
                       (snd (create_repository env self x privacy
                               organization w))).
    { intros row a Hin Ha.
      now apply organization_link_is_permanent. }
    destruct (create_repository_keeps env self x privacy organization)
      as [Horgs Hreqs].
    specialize (Horgs w). specialize (Hreqs w).
    destruct (create_repository env self x privacy organization w)
      as [res w1] eqn:Hrun.
    cbn [fst snd] in *. subst res.
    destruct (IH w1 Hitems Hnd1 Hkeys1)
      as (w' & Hloop & Hnd' & Hkeys' & Hlinks' & Horgs' & Hreqs').
    exists w'. cbn [for_each]. unfold bind at 1. unfold bind at 1.
    rewrite Hrun. unfold ret at 1. rewrite Hloop.
    repeat split; try assumption; try congruence.
    eapply links_kept_trans; eassumption.
Qed.

(** X20: on a listing of repository objects, [sync_repositories] runs to
    its end: when the keys of the table are distinct and no two rows
    answer the same lookup, it returns without an exception, both facts
    hold of the table afterwards, every row linked to an organization is
    still linked to it, and the organizations are as before. *)
Theorem sync_repositories_sound (env : Env) (self : Service.t)
  (w w1 : World) (items : list pyval) :
  paginate env (recursion_limit env)
    "https://api.github.com/user/repos?per_page=100" w
  = (Ok (VList items), w1) ->
  forallb repo_payload items = true ->
  NoDup (map RemoteRepository.pk (repositories w)) ->
  repository_keys_unique (repositories w) ->
  exists w',
    sync_repositories env self w = (Ok tt, w')
    /\ NoDup (map RemoteRepository.pk (repositories w'))
    /\ repository_keys_unique (repositories w')
    /\ links_kept w w'
    /\ organizations w' = organizations w.
Proof.
  intros Hp Hwf Hnd Hkeys.
  pose proof (paginate_only_requests env (recursion_limit env)
                "https://api.github.com/user/repos?per_page=100" w) as Hf.
  cbv zeta in Hf. rewrite Hp in Hf. cbn [snd] in Hf.
  destruct Hf as (Hr & Ho & _).
  rewrite <- Hr in Hnd, Hkeys.
  destruct (upsert_loop env self (DEFAULT_PRIVACY_LEVEL env) None items w1
              Hwf Hnd Hkeys)
    as (w' & Hloop & Hnd' & Hkeys' & Hlinks' & Horgs' & _).
  exists w'. unfold sync_repositories. unfold bind at 1. rewrite Hp.
  unfold try_except. cbn [Py.iter]. rewrite bind_lift_ok, Hloop.
  repeat split; try assumption; [| congruence].
  intros row a Hin Ha. apply Hlinks'; [| exact Ha]. now rewrite Hr.
Qed.

Lemma sync_repositories_sound_witness :
  let w1 :=
    snd (paginate Sample.github (recursion_limit Sample.github)
           "https://api.github.com/user/repos?per_page=100" Sample.empty) in
  paginate Sample.github (recursion_limit Sample.github)
    "https://api.github.com/user/repos?per_page=100" Sample.empty
  = (Ok (VList [Sample.kit; Sample.vault]), w1)
  /\ forallb repo_payload [Sample.kit; Sample.vault] = true
  /\ NoDup (map RemoteRepository.pk (repositories Sample.empty))
  /\ repository_keys_unique (repositories Sample.empty)
  /\ exists w',
      sync_repositories Sample.github Sample.ann Sample.empty = (Ok tt, w')
      /\ NoDup (map RemoteRepository.pk (repositories w'))
      /\ repository_keys_unique (repositories w')
      /\ links_kept Sample.empty w'
      /\ organizations w' = organizations Sample.empty.
Proof.
  cbv zeta.
  assert (Hp : paginate Sample.github (recursion_limit Sample.github)
                 "https://api.github.com/user/repos?per_page=100"
                 Sample.empty
               = (Ok (VList [Sample.kit; Sample.vault]),
                  snd (paginate Sample.github
                         (recursion_limit Sample.github)
                         "https://api.github.com/user/repos?per_page=100"
                         Sample.empty)))
    by (vm_compute; reflexivity).
  assert (Hk : repository_keys_unique (repositories Sample.empty))
    by (intros fn u a; simpl; lia).
  assert (Hwf : forallb repo_payload [Sample.kit; Sample.vault] = true)
    by (vm_compute; reflexivity).
  split; [exact Hp |]. split; [exact Hwf |]. split; [constructor |].
  split; [exact Hk |].
  apply (sync_repositories_sound Sample.github Sample.ann Sample.empty _
           [Sample.kit; Sample.vault] Hp Hwf (NoDup_nil _) Hk).
Defined.

(** ** More on the token *)

Lemma first_match_snoc (env : Env) (user : nat) (l : list nat) :
  first_match env (l ++ [user])
  = match first_match env l with
    | Some t => Some t
    | None => stored_token env user
    end.
Proof.
  induction l as [| x l IHl]; simpl.
  - now destruct (stored_token env user).
  - destruct (stored_token env x); [reflexivity | exact IHl].
Qed.

Lemma scan_users_app (env : Env) (before after : list nat) :
  forall token,
    queries_succeed env before = true ->
    scan_users env (before ++ after) token
    = scan_users env after (getattr (last_match env before) token).
Proof.
  unfold last_match.
  induction before as [| user before IH]; intros token Hq.
  - reflexivity.
  - cbn [queries_succeed forallb] in Hq.
    apply andb_true_iff in Hq as [Huser Hbefore].
    cbn [app scan_users rev]. rewrite first_match_snoc.
    unfold stored_token.
    destruct (social_tokens env user provider_id) as [[| t ts] | e];
      [| | discriminate]; rewrite (IH _ Hbefore);
      now destruct (first_match env (rev before)).
Qed.

(** X21: a credential query that fails ends the scan without losing
    what was found: when the queries for the users before [user] are
    answered and the one for [user] raises, [get_token_for_project]
    logs one error and returns the credential of the last of the earlier
    users that has one, [None] when none has; the users after [user]
    are not looked at. *)
Theorem get_token_for_project_failed_query (env : Env) (project : Project.t)
  (force_local : bool) (w : World) (before after : list nat) (user : nat)
  (e : exn) :
  private_repos_allowed env = true ->
  scans_locally env force_local = true ->
  Project.users project = (before ++ user :: after)%list ->
  queries_succeed env before = true ->
  social_tokens env user provider_id = Raise e ->
  get_token_for_project env project force_local w
  = (Ok (getattr (last_match env before) VNone),
     add_log (mkLog ERROR "Failed to get token for user" [] true) w).
Proof.
  unfold private_repos_allowed, scans_locally, get_token_for_project.
  intros Hallowed Hloc Husers Hq He.
  rewrite Hallowed. cbn [negb]. apply negb_true_iff in Hloc. rewrite Hloc.
  rewrite Husers, scan_users_app by exact Hq.
  cbn [scan_users]. rewrite He. reflexivity.
Qed.

Lemma get_token_for_project_failed_query_witness :
  private_repos_allowed Sample.flaky = true
  /\ scans_locally Sample.flaky true = true
  /\ Project.users Sample.shared_project = ([1] ++ 2 :: [3])%list
  /\ queries_succeed Sample.flaky [1] = true
  /\ social_tokens Sample.flaky 2 provider_id
     = Raise (OtherError "OperationalError")
  /\ get_token_for_project Sample.flaky Sample.shared_project true
       Sample.empty
     = (Ok (VStr "token-of-ann"),
        add_log (mkLog ERROR "Failed to get token for user" [] true)
          Sample.empty).
Proof.
  split; [vm_compute; reflexivity |].
  split; [vm_compute; reflexivity |].
  split; [reflexivity |].
  split; [vm_compute; reflexivity |].
  split; [vm_compute; reflexivity |].
  apply (get_token_for_project_failed_query Sample.flaky
           Sample.shared_project true Sample.empty [1] [3] 2
           (OtherError "OperationalError")); vm_compute; reflexivity.
Defined.
